(** * Smart Energy Platform: analytics and forecasting engine

    A shallow embedding of [analysis.py], [carbon_footprint.py] and
    [energy_prediction_model.py], and the properties of the engine that
    the specification states.

    Numbers.  The Python code computes in IEEE binary64, almost always
    through pandas, NumPy and scikit-learn, whose summation order and
    rounding are not part of this repository.  A float is modelled by
    the rational number it denotes ([Q], compared with [==]); NaN, where
    the code can produce one, is [None] of an [option Q].  Square roots
    are never taken: a comparison against a standard deviation is decided
    on the squares.  Two places are given in binary64 itself: the
    product of [calculate_daily_co2_emissions], on the primitive floats
    ([PrimFloat]), and the rounding of [predict] to two decimals, which
    rounds the rationals to doubles ([Binary64.fl]).

    Tables.  A pandas DataFrame of readings is a list of rows, in row
    order; a column is the list of one field.

    Errors.  A Python exception is the [Raise] case of [result]. *)

From Stdlib Require Import String Ascii DecimalString.
From Stdlib Require Import ZArith QArith Qround Qabs Qpower List Bool Lia Psatz.
From Stdlib Require Import Reals Qreals.
From Stdlib Require Import Sorting.Sorted Sorting.Permutation.
From Stdlib Require Import Floats.
Import ListNotations.

Set Implicit Arguments.

(* ------------------------------------------------------------------ *)
(** * Exceptions *)

Inductive exn : Type :=
| RuntimeError (msg : string)
| ValueError (msg : string)
| ZeroDivisionError
| IndexError
| AttributeError (msg : string)
| NotFittedError.

Inductive result (A : Type) : Type :=
| Ok (a : A)
| Raise (e : exn).

Arguments Ok {A} a.
Arguments Raise {A} e.

Definition bind {A B : Type} (r : result A) (k : A -> result B) : result B :=
  match r with
  | Ok a => k a
  | Raise e => Raise e
  end.

Notation "x <- r ;; k" := (bind r (fun x => k))
  (at level 61, r at next level, right associativity).

Definition raises {A : Type} (r : result A) : Prop :=
  exists e, r = Raise e.

(* ------------------------------------------------------------------ *)
(** * Columns of numbers *)

Module Series.

Local Open Scope Q_scope.

(** Strict comparison of two floats, as a boolean. *)
Definition Qltb (x y : Q) : bool := negb (Qle_bool y x).

(** [Series.sum()]; the empty sum is 0. *)
Fixpoint sum (l : list Q) : Q :=
  match l with
  | [] => 0
  | x :: r => x + sum r
  end.

Definition of_nat (n : nat) : Q := inject_Z (Z.of_nat n).

Definition len (l : list Q) : Q := of_nat (length l).

(** [Series.mean()]: NaN on an empty column. *)
Definition mean (l : list Q) : option Q :=
  match l with
  | [] => None
  | _ => Some (sum l / len l)
  end.

(** [Series.min()] and [Series.max()]: NaN on an empty column. *)
Fixpoint min (l : list Q) : option Q :=
  match l with
  | [] => None
  | x :: r => match min r with
              | None => Some x
              | Some m => Some (if Qle_bool x m then x else m)
              end
  end.

Fixpoint max (l : list Q) : option Q :=
  match l with
  | [] => None
  | x :: r => match max r with
              | None => Some x
              | Some m => Some (if Qle_bool m x then x else m)
              end
  end.

(** Ascending sort, by insertion. *)
Fixpoint insert (x : Q) (l : list Q) : list Q :=
  match l with
  | [] => [x]
  | y :: r => if Qle_bool x y then x :: l else y :: insert x r
  end.

Fixpoint sort (l : list Q) : list Q :=
  match l with
  | [] => []
  | x :: r => insert x (sort r)
  end.

(** [Series.quantile(q)] with the default linear interpolation: on the
    sorted values the rank is [q * (n - 1)], and the result interpolates
    between the order statistics at the floor and the ceiling of the
    rank.  pandas rejects [q] outside [0, 1] with a ValueError and gives
    NaN on an empty column. *)
Definition rank (n : nat) (q : Q) : Q := q * (of_nat n - 1).

Definition interpolate (s : list Q) (r : Q) : Q :=
  let lo := Qfloor r in
  let hi := Qceiling r in
  let a := nth (Z.to_nat lo) s 0 in
  let b := nth (Z.to_nat hi) s 0 in
  a + (b - a) * (r - inject_Z lo).

Definition quantile (l : list Q) (q : Q) : result (option Q) :=
  if Qle_bool 0 q && Qle_bool q 1 then
    match l with
    | [] => Ok None
    | _ => Ok (Some (interpolate (sort l) (rank (length l) q)))
    end
  else Raise (ValueError "percentiles should all be in the interval [0, 1]").

(** [Series.std()] is the square root of the sample variance (one
    degree of freedom removed); with fewer than two values it is NaN.
    [var] is that variance. *)
Definition sq (x : Q) : Q := x * x.

Definition sum_sq_dev (l : list Q) (m : Q) : Q :=
  sum (map (fun x => sq (x - m)) l).

Definition var (l : list Q) : option Q :=
  match l with
  | [] | [_] => None
  | _ => let m := sum l / len l in
         Some (sum_sq_dev l m / (len l - 1))
  end.

(** [d > t * sqrt v], for [0 <= v], decided without the root: the sign
    of [t] fixes the sign of the right-hand side, and two numbers of the
    same sign compare as their squares do. *)
Definition gt_scaled_sqrt (d t v : Q) : bool :=
  if Qle_bool 0 t
  then Qltb 0 d && Qltb (sq t * v) (sq d)
  else Qltb 0 d || Qltb (sq d) (sq t * v).

(** [column > threshold * std], elementwise; a comparison with NaN is
    False. *)
Definition gt_scaled_std (d t : Q) (variance : option Q) : bool :=
  match variance with
  | None => false
  | Some v => gt_scaled_sqrt d t v
  end.

End Series.

(* ------------------------------------------------------------------ *)
(** * Timestamps

    A timestamp is a number of seconds since 1970-01-01 00:00:00, with
    no time zone, as pandas keeps it (there in nanoseconds).  The
    calendar fields that the code reads off a [datetime] are computed
    from it in the proleptic Gregorian calendar. *)

Module Calendar.

Local Open Scope Z_scope.

Definition seconds_per_day : Z := 86400.

(** [Series.dt.date]: the calendar day, as a day number. *)
Definition date (t : Z) : Z := t / seconds_per_day.

(** [timestamp.hour] *)
Definition hour (t : Z) : Z := (t mod seconds_per_day) / 3600.

(** [timestamp.weekday()]: Monday is 0; day 0 was a Thursday. *)
Definition weekday (t : Z) : Z := (date t + 3) mod 7.

(** Year, month and day of a day number. *)
Definition civil_from_days (z : Z) : Z * Z * Z :=
  let z := z + 719468 in
  let era := z / 146097 in
  let doe := z - era * 146097 in
  let yoe := (doe - doe / 1460 + doe / 36524 - doe / 146096) / 365 in
  let doy := doe - (365 * yoe + yoe / 4 - yoe / 100) in
  let mp := (5 * doy + 2) / 153 in
  let d := doy - (153 * mp + 2) / 5 + 1 in
  let m := if mp <? 10 then mp + 3 else mp - 9 in
  let y := yoe + era * 400 + (if m <=? 2 then 1 else 0) in
  (y, m, d).

(** [timestamp.month] and [timestamp.day] *)
Definition month (t : Z) : Z := snd (fst (civil_from_days (date t))).
Definition day (t : Z) : Z := snd (civil_from_days (date t)).

(** The day number of a calendar date, and the timestamp of a date and
    a time of day: used to write timestamps down. *)
Definition days_from_civil (y m d : Z) : Z :=
  let y := if m <=? 2 then y - 1 else y in
  let era := y / 400 in
  let yoe := y - era * 400 in
  let mp := if m <=? 2 then m + 9 else m - 3 in
  let doy := (153 * mp + 2) / 5 + d - 1 in
  let doe := yoe * 365 + yoe / 4 - yoe / 100 + doy in
  era * 146097 + doe - 719468.

Definition datetime (y m d hh mm ss : Z) : Z :=
  days_from_civil y m d * seconds_per_day + hh * 3600 + mm * 60 + ss.

End Calendar.

(* ------------------------------------------------------------------ *)
(** * Energy data analysis ([analysis.py]) *)

Module Analysis.

Import Series.
Local Open Scope Q_scope.

(** One row of the readings table. *)
Record Reading : Type := {
  timestamp : Z;
  power_kw : Q;
  energy_consumed_kwh : Q;
  machine_id : string
}.

(** ** Daily consumption *)

Record DailyAggregate : Type := {
  date : Z;
  total_energy_kwh : Q
}.

(** [groupby('date')[energy_column].sum()]: one group per distinct
    date, the groups in ascending order of date, each total accumulated
    from 0 over the rows of the group in row order. *)
Fixpoint group_add (d : Z) (e : Q) (acc : list DailyAggregate)
  : list DailyAggregate :=
  match acc with
  | [] => [ {| date := d; total_energy_kwh := 0 + e |} ]
  | g :: rest =>
      if (d <? date g)%Z then
        {| date := d; total_energy_kwh := 0 + e |} :: acc
      else if (d =? date g)%Z then
        {| date := date g; total_energy_kwh := total_energy_kwh g + e |} :: rest
      else g :: group_add d e rest
  end.

Definition groupby_sum (rows : list (Z * Q)) : list DailyAggregate :=
  fold_left (fun acc r => group_add (fst r) (snd r) acc) rows [].

(** [calculate_daily_consumption(df)] *)
Definition calculate_daily_consumption (df : list Reading)
  : result (list DailyAggregate) :=
  let data := map (fun r => (Calendar.date (timestamp r), energy_consumed_kwh r)) df in
  let daily_consumption := groupby_sum data in
  Ok daily_consumption.

(** ** Peak periods *)

Record PeakSummary : Type := {
  peak_threshold : option Q;
  peak_count : nat;
  peak_percentage : Q;
  average_peak_power : option Q;
  min_peak_power : option Q;
  max_peak_power : option Q
}.

(** [column >= threshold], elementwise; a comparison with NaN is False. *)
Definition ge_nan (x : Q) (threshold : option Q) : bool :=
  match threshold with
  | None => false
  | Some th => Qle_bool th x
  end.

(** Python's [/] on two ints. *)
Definition int_truediv (a b : nat) : result Q :=
  match b with
  | O => Raise ZeroDivisionError
  | _ => Ok (of_nat a / of_nat b)
  end.

(** [identify_peak_periods(df, percentile=...)] *)
Definition identify_peak_periods (df : list Reading) (percentile : Q)
  : result PeakSummary :=
  peak_threshold <- quantile (map power_kw df) (percentile / 100) ;;
  let peak_readings := filter (fun r => ge_nan (power_kw r) peak_threshold) df in
  let peak_count := length peak_readings in
  let total_count := length df in
  ratio <- int_truediv peak_count total_count ;;
  let peak_percentage := ratio * 100 in
  let average_peak_power := mean (map power_kw peak_readings) in
  Ok {| peak_threshold := peak_threshold;
        peak_count := peak_count;
        peak_percentage := peak_percentage;
        average_peak_power := average_peak_power;
        min_peak_power := min (map power_kw peak_readings);
        max_peak_power := max (map power_kw peak_readings) |}.

(** ** Abnormal spikes *)

Record AnomalyRecord : Type := {
  reading : Reading;
  rolling_avg : Q;
  deviation : Q;
  is_anomaly : bool
}.

(** The rows [max(0, i - w + 1) .. i] of a column. *)
Definition window (w : nat) (l : list Q) (i : nat) : list Q :=
  let lo := (i + 1 - w)%nat in
  firstn (i + 1 - lo) (skipn lo l).

(** [Series.rolling(window=w, min_periods=1).mean()]: pandas refuses a
    window below 1 here (min_periods would exceed it); every window of
    an accepted call holds at least the current row. *)
Definition rolling_mean (w : Z) (l : list Q) : result (list Q) :=
  if (w <? 1)%Z then Raise (ValueError "min_periods 1 must be <= window")
  else Ok (map (fun i => let win := window (Z.to_nat w) l i in sum win / len win)
               (seq 0 (length l))).

(** [detect_abnormal_spikes(df, window_size=..., deviation_threshold=...)] *)
Definition detect_abnormal_spikes (df : list Reading) (window_size : Z)
    (deviation_threshold : Q) : result (list AnomalyRecord) :=
  rolling <- rolling_mean window_size (map power_kw df) ;;
  let data := map (fun row => (fst row, snd row, power_kw (fst row) - snd row))
                  (combine df rolling) in
  let std_deviation_sq := var (map snd data) in
  Ok (map (fun row =>
             let '(r, avg, dev) := row in
             {| reading := r;
                rolling_avg := avg;
                deviation := dev;
                is_anomaly := gt_scaled_std dev deviation_threshold std_deviation_sq |})
          data).

End Analysis.

(* ------------------------------------------------------------------ *)
(** * Carbon footprint ([carbon_footprint.py]) *)

Module Carbon.

Import Series.
Local Open Scope Q_scope.

(** [DEFAULT_EMISSION_FACTOR = 0.385] *)
Definition DEFAULT_EMISSION_FACTOR : Q := 0.385.

(** [calculate_daily_co2_emissions(daily_energy_kwh, emission_factor)] *)
Definition calculate_daily_co2_emissions
    (daily_energy_kwh emission_factor : Q) : Q :=
  let daily_co2 := daily_energy_kwh * emission_factor in
  daily_co2.

(** [0.385] as Python reads it: the nearest binary64 value. *)
#[warnings="-inexact-float"]
Definition DEFAULT_EMISSION_FACTOR_f64 : float := 0.385.

(** The same function on binary64 itself: Python's [*] on two floats is
    the IEEE multiplication, rounded to nearest, ties to even. *)
Definition calculate_daily_co2_emissions_f64
    (daily_energy_kwh emission_factor : float) : float :=
  let daily_co2 := PrimFloat.mul daily_energy_kwh emission_factor in
  daily_co2.

(** [calculate_monthly_co2_emissions(daily_emissions_list)] *)
Definition calculate_monthly_co2_emissions (daily_emissions_list : list Q) : Q :=
  sum daily_emissions_list.

(** A row of the daily breakdown. *)
Record DailyCO2 : Type := {
  date : Z;
  total_energy_kwh : Q;
  co2_kg : Q
}.

(** [calculate_monthly_co2_from_dataframe(df, emission_factor=...)]:
    the daily breakdown and the monthly total. *)
Definition calculate_monthly_co2_from_dataframe
    (df : list Analysis.Reading) (emission_factor : Q) : list DailyCO2 * Q :=
  let data := map (fun r => (Calendar.date (Analysis.timestamp r),
                             Analysis.energy_consumed_kwh r)) df in
  let daily_energy := Analysis.groupby_sum data in
  let daily_energy :=
    map (fun g => {| date := Analysis.date g;
                     total_energy_kwh := Analysis.total_energy_kwh g;
                     co2_kg := Analysis.total_energy_kwh g * emission_factor |})
        daily_energy in
  let monthly_total_co2 := sum (map co2_kg daily_energy) in
  (daily_energy, monthly_total_co2).

End Carbon.

(* ------------------------------------------------------------------ *)
(** * Text of numbers, for [explain_model] *)

Module Text.

Local Open Scope string_scope.

Definition nl : string := String (ascii_of_nat 10) EmptyString.

Fixpoint repeat_string (s : string) (n : nat) : string :=
  match n with
  | O => ""
  | S k => s ++ repeat_string s k
  end.

(** [str(n)] of an int *)
Definition str_int (n : Z) : string := NilZero.string_of_int (Z.to_int n).

(** A natural number on at least [width] digits, zero-padded. *)
Definition zero_padded (width : nat) (n : Z) : string :=
  let digits := str_int n in
  repeat_string "0" (width - String.length digits) ++ digits.

(** Round half to even, to an integer. *)
Definition rint (y : Q) : Z :=
  let f := Qfloor y in
  match (y - inject_Z f ?= 1 # 2)%Q with
  | Lt => f
  | Gt => (f + 1)%Z
  | Eq => if Z.even f then f else (f + 1)%Z
  end.

Definition pow10 (n : nat) : Z := (10 ^ Z.of_nat n)%Z.

(** [format(x, '.<places>f')], and with [plus] the ['+'] flag. *)
Definition format_fixed (plus : bool) (places : nat) (x : Q) : string :=
  let n := rint (Qabs x * inject_Z (pow10 places)) in
  let sign := if Series.Qltb x 0 then "-" else if plus then "+" else "" in
  let int_part := str_int (n / pow10 places) in
  match places with
  | O => sign ++ int_part
  | _ => sign ++ int_part ++ "." ++ zero_padded places (n mod pow10 places)
  end.

(** [repr] of a non-negative float with at most two decimals: the
    shortest decimal that reads back, with at least one decimal.
    (From 1e16 on Python writes an exponent; that is not modelled.) *)
Definition repr_cents (x : Q) : string :=
  let n := rint (x * 100) in
  let frac := (n mod 100)%Z in
  str_int (n / 100) ++ "." ++
  (if (frac mod 10 =? 0)%Z then str_int (frac / 10) else zero_padded 2 frac).

(** [strftime('%A')] *)
Definition day_name (weekday : Z) : string :=
  match weekday with
  | 0%Z => "Monday" | 1%Z => "Tuesday" | 2%Z => "Wednesday"
  | 3%Z => "Thursday" | 4%Z => "Friday" | 5%Z => "Saturday"
  | _ => "Sunday"
  end.

(** [strftime('%A, %I:%M %p')] *)
Definition strftime_day_time (t : Z) : string :=
  let h := Calendar.hour t in
  let h12 := if (h mod 12 =? 0)%Z then 12%Z else (h mod 12)%Z in
  let minute := ((t mod 3600) / 60)%Z in
  day_name (Calendar.weekday t) ++ ", " ++ zero_padded 2 h12 ++ ":" ++
  zero_padded 2 minute ++ " " ++ (if (h <? 12)%Z then "AM" else "PM").

End Text.

(* ------------------------------------------------------------------ *)
(** * Binary64 *)

Module Binary64.

Local Open Scope Q_scope.

(** The binade of a positive rational: the largest [e] with
    [2^e <= a]. *)
Definition ilog2 (a : Q) : Z :=
  let e := (Z.log2 (Qnum a) - Z.log2 (Zpos (Qden a)))%Z in
  if Qle_bool (2 ^ e) a then e else (e - 1)%Z.

(** The exponent of the last place of the doubles around [x]: 52 below
    the binade of [x], and never below that of the subnormal numbers. *)
Definition last_place (x : Q) : Z := Z.max (ilog2 (Qabs x) - 52) (- 1074).

(** The double nearest to [x], a tie going to the even one.  No
    infinity is kept: beyond the largest double, 53 digits are kept
    all the same. *)
Definition fl (x : Q) : Q :=
  let q := last_place x in
  inject_Z (Text.rint (x / 2 ^ q)) * 2 ^ q.

(** The number that a double denotes. *)
Definition value (x : float) : option Q :=
  match Prim2SF x with
  | S754_zero _ => Some 0
  | S754_finite s m e =>
      Some ((if s then - inject_Z (Zpos m) else inject_Z (Zpos m)) * 2 ^ e)
  | _ => None
  end.

(** The doubles that are zero or of a magnitude from [2^-400] to
    [2^1000]: doubling one of them, or the product of two of them,
    neither overflows nor leaves the normal numbers. *)
Definition lowest : float := 0x1p-400.
Definition highest : float := 0x1p1000.

Definition in_range (x : float) : bool :=
  (x =? 0)%float
  || ((lowest <=? PrimFloat.abs x)%float && (PrimFloat.abs x <=? highest)%float).

(** Twice a double, on its specification: the same digits one binade
    up, or the infinity. *)
Definition double (x : spec_float) : spec_float :=
  match x with
  | S754_finite s m e =>
      if (e + 1 <=? emax - prec)%Z then S754_finite s m (e + 1)
      else S754_infinity s
  | _ => x
  end.

Definition two : spec_float := S754_finite false 4503599627370496 (- 51).

End Binary64.

(* ------------------------------------------------------------------ *)
(** * Consumption forecaster ([energy_prediction_model.py]) *)

Module Forecast.

Import Series.
Local Open Scope Q_scope.

(** The six time features, by name. *)
Record Features (A : Type) : Type := {
  hour : A;
  day_of_week : A;
  day_of_month : A;
  month : A;
  is_weekend : A;
  is_business_hour : A
}.

Definition to_list {A : Type} (f : Features A) : list A :=
  [hour f; day_of_week f; day_of_month f; month f; is_weekend f;
   is_business_hour f].

Definition feature_names : Features string := {|
  hour := "hour"%string;
  day_of_week := "day_of_week"%string;
  day_of_month := "day_of_month"%string;
  month := "month"%string;
  is_weekend := "is_weekend"%string;
  is_business_hour := "is_business_hour"%string
|}.

(** A fitted scikit-learn [LinearRegression]: [coef_] and [intercept_]. *)
Record LinearRegression : Type := {
  coef_ : Features Q;
  intercept_ : Q
}.

(** The predictor object: [self.model] ([None] while it is not fitted)
    and [self.is_trained]. *)
Record EnergyConsumptionPredictor : Type := {
  model : option LinearRegression;
  is_trained : bool
}.

(** [EnergyConsumptionPredictor()] *)
Definition init : EnergyConsumptionPredictor :=
  {| model := None; is_trained := false |}.

(** [extract_time_features(timestamp)] *)
Definition extract_time_features (timestamp : Z) : Features Z :=
  let hour := Calendar.hour timestamp in
  let day_of_week := Calendar.weekday timestamp in
  let day_of_month := Calendar.day timestamp in
  let month := Calendar.month timestamp in
  let is_weekend := if (5 <=? day_of_week)%Z then 1%Z else 0%Z in
  let is_business_hour :=
    if ((9 <=? hour) && (hour <? 17))%Z then 1%Z else 0%Z in
  {| hour := hour; day_of_week := day_of_week; day_of_month := day_of_month;
     month := month; is_weekend := is_weekend;
     is_business_hour := is_business_hour |}.

(** One row of [LinearRegression.predict]:
    [intercept_ + sum_i coef_[i] * x[i]]. *)
Definition decision (m : LinearRegression) (x : Features Z) : Q :=
  intercept_ m +
  sum (map (fun cx => fst cx * inject_Z (snd cx))
           (combine (to_list (coef_ m)) (to_list x))).

(** [self.model.predict(X)]: scikit-learn refuses a model that was not
    fitted, and refuses an [X] without rows ([np.array([])] has one
    dimension, where two are required). *)
Definition model_predict (m : option LinearRegression) (X : list (Features Z))
  : result (list Q) :=
  match m with
  | None => Raise NotFittedError
  | Some lm =>
      match X with
      | [] => Raise (ValueError "Expected 2D array, got 1D array instead")
      | _ => Ok (map (decision lm) X)
      end
  end.

(** [prepare_data(data_df)]: the feature rows and the target column of
    a history of (timestamp, energy_consumed_kwh). *)
Definition prepare_data (data_df : list (Z * Q))
  : list (Features Z) * list Q :=
  (map (fun row => extract_time_features (fst row)) data_df,
   map snd data_df).

Section Train.

(** [LinearRegression().fit(X, y)], scikit-learn's least-squares fit, on
    at least one row. *)
Variable fit : list (Features Z) -> list Q -> LinearRegression.

(** [model.fit(X, y)]: an empty [X] is refused, as in [model_predict]. *)
Definition model_fit (X : list (Features Z)) (y : list Q)
  : result LinearRegression :=
  match X with
  | [] => Raise (ValueError "Expected 2D array, got 1D array instead")
  | _ => Ok (fit X y)
  end.

(** [train(data_df)], as the state it leaves; the dictionary of metrics
    that it returns is not embedded.  When the fit raises, the object is
    not changed. *)
Definition train (self : EnergyConsumptionPredictor) (data_df : list (Z * Q))
  : result EnergyConsumptionPredictor :=
  let '(X, y) := prepare_data data_df in
  fitted <- model_fit X y ;;
  Ok {| model := Some fitted; is_trained := true |}.

End Train.

(** Python's [max(a, b)] and NumPy's [np.maximum(a, b)]. *)
Definition py_max (a b : Q) : Q := if Qltb a b then b else a.
Definition np_maximum (a b : Q) : Q := if Qle_bool b a then a else b.

(** [round(x, ndigits)] of a NumPy double: the double is scaled by
    [10^ndigits], rounded to an integer, a tie going to the even one,
    and scaled back, each step in binary64. *)
Definition round (x : Q) (ndigits : nat) : Q :=
  let scale := inject_Z (Text.pow10 ndigits) in
  Binary64.fl (inject_Z (Text.rint (Binary64.fl (x * scale))) / scale).

(** The dictionary that [predict] returns; [timestamp] is kept as the
    timestamp itself, not as its ISO text. *)
Record Prediction : Type := {
  timestamp : Z;
  predicted_energy_kwh : Q;
  features : Features Z;
  confidence : string
}.

(** [predict(timestamp)] *)
Definition predict (self : EnergyConsumptionPredictor) (t : Z)
  : result Prediction :=
  if negb (is_trained self) then
    Raise (RuntimeError
      "Model must be trained before making predictions. Call train() with historical data first.")
  else
    let features := extract_time_features t in
    predictions <- model_predict (model self) [features] ;;
    match predictions with
    | [] => Raise IndexError
    | prediction :: _ =>
        let prediction := py_max 0 prediction in
        Ok {| timestamp := t;
              predicted_energy_kwh := round prediction 2;
              features := features;
              confidence := "Model trained and ready for predictions" |}
    end.

(** A pandas frequency with a fixed step: a multiple of a unit, as in
    ['H'], ['D'], ['30min'] or ['-1H']. *)
Inductive freq_unit : Type := Second | Minute | Hour | Day.

Record frequency : Type := {
  multiple : Z;
  unit : freq_unit
}.

Definition unit_seconds (u : freq_unit) : Z :=
  match u with
  | Second => 1
  | Minute => 60
  | Hour => 3600
  | Day => 86400
  end.

Definition stride (freq : frequency) : Z :=
  (multiple freq * unit_seconds (unit freq))%Z.

(** ['H'], the default of [predict_range] *)
Definition hourly : frequency := {| multiple := 1; unit := Hour |}.
Definition daily : frequency := {| multiple := 1; unit := Day |}.

(** [pd.date_range(start=, end=, freq=)] for a fixed step:
    [start + i * stride] for [i = 0 .. (end - start) // stride], which
    is no timestamp at all when that quotient is negative; a step of
    zero divides by zero. *)
Definition date_range (start end_ : Z) (freq : frequency) : result (list Z) :=
  let stride := stride freq in
  if (stride =? 0)%Z then Raise ZeroDivisionError
  else
    let k := ((end_ - start) / stride)%Z in
    Ok (map (fun i => (start + Z.of_nat i * stride)%Z)
            (seq 0 (Z.to_nat (k + 1)))).

(** [predict_range(start_date, end_date, frequency)]; the DataFrame it
    returns is the list of its rows (timestamp, predicted_energy_kwh). *)
Definition predict_range (self : EnergyConsumptionPredictor)
    (start_date end_date : Z) (freq : frequency) : result (list (Z * Q)) :=
  if negb (is_trained self) then
    Raise (RuntimeError "Model must be trained before making predictions.")
  else
    timestamps <- date_range start_date end_date freq ;;
    let features_list := map extract_time_features timestamps in
    predictions <- model_predict (model self) features_list ;;
    let predictions := map (fun p => np_maximum p 0) predictions in
    Ok (combine timestamps predictions).

Local Open Scope string_scope.

(** [explain_model()]; [now] is the reading of the clock. *)
Definition rule : string := Text.repeat_string "=" 70.

Definition interpretation_line (name : string) (coef : Q) : string :=
  let direction := if Qltb 0 coef then "increases" else "decreases" in
  let impact := Text.format_fixed false 4 (Qabs coef) ++ " kWh" in
  "• " ++ name ++ ": Each unit " ++ direction ++ " energy by " ++ impact
  ++ Text.nl.

Definition contribution_line (name : string) (value : Z) (coef : Q) : string :=
  let contribution := (inject_Z value * coef)%Q in
  "  + " ++ name ++ " (" ++ Text.str_int value ++ ") × "
  ++ Text.format_fixed false 4 coef ++ " = "
  ++ Text.format_fixed false 2 contribution ++ " kWh" ++ Text.nl.

Definition concat_map3 {A B : Type} (f : string -> A -> B -> string)
    (names : list string) (xs : list A) (ys : list B) : string :=
  String.concat "" (map (fun t => f (fst t) (fst (snd t)) (snd (snd t)))
                        (combine names (combine xs ys))).

Definition explain_model (self : EnergyConsumptionPredictor) (now : Z)
  : result string :=
  if negb (is_trained self) then
    Ok "Model not trained yet. Call train() first."
  else
    match model self with
    | None => Raise (AttributeError "coef_")
    | Some lm =>
        let coefs := to_list (coef_ lm) in
        let names := to_list feature_names in
        let head :=
          Text.nl ++ rule ++ Text.nl
          ++ "HOW THE MODEL WORKS" ++ Text.nl
          ++ rule ++ Text.nl ++ Text.nl
          ++ "The model uses this formula:" ++ Text.nl
          ++ "Energy (kWh) = Base + (Hour × "
          ++ Text.format_fixed true 4 (hour (coef_ lm))
          ++ ") + (Day of Week × "
          ++ Text.format_fixed true 4 (day_of_week (coef_ lm))
          ++ ") + ..." ++ Text.nl ++ Text.nl
          ++ "Interpretation:" ++ Text.nl
          ++ Text.repeat_string "-" 70 ++ Text.nl
          ++ concat_map3 (fun n c (_ : Q) => interpretation_line n c)
                         names coefs coefs
          ++ Text.nl ++ "• Base Energy (Intercept): "
          ++ Text.format_fixed false 2 (intercept_ lm) ++ " kWh" ++ Text.nl
          ++ "  (Energy consumed regardless of time)" ++ Text.nl
          ++ Text.nl ++ rule ++ Text.nl
          ++ "EXAMPLE PREDICTION" ++ Text.nl
          ++ rule ++ Text.nl in
        let example_time :=
          (Calendar.date now * Calendar.seconds_per_day + 14 * 3600)%Z in
        example <- predict self example_time ;;
        Ok (head
            ++ "Time: " ++ Text.strftime_day_time example_time ++ Text.nl
            ++ "Predicted Energy: "
            ++ Text.repr_cents (predicted_energy_kwh example) ++ " kWh" ++ Text.nl
            ++ "Calculated as:" ++ Text.nl
            ++ "  Base: " ++ Text.format_fixed false 2 (intercept_ lm)
            ++ " kWh" ++ Text.nl
            ++ concat_map3 contribution_line
                           names (to_list (features example)) coefs
            ++ Text.nl ++ rule ++ Text.nl)
    end.

End Forecast.

(* ------------------------------------------------------------------ *)
(** * Closed forms and sample objects, for the proofs *)

Unset Implicit Arguments.

Module AnalysisViews.

Import Series Analysis.
Local Open Scope Q_scope.

(** The column of daily totals. *)
Definition totals (gs : list DailyAggregate) : list Q := map total_energy_kwh gs.

(** The energy of the rows of one date, in the input and in the result. *)
Definition energy_on (d : Z) (rows : list (Z * Q)) : Q :=
  sum (map snd (filter (fun r => (fst r =? d)%Z) rows)).

Definition total_on (d : Z) (gs : list DailyAggregate) : Q :=
  sum (map total_energy_kwh (filter (fun g => (date g =? d)%Z) gs)).

(** The rolling average of row [i], for a window of [w] rows. *)
Definition rolling_at (w : nat) (power : list Q) (i : nat) : Q :=
  sum (window w power i) / len (window w power i).

(** The rows that [detect_abnormal_spikes] builds, given the variance
    that it compares against. *)
Definition spike_row (t : Q) (variance : option Q) (row : Reading * Q * Q)
  : AnomalyRecord :=
  {| reading := fst (fst row);
     rolling_avg := snd (fst row);
     deviation := snd row;
     is_anomaly := gt_scaled_std (snd row) t variance |}.

Definition spike_data (df : list Reading) (w : nat) : list (Reading * Q * Q) :=
  map (fun row => (fst row, snd row, power_kw (fst row) - snd row))
      (combine df (map (rolling_at w (map power_kw df)) (seq 0 (length df)))).

End AnalysisViews.

Module ForecastViews.

Import Series Forecast.
Local Open Scope Q_scope.

(** The model output at a timestamp, before any clamping. *)
Definition raw (lm : LinearRegression) (t : Z) : Q :=
  decision lm (extract_time_features t).

(** The number of timestamps of a range, when it is positive. *)
Definition steps (s e stride : Z) : Z := ((e - s) / stride + 1)%Z.

End ForecastViews.

Module Samples.

Import Series Analysis Forecast.
Local Open Scope Q_scope.

Definition sample_model : LinearRegression :=
  {| coef_ := {| hour := 1 # 2; day_of_week := - (1 # 4); day_of_month := 0;
                 month := 1 # 100; is_weekend := - (2 # 1);
                 is_business_hour := 3 # 1 |};
     intercept_ := 20123 # 1000 |}.

Definition sample_predictor : EnergyConsumptionPredictor :=
  {| model := Some sample_model; is_trained := true |}.

(** The least-squares fit of a history whose rows all have one feature
    vector (a history of one row, say): no slope, and the mean as
    intercept. *)
Definition flat_fit (X : list (Features Z)) (y : list Q) : LinearRegression :=
  {| coef_ := {| hour := 0; day_of_week := 0; day_of_month := 0; month := 0;
                 is_weekend := 0; is_business_hour := 0 |};
     intercept_ := sum y / len y |}.

Definition reading_at (t : Z) (power energy : Q) : Reading :=
  {| Analysis.timestamp := t; power_kw := power;
     energy_consumed_kwh := energy; machine_id := "MACHINE-001" |}.

(** A table with the given power column, one reading per hour. *)
Definition table_of_power (power : list Q) : list Reading :=
  map (fun ip => reading_at (3600 * Z.of_nat (fst ip)) (snd ip) (snd ip / 2))
      (combine (seq 0 (length power)) power).

End Samples.

(* ------------------------------------------------------------------ *)
(** * The combined report ([analysis.py], [generate_analysis_report]) *)

Module AnalysisReport.

Import Series.
Local Open Scope Q_scope.

(** A square root that is not taken: [Sqrt v] is the root of [v], and
    NaN when [v] is. *)
Inductive Root : Type := Sqrt (radicand : option Q).

(** [Series.std()] *)
Definition std (l : list Q) : Root := Sqrt (var l).

(** NumPy's [/] of a count by a length: 0 / 0 is NaN, not an error. *)
Definition np_truediv (a b : nat) : option Q :=
  match b with
  | O => None
  | _ => Some (of_nat a / of_nat b)
  end.

Definition scale_nan (x : option Q) (c : Q) : option Q :=
  match x with
  | None => None
  | Some v => Some (v * c)
  end.

Record DailyConsumption : Type := {
  total_days : nat;
  average_daily_kwh : option Q;
  min_daily_kwh : option Q;
  max_daily_kwh : option Q;
  daily_data : list Analysis.DailyAggregate
}.

(** A record of [anomalous_readings]: the three columns kept. *)
Record AnomalousReading : Type := {
  power_kw : Q;
  rolling_avg : Q;
  deviation : Q
}.

Record Anomalies : Type := {
  anomaly_count : nat;
  anomaly_percentage : option Q;
  anomalous_readings : list AnomalousReading
}.

Record OverallStatistics : Type := {
  average_power_kw : option Q;
  min_power_kw : option Q;
  max_power_kw : option Q;
  std_deviation_kw : Root;
  total_energy_kwh : Q
}.

Record Report : Type := {
  machine_id : string;
  analysis_date : Z;
  data_points : nat;
  daily_consumption : DailyConsumption;
  peak_load : Analysis.PeakSummary;
  anomalies : Anomalies;
  overall_statistics : OverallStatistics
}.

(** [machine_id or 'All Machines'] *)
Definition or_all_machines (machine_id : option string) : string :=
  match machine_id with
  | None => "All Machines"
  | Some s => if String.eqb s "" then "All Machines" else s
  end.

(** [generate_analysis_report(df, machine_id=None)], with the default
    column names; [now] is the reading of the clock. *)
Definition generate_analysis_report (df : list Analysis.Reading)
    (machine_id : option string) (now : Z) : result Report :=
  daily <- Analysis.calculate_daily_consumption df ;;
  peaks <- Analysis.identify_peak_periods df 75 ;;
  anomalies <- Analysis.detect_abnormal_spikes df 5 2 ;;
  let anomaly_count := length (filter Analysis.is_anomaly anomalies) in
  let anomaly_percentage :=
    scale_nan (np_truediv anomaly_count (length anomalies)) 100 in
  let totals := map Analysis.total_energy_kwh daily in
  let power := map Analysis.power_kw df in
  Ok {| machine_id := or_all_machines machine_id;
        analysis_date := now;
        data_points := length df;
        daily_consumption :=
          {| total_days := length daily;
             average_daily_kwh := mean totals;
             min_daily_kwh := min totals;
             max_daily_kwh := max totals;
             daily_data := daily |};
        peak_load := peaks;
        anomalies :=
          {| anomaly_count := anomaly_count;
             anomaly_percentage := anomaly_percentage;
             anomalous_readings :=
               if (0 <? anomaly_count)%nat then
                 map (fun r => {| power_kw := Analysis.power_kw (Analysis.reading r);
                                  rolling_avg := Analysis.rolling_avg r;
                                  deviation := Analysis.deviation r |})
                     (filter Analysis.is_anomaly anomalies)
               else [] |};
        overall_statistics :=
          {| average_power_kw := mean power;
             min_power_kw := min power;
             max_power_kw := max power;
             std_deviation_kw := std power;
             total_energy_kwh := sum (map Analysis.energy_consumed_kwh df) |} |}.

End AnalysisReport.

(* ------------------------------------------------------------------ *)
(** * The carbon report ([carbon_footprint.py]) *)

Module CarbonReport.

Import Series.
Local Open Scope Q_scope.

(** [EMISSION_FACTORS_BY_REGION], in the order of the dictionary. *)
Definition EMISSION_FACTORS_BY_REGION : list (string * Q) :=
  [ ("US_Average"%string, 0.385);
    ("Coal_Heavy"%string, 0.95);
    ("Natural_Gas"%string, 0.50);
    ("Renewable_Heavy"%string, 0.10);
    ("UK"%string, 0.20);
    ("France"%string, 0.06);
    ("Germany"%string, 0.38);
    ("India"%string, 0.92) ].

(** [x > c] for a float that may be NaN. *)
Definition gt_nan (x : option Q) (c : Q) : bool :=
  match x with
  | None => false
  | Some v => Qltb c v
  end.

(** [format(x, '.1f')] for a float that may be NaN. *)
Definition format_1f (x : option Q) : string :=
  match x with
  | None => "nan"
  | Some v => Text.format_fixed false 1 v
  end.

Record Insights : Type := {
  observations : list string;
  recommendations : list string
}.

Local Open Scope string_scope.

(** [generate_insights(monthly_co2, daily_average)] *)
Definition generate_insights (monthly_co2 : Q) (daily_average : option Q)
  : Insights :=
  let tonnes := Text.format_fixed false 1 (monthly_co2 / 1000)%Q in
  let observations :=
    [ if Qltb 50000 monthly_co2 then
        "High monthly emissions: " ++ tonnes ++ " tonnes CO2"
      else if Qltb 10000 monthly_co2 then
        "Moderate monthly emissions: " ++ tonnes ++ " tonnes CO2"
      else
        "Low monthly emissions: " ++ tonnes ++ " tonnes CO2" ] in
  let observations :=
    app observations
        [ "Average daily emissions: " ++ format_1f daily_average ++ " kg CO2" ] in
  let recommendations :=
    if gt_nan daily_average 500 then
      [ "Consider energy efficiency improvements (LED lights, HVAC optimization)";
        "Explore renewable energy options (solar, wind)" ]
    else [] in
  let recommendations :=
    if Qltb 30000 monthly_co2 then
      app recommendations
          [ "Implement demand management to reduce peak consumption" ]
    else recommendations in
  let recommendations :=
    app recommendations
        [ "Monitor consumption trends to identify anomalies" ] in
  {| observations := observations; recommendations := recommendations |}.

Local Close Scope string_scope.

Record Summary : Type := {
  region : string;
  emission_factor_kg_per_kwh : Q;
  analysis_date : Z;
  total_days_analyzed : nat;
  total_energy_kwh : Q;
  monthly_co2_kg : Q;
  monthly_co2_tonnes : Q;
  daily_average_co2_kg : option Q;
  daily_min_co2_kg : option Q;
  daily_max_co2_kg : option Q
}.

Record Equivalencies : Type := {
  car_miles_equivalent : Q;
  trees_needed_per_year : Q;
  car_months_equivalent : Q
}.

Record Report : Type := {
  summary : Summary;
  daily_breakdown : list Carbon.DailyCO2;
  equivalencies : Equivalencies;
  formulas_used : list (string * string);
  insights : Insights
}.

(** [calculate_co2_with_breakdown(df, emission_factor=..., region=...)];
    [now] is the reading of the clock. *)
Definition calculate_co2_with_breakdown (df : list Analysis.Reading)
    (emission_factor : Q) (region : string) (now : Z) : Report :=
  let '(daily_df, monthly_co2) :=
    Carbon.calculate_monthly_co2_from_dataframe df emission_factor in
  let daily_averages := mean (map Carbon.co2_kg daily_df) in
  let daily_minimum := min (map Carbon.co2_kg daily_df) in
  let daily_maximum := max (map Carbon.co2_kg daily_df) in
  let monthly_co2_tonnes := monthly_co2 / 1000 in
  let miles_driven_equivalent := (monthly_co2 / 0.41) * 0.621371 in
  let trees_needed_per_year := (monthly_co2 * 12) / 20 in
  let car_equivalent_months := (monthly_co2 / 1000) / (4.6 / 12) in
  {| summary :=
       {| region := region;
          emission_factor_kg_per_kwh := emission_factor;
          analysis_date := now;
          total_days_analyzed := length daily_df;
          total_energy_kwh := sum (map Carbon.total_energy_kwh daily_df);
          monthly_co2_kg := monthly_co2;
          monthly_co2_tonnes := monthly_co2_tonnes;
          daily_average_co2_kg := daily_averages;
          daily_min_co2_kg := daily_minimum;
          daily_max_co2_kg := daily_maximum |};
     daily_breakdown := daily_df;
     equivalencies :=
       {| car_miles_equivalent := miles_driven_equivalent;
          trees_needed_per_year := trees_needed_per_year;
          car_months_equivalent := car_equivalent_months |};
     formulas_used :=
       [ ("daily_co2_kg", "Energy (kWh) × Emission Factor (kg CO2/kWh)");
         ("monthly_co2_kg", "Sum of all daily CO2 emissions");
         ("monthly_co2_tonnes", "Monthly CO2 / 1000") ]%string;
     insights := generate_insights monthly_co2 daily_averages |}.

(** An entry of [compare_emission_factors]. *)
Record RegionEmissions : Type := {
  emission_factor : Q;
  co2_kg : Q;
  percentage_of_us_average : Q
}.

(** [compare_emission_factors(energy_kwh)]: the dictionary, as the list
    of its items in insertion order. *)
Definition compare_emission_factors (energy_kwh : Q)
  : list (string * RegionEmissions) :=
  map (fun item =>
         let '(region, factor) := item in
         (region,
          {| emission_factor := factor;
             co2_kg := energy_kwh * factor;
             percentage_of_us_average :=
               (factor / Carbon.DEFAULT_EMISSION_FACTOR) * 100 |}))
      EMISSION_FACTORS_BY_REGION.

(** [d[key]] and [key in d] on such a list of items. *)
Fixpoint lookup {A : Type} (key : string) (d : list (string * A)) : option A :=
  match d with
  | [] => None
  | (k, v) :: rest => if String.eqb k key then Some v else lookup key rest
  end.

End CarbonReport.

(* ------------------------------------------------------------------ *)
(** * The prediction endpoints ([prediction_api.py], [main.py]) *)

Module Http.

(** How the call of an endpoint ends: it returns a body, it raises an
    [HTTPException], or another exception leaves it.  The detail text
    of an [HTTPException] is not embedded. *)
Inductive response (A : Type) : Type :=
| Returned (body : A)
| HTTPException (status_code : Z)
| Unhandled (e : exn).

Arguments Returned {A} body.
Arguments HTTPException {A} status_code.
Arguments Unhandled {A} e.

(** [try: ... except Exception as e: raise HTTPException(status_code=500, ...)]:
    an [HTTPException] is an [Exception], and is caught with the
    others. *)
Definition except_Exception {A : Type} (r : response A) : response A :=
  match r with
  | Returned body => Returned body
  | HTTPException _ => HTTPException 500
  | Unhandled _ => HTTPException 500
  end.

(** [try: ... except HTTPException: raise
     except Exception as e: raise HTTPException(status_code=500, ...)] *)
Definition except_HTTPException_raise {A : Type} (r : response A)
  : response A :=
  match r with
  | Returned body => Returned body
  | HTTPException status_code => HTTPException status_code
  | Unhandled _ => HTTPException 500
  end.

(** The two columns that the training endpoints take from the rows of
    the database. *)
Definition data_list (energy_readings : list Analysis.Reading)
  : list (Z * Q) :=
  map (fun reading => (Analysis.timestamp reading,
                       Analysis.energy_consumed_kwh reading))
      energy_readings.

End Http.

(** [prediction_api.py].  The module keeps one global,
    [prediction_model]; an endpoint that assigns it returns the new
    value beside its response.  The rows that the database query
    returns are an argument. *)
Module PredictionApi.

Import Http Forecast.
Local Open Scope string_scope.

(** The body of a successful training, without its [training_metrics]. *)
Record TrainResponse : Type := {
  status : string;
  message : string;
  is_model_ready : bool;
  timestamp : Z
}.

Section Train.

Variable fit : list (Features Z) -> list Q -> LinearRegression.

(** [train_prediction_model(db)] *)
Definition train_prediction_model
    (prediction_model : option EnergyConsumptionPredictor)
    (energy_readings : list Analysis.Reading) (now : Z)
  : response TrainResponse * option EnergyConsumptionPredictor :=
  let '(r, prediction_model) :=
    if (length energy_readings <? 100)%nat then
      (HTTPException 400, prediction_model)
    else
      let df := data_list energy_readings in
      let fresh := init in
      match train fit fresh df with
      | Raise e => (Unhandled e, Some fresh)
      | Ok trained =>
          (Returned {| status := "success";
                       message := "Model trained on "
                                  ++ Text.str_int (Z.of_nat (length df))
                                  ++ " records";
                       is_model_ready := true;
                       timestamp := now |},
           Some trained)
      end in
  (except_Exception r, prediction_model).

End Train.

Record ModelStatus : Type := {
  status_is_trained : bool;
  status_model_type : string;
  status_features : list string;
  status_message : string;
  status_status : option string
}.

(** [get_model_status()] *)
Definition get_model_status
    (prediction_model : option EnergyConsumptionPredictor) : ModelStatus :=
  match prediction_model with
  | None =>
      {| status_is_trained := false;
         status_model_type := "Linear Regression";
         status_features := [];
         status_message :=
           "Model not yet initialized. Call POST /prediction/train to train.";
         status_status := None |}
  | Some p =>
      {| status_is_trained := is_trained p;
         status_model_type := "Linear Regression";
         status_features := to_list feature_names;
         status_message :=
           if is_trained p then "Model ready for predictions"
           else "Model initialized but not trained";
         status_status :=
           Some (if is_trained p then "ready" else "pending_training") |}
  end.

Record Explanation : Type := {
  explanation_status : string;
  explanation : string;
  model_type : string;
  features_count : nat;
  features : list string;
  coefficients : list (string * Q);
  intercept : Q
}.

(** A stored predictor that is flagged trained has a fitted model:
    [train] sets the flag after the fit has returned. *)
Definition consistent (prediction_model : option EnergyConsumptionPredictor)
  : Prop :=
  forall p, prediction_model = Some p -> is_trained p = true ->
            model p <> None.

(** [explain_model()]: the endpoint has no handler of its own, so what
    the method raises leaves it. *)
Definition explain_model
    (prediction_model : option EnergyConsumptionPredictor) (now : Z)
  : response Explanation :=
  match prediction_model with
  | None => HTTPException 400
  | Some p =>
      if negb (is_trained p) then HTTPException 400
      else
        match Forecast.explain_model p now with
        | Raise e => Unhandled e
        | Ok text =>
            match model p with
            | None => Unhandled (AttributeError "coef_")
            | Some lm =>
                Returned
                  {| explanation_status := "success";
                     explanation := text;
                     model_type := "Linear Regression";
                     features_count := length (to_list feature_names);
                     features := to_list feature_names;
                     coefficients :=
                       combine (to_list feature_names) (to_list (coef_ lm));
                     intercept := intercept_ lm |}
            end
        end
  end.

End PredictionApi.

(** [main.py], the prediction endpoints.  The module keeps two globals,
    [prediction_model] and [model_is_trained]. *)
Module MainApi.

Import Http Forecast.
Local Open Scope string_scope.

Record Globals : Type := {
  prediction_model : option EnergyConsumptionPredictor;
  model_is_trained : bool
}.

(** The body of a successful training, without its three metrics. *)
Record TrainResponse : Type := {
  status : string;
  message : string;
  is_trained : bool;
  training_timestamp : Z
}.

Section Train.

Variable fit : list (Features Z) -> list Q -> LinearRegression.

(** [train_prediction_model(db)] *)
Definition train_prediction_model (globals : Globals)
    (energy_readings : list Analysis.Reading) (now : Z)
  : response TrainResponse * Globals :=
  let '(r, globals) :=
    if (length energy_readings <? 100)%nat then
      (HTTPException 400, globals)
    else
      let df := data_list energy_readings in
      let fresh := init in
      match train fit fresh df with
      | Raise e =>
          (Unhandled e,
           {| prediction_model := Some fresh;
              model_is_trained := model_is_trained globals |})
      | Ok trained =>
          (Returned {| status := "success";
                       message := "Model trained on "
                                  ++ Text.str_int (Z.of_nat (length df))
                                  ++ " records";
                       is_trained := true;
                       training_timestamp := now |},
           {| prediction_model := Some trained; model_is_trained := true |})
      end in
  (except_HTTPException_raise r, globals).

End Train.

End MainApi.

(* ------------------------------------------------------------------ *)
(** * Further views, used to state properties *)

Module TableViews.

Import Series Analysis AnalysisViews.
Local Open Scope Q_scope.

(** The (date, energy) pairs that [calculate_daily_consumption] groups. *)
Definition dated_energy (df : list Reading) : list (Z * Q) :=
  map (fun r => (Calendar.date (timestamp r), energy_consumed_kwh r)) df.

(** The energy column of a table. *)
Definition energy_column (df : list Reading) : list Q :=
  map energy_consumed_kwh df.

(** The readings at or above a threshold. *)
Definition at_or_above (th : Q) (df : list Reading) : list Reading :=
  filter (fun r => Qle_bool th (power_kw r)) df.

(** The percentile [p] of the power column, for a table that is not
    empty. *)
Definition threshold_of (df : list Reading) (p : Q) : Q :=
  interpolate (sort (map power_kw df)) (rank (length df) (p / 100)).

(** The energies of the readings of a date, in the order of the
    table. *)
Definition energies_on (d : Z) (df : list Reading) : list Q :=
  map snd (filter (fun r => (fst r =? d)%Z) (dated_energy df)).

End TableViews.

Module CarbonViews.

Import Carbon CarbonReport.
Local Open Scope Q_scope.

(** The four recommendations of [generate_insights]. *)
Definition demand_management : string :=
  "Implement demand management to reduce peak consumption".
Definition efficiency : string :=
  "Consider energy efficiency improvements (LED lights, HVAC optimization)".
Definition renewables : string :=
  "Explore renewable energy options (solar, wind)".
Definition monitoring : string :=
  "Monitor consumption trends to identify anomalies".

(** The entry of [compare_emission_factors] for a region of the given
    factor. *)
Definition region_entry (energy factor : Q) : RegionEmissions :=
  {| emission_factor := factor;
     co2_kg := energy * factor;
     percentage_of_us_average := (factor / DEFAULT_EMISSION_FACTOR) * 100 |}.

End CarbonViews.

Module CalendarViews.

Local Open Scope Z_scope.

(** A check over the [n] integers from [z] on. *)
Fixpoint all_from (n : nat) (z : Z) (p : Z -> bool) : bool :=
  match n with
  | O => true
  | S k => p z && all_from k (z + 1) p
  end.

(** Month and day of the day [doe] of a 400-year era, as
    [civil_from_days] computes them. *)
Definition month_day_of_era_day (doe : Z) : Z * Z :=
  let yoe := (doe - doe / 1460 + doe / 36524 - doe / 146096) / 365 in
  let doy := doe - (365 * yoe + yoe / 4 - yoe / 100) in
  let mp := (5 * doy + 2) / 153 in
  let d := doy - (153 * mp + 2) / 5 + 1 in
  let m := if mp <? 10 then mp + 3 else mp - 9 in
  (m, d).

Definition month_day_in_range (doe : Z) : bool :=
  let '(m, d) := month_day_of_era_day doe in
  (1 <=? m) && (m <=? 12) && (1 <=? d) && (d <=? 31).

(** The days of an era. *)
Definition era_days : nat := Z.to_nat 146097.

End CalendarViews.

(* ------------------------------------------------------------------ *)
(** * Properties *)

Module SeriesFacts.
Import Series.
Local Open Scope Q_scope.

Lemma sum_app (l1 l2 : list Q) : sum (l1 ++ l2) == sum l1 + sum l2.
Proof.
  induction l1 as [|x l1 IH]; simpl.
  - lra.
  - rewrite IH. lra.
Qed.

Lemma Qltb_lt (x y : Q) : Qltb x y = true <-> x < y.
Proof.
  unfold Qltb. rewrite negb_true_iff.
  destruct (Qle_bool y x) eqn:E.
  - apply Qle_bool_iff in E. split; [discriminate | lra].
  - split; [intros _ | reflexivity].
    apply Qnot_le_lt. intro H. apply Qle_bool_iff in H. congruence.
Qed.

Lemma Qltb_ge (x y : Q) : Qltb x y = false <-> y <= x.
Proof.
  unfold Qltb. rewrite negb_false_iff. apply Qle_bool_iff.
Qed.

Lemma insert_perm (x : Q) (l : list Q) : Permutation (insert x l) (x :: l).
Proof.
  induction l as [|y r IH]; simpl.
  - apply Permutation_refl.
  - destruct (Qle_bool x y).
    + apply Permutation_refl.
    + eapply perm_trans; [apply perm_skip, IH | apply perm_swap].
Qed.

Lemma sort_perm (l : list Q) : Permutation (sort l) l.
Proof.
  induction l as [|x r IH]; simpl.
  - apply perm_nil.
  - eapply perm_trans; [apply insert_perm | apply perm_skip, IH].
Qed.

Lemma sort_length (l : list Q) : length (sort l) = length l.
Proof. apply Permutation_length, sort_perm. Qed.

Lemma insert_sorted (x : Q) (l : list Q) :
  StronglySorted Qle l -> StronglySorted Qle (insert x l).
Proof.
  induction 1 as [|y r Hs IH Hall]; simpl.
  - constructor; constructor.
  - destruct (Qle_bool x y) eqn:E.
    + apply Qle_bool_iff in E.
      constructor; [constructor; assumption|].
      constructor; [exact E|].
      eapply Forall_impl; [|exact Hall]. intros z Hz. simpl in Hz. lra.
    + assert (Hyx : y <= x).
      { apply Qlt_le_weak, Qnot_le_lt. intro H. apply Qle_bool_iff in H. congruence. }
      constructor; [exact IH|].
      eapply Permutation_Forall; [apply Permutation_sym, insert_perm|].
      constructor; assumption.
Qed.

Lemma sort_sorted (l : list Q) : StronglySorted Qle (sort l).
Proof.
  induction l as [|x r IH]; simpl.
  - constructor.
  - apply insert_sorted, IH.
Qed.

Lemma sorted_nth_le (s : list Q) :
  StronglySorted Qle s ->
  forall i j, (i <= j < length s)%nat -> nth i s 0 <= nth j s 0.
Proof.
  induction 1 as [|x r Hs IH Hall]; intros i j [Hij Hj]; simpl in Hj.
  - lia.
  - destruct i as [|i], j as [|j]; simpl; try lia.
    + lra.
    + rewrite Forall_forall in Hall. apply Hall, nth_In. lia.
    + apply IH. lia.
Qed.

(** The floor and the ceiling of a rank are equal, at an integer rank,
    or one apart. *)
Lemma floor_ceiling_cases (r : Q) :
  (Qceiling r = Qfloor r /\ r == inject_Z (Qfloor r)) \/
  (Qceiling r = (Qfloor r + 1)%Z /\ inject_Z (Qfloor r) < r).
Proof.
  pose proof (Qfloor_le r) as Hf.
  pose proof (Qlt_floor r) as Hf'.
  pose proof (Qle_ceiling r) as Hc.
  pose proof (Qceiling_lt r) as Hc'.
  assert (H1 : (Qfloor r <= Qceiling r)%Z) by (rewrite Zle_Qle; lra).
  assert (H2 : (Qceiling r - 1 < Qfloor r + 1)%Z) by (rewrite Zlt_Qlt; lra).
  destruct (Z.eq_dec (Qceiling r) (Qfloor r)) as [E|E].
  - left. split; [exact E|]. rewrite E in Hc. lra.
  - right. assert (E' : Qceiling r = (Qfloor r + 1)%Z) by lia.
    split; [exact E'|]. rewrite E' in Hc'.
    replace (Qfloor r + 1 - 1)%Z with (Qfloor r) in Hc' by lia. exact Hc'.
Qed.

Lemma rank_bounds (r : Q) (n : nat) :
  0 <= r -> r <= of_nat n - 1 ->
  (0 <= Qfloor r)%Z /\ (Qfloor r <= Qceiling r)%Z /\
  (Qceiling r <= Z.of_nat n - 1)%Z.
Proof.
  intros H0 Hn.
  pose proof (Qfloor_le r) as Hf.
  pose proof (Qle_ceiling r) as Hc.
  split; [|split].
  - change 0%Z with (Qfloor 0). apply Qfloor_resp_le, H0.
  - rewrite Zle_Qle. lra.
  - rewrite <- (Qceiling_Z (Z.of_nat n - 1)). apply Qceiling_resp_le.
    unfold of_nat in Hn.
    replace (Z.of_nat n - 1)%Z with (Z.of_nat n + -1)%Z by lia.
    rewrite inject_Z_plus. change (inject_Z (-1)) with (-1 # 1). lra.
Qed.

Lemma interpolate_between (s : list Q) (r : Q) :
  StronglySorted Qle s -> 0 <= r -> r <= len s - 1 ->
  nth (Z.to_nat (Qfloor r)) s 0 <= interpolate s r /\
  interpolate s r <= nth (Z.to_nat (Qceiling r)) s 0.
Proof.
  intros Hs H0 Hn.
  destruct (rank_bounds _ _ H0 Hn) as (Hf0 & Hfc & Hcn).
  assert (Hab : nth (Z.to_nat (Qfloor r)) s 0 <= nth (Z.to_nat (Qceiling r)) s 0)
    by (apply sorted_nth_le; [exact Hs | lia]).
  pose proof (Qfloor_le r) as Hf.
  unfold interpolate.
  destruct (floor_ceiling_cases r) as [[E Hr]|[E Hr]].
  - rewrite E. split; nra.
  - assert (Hw : r - inject_Z (Qfloor r) <= 1).
    { pose proof (Qle_ceiling r) as Hc. pose proof (Qlt_floor r) as Hlt.
      rewrite inject_Z_plus in Hlt. change (inject_Z 1) with 1 in Hlt. lra. }
    split; nra.
Qed.

Lemma interpolate_mono (s : list Q) (r1 r2 : Q) :
  StronglySorted Qle s -> 0 <= r1 -> r1 <= r2 -> r2 <= len s - 1 ->
  interpolate s r1 <= interpolate s r2.
Proof.
  intros Hs H0 H12 Hn.
  assert (H1n : r1 <= len s - 1) by lra.
  assert (H02 : 0 <= r2) by lra.
  destruct (rank_bounds _ _ H0 H1n) as (Hf1 & Hfc1 & Hc1).
  destruct (rank_bounds _ _ H02 Hn) as (Hf2 & Hfc2 & Hc2).
  destruct (interpolate_between _ _ Hs H0 H1n) as [L1 U1].
  destruct (interpolate_between _ _ Hs H02 Hn) as [L2 U2].
  pose proof (Qfloor_resp_le _ _ H12) as Hff.
  destruct (Z.eq_dec (Qfloor r1) (Qfloor r2)) as [E|E].
  - destruct (floor_ceiling_cases r1) as [[Ec1 Hr1]|[Ec1 Hr1]].
    + assert (Hi : interpolate s r1 == nth (Z.to_nat (Qfloor r1)) s 0)
        by (unfold interpolate; nra).
      rewrite Hi, E. exact L2.
    + destruct (floor_ceiling_cases r2) as [[Ec2 Hr2]|[Ec2 Hr2]].
      * rewrite <- E in Hr2. lra.
      * assert (Hab : nth (Z.to_nat (Qfloor r1)) s 0
                      <= nth (Z.to_nat (Qceiling r1)) s 0)
          by (apply sorted_nth_le; [exact Hs | lia]).
        unfold interpolate. rewrite Ec2, <- E, <- Ec1.
        pose proof (Qfloor_le r1). nra.
  - assert (Hlt : (Qfloor r1 < Qfloor r2)%Z) by lia.
    assert (Hc : (Qceiling r1 <= Qfloor r2)%Z)
      by (destruct (floor_ceiling_cases r1) as [[Ec _]|[Ec _]]; lia).
    assert (Hmid : nth (Z.to_nat (Qceiling r1)) s 0
                   <= nth (Z.to_nat (Qfloor r2)) s 0)
      by (apply sorted_nth_le; [exact Hs | lia]).
    lra.
Qed.

Lemma min_spec (l : list Q) (m : Q) :
  min l = Some m -> In m l /\ Forall (Qle m) l.
Proof.
  revert m. induction l as [|x r IH]; intros m; simpl; [discriminate|].
  destruct (min r) as [m'|] eqn:E.
  - destruct (IH _ eq_refl) as [Hin Hall].
    destruct (Qle_bool x m') eqn:C; intros [= <-].
    + apply Qle_bool_iff in C. split; [now left|].
      constructor; [lra|]. eapply Forall_impl; [|exact Hall].
      intros z Hz. simpl in Hz. lra.
    + split; [now right|].
      constructor; [|exact Hall].
      apply Qlt_le_weak, Qnot_le_lt. intro H. apply Qle_bool_iff in H. congruence.
  - intros [= <-]. destruct r; [|simpl in E; destruct (min r); discriminate].
    split; [now left|]. constructor; [lra|constructor].
Qed.

Lemma max_spec (l : list Q) (m : Q) :
  max l = Some m -> In m l /\ Forall (fun x => x <= m) l.
Proof.
  revert m. induction l as [|x r IH]; intros m; simpl; [discriminate|].
  destruct (max r) as [m'|] eqn:E.
  - destruct (IH _ eq_refl) as [Hin Hall].
    destruct (Qle_bool m' x) eqn:C; intros [= <-].
    + apply Qle_bool_iff in C. split; [now left|].
      constructor; [lra|]. eapply Forall_impl; [|exact Hall].
      intros z Hz. simpl in Hz. lra.
    + split; [now right|].
      constructor; [|exact Hall].
      apply Qlt_le_weak, Qnot_le_lt. intro H. apply Qle_bool_iff in H. congruence.
  - intros [= <-]. destruct r; [|simpl in E; destruct (max r); discriminate].
    split; [now left|]. constructor; [lra|constructor].
Qed.

Lemma min_some (l : list Q) : l <> [] -> exists m, min l = Some m.
Proof.
  destruct l as [|x r]; [congruence|]. intros _. simpl.
  destruct (min r); eexists; reflexivity.
Qed.

Lemma max_some (l : list Q) : l <> [] -> exists m, max l = Some m.
Proof.
  destruct l as [|x r]; [congruence|]. intros _. simpl.
  destruct (max r); eexists; reflexivity.
Qed.

(** The first value of the sorted column is its minimum, the last its
    maximum. *)
Lemma sort_first_min (l : list Q) (m : Q) :
  min l = Some m -> nth 0 (sort l) 0 == m.
Proof.
  intros Hm. destruct (@min_spec _ _ Hm) as [Hin Hall].
  assert (Hlen : (0 < length (sort l))%nat).
  { rewrite sort_length. destruct l; [contradiction|simpl; lia]. }
  apply Qle_antisym.
  - apply (Permutation_in _ (Permutation_sym (sort_perm l))) in Hin.
    destruct (In_nth _ _ 0 Hin) as (i & Hi & Ei).
    rewrite <- Ei. apply sorted_nth_le; [apply sort_sorted | lia].
  - rewrite Forall_forall in Hall. apply Hall.
    apply (Permutation_in _ (sort_perm l)), nth_In, Hlen.
Qed.

Lemma sort_last_max (l : list Q) (m : Q) :
  max l = Some m -> nth (length l - 1) (sort l) 0 == m.
Proof.
  intros Hm. destruct (@max_spec _ _ Hm) as [Hin Hall].
  assert (Hlen : (0 < length l)%nat).
  { destruct l; [contradiction|simpl; lia]. }
  apply Qle_antisym.
  - rewrite Forall_forall in Hall. apply Hall.
    apply (Permutation_in _ (sort_perm l)), nth_In. rewrite sort_length. lia.
  - apply (Permutation_in _ (Permutation_sym (sort_perm l))) in Hin.
    destruct (In_nth _ _ 0 Hin) as (i & Hi & Ei).
    rewrite <- Ei. rewrite sort_length in Hi.
    apply sorted_nth_le; [apply sort_sorted | rewrite sort_length; lia].
Qed.

(** ** Sums, means and variances *)

Lemma of_nat_pos (n : nat) : (0 < n)%nat -> 1 <= of_nat n.
Proof.
  intros H. unfold of_nat. change 1 with (inject_Z 1).
  rewrite <- Zle_Qle. lia.
Qed.

Lemma of_nat_S (n : nat) : of_nat (S n) == of_nat n + 1.
Proof.
  unfold of_nat. rewrite Nat2Z.inj_succ. unfold Z.succ.
  rewrite inject_Z_plus. reflexivity.
Qed.

Lemma sum_const (c : Q) (l : list Q) :
  Forall (fun x => x == c) l -> sum l == c * len l.
Proof.
  unfold len. induction 1 as [|x r Hx _ IH]; cbn [sum length].
  - unfold of_nat. simpl. ring.
  - rewrite of_nat_S, IH, Hx. ring.
Qed.

Lemma mean_const (c : Q) (l : list Q) :
  l <> [] -> Forall (fun x => x == c) l -> sum l / len l == c.
Proof.
  intros Hl Hall. rewrite (sum_const _ _ Hall).
  assert (Hpos : 1 <= len l).
  { apply of_nat_pos. destruct l; [congruence | simpl; lia]. }
  field. lra.
Qed.

Lemma sq_nonneg (x : Q) : 0 <= sq x.
Proof. unfold sq. destruct (Qlt_le_dec x 0); nra. Qed.

Lemma sq_zero (x : Q) : sq x == 0 -> x == 0.
Proof. unfold sq. intros H. destruct (Qlt_le_dec x 0); nra. Qed.

Lemma sum_sq_nonneg (m : Q) (l : list Q) : 0 <= sum_sq_dev l m.
Proof.
  unfold sum_sq_dev. induction l as [|x r IH]; cbn [map sum]; [lra |].
  pose proof (sq_nonneg (x - m)). lra.
Qed.

Lemma sum_sq_zero (m : Q) (l : list Q) :
  sum_sq_dev l m == 0 -> Forall (fun x => x == m) l.
Proof.
  induction l as [|x r IH]; intros H; constructor;
    pose proof (sum_sq_nonneg m r) as Hr;
    pose proof (sq_nonneg (x - m)) as Hx;
    unfold sum_sq_dev in *; cbn [map sum] in H.
  - assert (E : x - m == 0) by (apply sq_zero; lra). lra.
  - apply IH. lra.
Qed.

Lemma var_two (x y : Q) (r : list Q) :
  let l := x :: y :: r in
  var l = Some (sum_sq_dev l (sum l / len l) / (len l - 1)).
Proof. reflexivity. Qed.

Lemma len_two (x y : Q) (r : list Q) : 2 <= len (x :: y :: r).
Proof.
  unfold len. cbn [length]. rewrite !of_nat_S.
  assert (0 <= of_nat (length r)) by (unfold of_nat; rewrite <- (Zle_Qle 0); lia).
  lra.
Qed.

Lemma var_some (l : list Q) (v : Q) :
  var l = Some v ->
  2 <= len l /\ v = sum_sq_dev l (sum l / len l) / (len l - 1).
Proof.
  destruct l as [|x [|y r]]; try discriminate. intros H.
  split; [apply len_two|].
  pose proof (var_two x y r) as E. cbv zeta in E. congruence.
Qed.

(** A variance of zero means that all the values are equal. *)
Lemma var_zero_constant (l : list Q) (v : Q) :
  var l = Some v -> v == 0 ->
  exists m, Forall (fun x => x == m) l.
Proof.
  intros Hv H0. destruct (var_some _ _ Hv) as [Hn ->].
  exists (sum l / len l). apply sum_sq_zero.
  assert (E : sum_sq_dev l (sum l / len l)
              == sum_sq_dev l (sum l / len l) / (len l - 1) * (len l - 1))
    by (field; lra).
  rewrite E, H0. ring.
Qed.

Lemma sum_sq_dev_zeros (l : list Q) (m : Q) :
  m == 0 -> Forall (fun x => x == 0) l -> sum_sq_dev l m == 0.
Proof.
  intros Hm. unfold sum_sq_dev.
  induction 1 as [|a l' Ha _ IH]; cbn [map sum].
  - reflexivity.
  - rewrite IH. unfold sq. rewrite Ha, Hm. ring.
Qed.

Lemma var_of_zeros (l : list Q) :
  Forall (fun x => x == 0) l ->
  var l = None \/ exists v, var l = Some v /\ v == 0.
Proof.
  intros Hall. destruct l as [|x [|y r]]; [now left | now left |].
  right. eexists. split; [apply var_two|]. cbv zeta.
  rewrite sum_sq_dev_zeros.
  - unfold Qdiv. ring.
  - apply mean_const; [discriminate | exact Hall].
  - exact Hall.
Qed.

Lemma gt_scaled_sqrt_zero (d t v : Q) :
  d == 0 -> v == 0 -> gt_scaled_sqrt d t v = false.
Proof.
  intros Hd Hv. unfold gt_scaled_sqrt.
  assert (A : Qltb 0 d = false) by (apply Qltb_ge; lra).
  assert (B : Qltb (sq d) (sq t * v) = false).
  { apply Qltb_ge. unfold sq. rewrite Hd, Hv. lra. }
  rewrite A, B. destruct (Qle_bool 0 t); reflexivity.
Qed.

End SeriesFacts.

Module AnalysisFacts.
Import Series Analysis AnalysisViews SeriesFacts.
Local Open Scope Q_scope.


Lemma group_add_total (d : Z) (e : Q) (acc : list DailyAggregate) :
  sum (totals (group_add d e acc)) == sum (totals acc) + e.
Proof.
  unfold totals.
  induction acc as [|g rest IH]; cbn [group_add map sum total_energy_kwh].
  - lra.
  - destruct (d <? date g)%Z; [cbn [map sum total_energy_kwh]; lra|].
    destruct (d =? date g)%Z; cbn [map sum total_energy_kwh]; [lra|].
    rewrite IH. lra.
Qed.

Lemma fold_group_add_total (rows : list (Z * Q)) (acc : list DailyAggregate) :
  sum (totals (fold_left (fun a r => group_add (fst r) (snd r) a) rows acc))
  == sum (totals acc) + sum (map snd rows).
Proof.
  revert acc. induction rows as [|r rows IH]; intros acc;
    cbn [fold_left map sum].
  - lra.
  - rewrite IH, group_add_total. lra.
Qed.


(** ** The groups of [groupby_sum]: one per date of the input, in
    ascending order, each holding the energy of its date. *)

Lemma group_add_dates (d : Z) (e : Q) (acc : list DailyAggregate) (x : Z) :
  In x (map date (group_add d e acc)) <-> x = d \/ In x (map date acc).
Proof.
  induction acc as [|g rest IH]; cbn [group_add map In date].
  - split; intros [H | H]; subst; auto.
  - destruct (d <? date g)%Z eqn:L; [|destruct (d =? date g)%Z eqn:E];
      cbn [map In date].
    + split; [intros [H | H] | intros [H | H]]; subst; auto.
    + apply Z.eqb_eq in E. subst d.
      split; [intros [H | H] | intros [H | [H | H]]]; subst; auto.
    + rewrite IH.
      split; [intros [H | [H | H]] | intros [H | [H | H]]]; subst; auto.
Qed.

Lemma group_add_sorted (d : Z) (e : Q) (acc : list DailyAggregate) :
  StronglySorted Z.lt (map date acc) ->
  StronglySorted Z.lt (map date (group_add d e acc)).
Proof.
  induction acc as [|g rest IH]; cbn [group_add map]; intros Hs.
  - constructor; constructor.
  - inversion Hs as [|? ? Hrest Hall]; subst.
    destruct (d <? date g)%Z eqn:L.
    + apply Z.ltb_lt in L. cbn [map date]. constructor; [exact Hs|].
      constructor; [exact L|].
      eapply Forall_impl; [|exact Hall]. intros z Hz. cbv beta in Hz. lia.
    + apply Z.ltb_ge in L. destruct (d =? date g)%Z eqn:E; cbn [map date].
      * exact Hs.
      * apply Z.eqb_neq in E. constructor; [apply IH, Hrest|].
        apply Forall_forall. intros x Hx. apply group_add_dates in Hx.
        destruct Hx as [-> | Hx]; [lia|].
        rewrite Forall_forall in Hall. apply Hall, Hx.
Qed.

Lemma group_add_total_on (d' d : Z) (e : Q) (acc : list DailyAggregate) :
  StronglySorted Z.lt (map date acc) ->
  total_on d' (group_add d e acc)
  == total_on d' acc + (if (d =? d')%Z then e else 0).
Proof.
  unfold total_on.
  induction acc as [|g rest IH]; cbn [group_add map filter sum date]; intros Hs.
  - destruct (d =? d')%Z; cbn [map sum total_energy_kwh]; lra.
  - inversion Hs as [|? ? Hrest Hall]; subst.
    destruct (d <? date g)%Z eqn:L.
    + cbn [filter date].
      destruct (d =? d')%Z; destruct (date g =? d')%Z;
        cbn [map sum total_energy_kwh]; lra.
    + destruct (d =? date g)%Z eqn:E.
      * apply Z.eqb_eq in E. subst d. cbn [filter date].
        destruct (date g =? d')%Z; cbn [map sum total_energy_kwh]; lra.
      * cbn [filter]. specialize (IH Hrest).
        destruct (date g =? d')%Z; cbn [map sum total_energy_kwh];
          rewrite IH; lra.
Qed.

Lemma fold_group_add_invariant (rows : list (Z * Q)) (acc : list DailyAggregate) :
  StronglySorted Z.lt (map date acc) ->
  let gs := fold_left (fun a r => group_add (fst r) (snd r) a) rows acc in
  StronglySorted Z.lt (map date gs) /\
  (forall d, In d (map date gs) <-> In d (map fst rows) \/ In d (map date acc)) /\
  (forall d, total_on d gs == total_on d acc + energy_on d rows).
Proof.
  revert acc. induction rows as [|[d0 e0] rows IH]; intros acc Hs;
    cbn [fold_left map In fst snd].
  - split; [exact Hs|]. split; [intuition|].
    intros d. unfold energy_on. cbn [filter map sum]. lra.
  - destruct (IH _ (group_add_sorted d0 e0 acc Hs)) as (S & D & T).
    split; [exact S|]. split.
    + intros d. rewrite D, group_add_dates.
      split; [intros [H | [H | H]] | intros [[H | H] | H]]; subst; auto.
    + intros d. rewrite T, (group_add_total_on d d0 e0 acc Hs).
      unfold energy_on. cbn [filter fst].
      destruct (d0 =? d)%Z; cbn [map sum snd]; lra.
Qed.

Lemma filter_none {A : Type} (f : A -> bool) (l : list A) :
  (forall x, In x l -> f x = false) -> filter f l = [].
Proof.
  induction l as [|x l IH]; intros H; cbn [filter]; [reflexivity|].
  rewrite (H x (or_introl eq_refl)). apply IH. intros y Hy. apply H. now right.
Qed.

Lemma sorted_total_on (gs : list DailyAggregate) (g : DailyAggregate) :
  StronglySorted Z.lt (map date gs) -> In g gs ->
  total_on (date g) gs == total_energy_kwh g.
Proof.
  unfold total_on. induction gs as [|g0 rest IH]; intros Hs Hin; [destruct Hin|].
  cbn [map] in Hs. inversion Hs as [|? ? Hrest Hall]; subst.
  rewrite Forall_forall in Hall. cbn [filter]. destruct Hin as [-> | Hin].
  - rewrite Z.eqb_refl. cbn [map sum].
    assert (E : filter (fun g' => (date g' =? date g)%Z) rest = []).
    { apply filter_none. intros x Hx. apply Z.eqb_neq.
      pose proof (Hall _ (in_map date _ _ Hx)). lia. }
    rewrite E. cbn [map sum]. lra.
  - pose proof (Hall _ (in_map date _ _ Hin)) as Hlt.
    destruct (date g0 =? date g)%Z eqn:E; [apply Z.eqb_eq in E; lia|].
    apply IH; assumption.
Qed.

(** The result of [calculate_daily_consumption] has its dates in
    strictly ascending order, they are the dates of the input, and each
    total is the energy of the readings of its date. *)
Lemma daily_groups (df : list Reading) :
  let rows := map (fun r => (Calendar.date (timestamp r), energy_consumed_kwh r)) df in
  exists daily,
    calculate_daily_consumption df = Ok daily /\
    StronglySorted Z.lt (map date daily) /\
    (forall d, In d (map date daily) <-> In d (map fst rows)) /\
    (forall g, In g daily -> total_energy_kwh g == energy_on (date g) rows).
Proof.
  intros rows. exists (groupby_sum rows). split; [reflexivity|].
  assert (H0 : StronglySorted Z.lt (map date [])) by constructor.
  destruct (fold_group_add_invariant rows [] H0) as (S & D & T).
  fold (groupby_sum rows) in S, D, T.
  split; [exact S|]. split.
  - intros d. rewrite D. cbn [map In]. intuition.
  - intros g Hg. rewrite <- (sorted_total_on _ g S Hg), T.
    unfold total_on. cbn [filter map sum]. lra.
Qed.

(** The example of the docstring: two readings on 2026-01-01 and one on
    2026-01-02, given out of order. *)
Example daily_consumption_docstring :
  calculate_daily_consumption
    [ Samples.reading_at (Calendar.datetime 2026 1 1 8 0 0) 0 100;
      Samples.reading_at (Calendar.datetime 2026 1 2 8 0 0) 0 200;
      Samples.reading_at (Calendar.datetime 2026 1 1 9 0 0) 0 150 ]
  = Ok [ {| date := Calendar.days_from_civil 2026 1 1; total_energy_kwh := 250 |};
         {| date := Calendar.days_from_civil 2026 1 2; total_energy_kwh := 200 |} ].
Proof. vm_compute. reflexivity. Qed.

(** ** Peak threshold *)

Lemma quantile_in_range (l : list Q) (p : Q) :
  l <> [] -> 0 <= p -> p <= 100 ->
  quantile l (p / 100)
  = Ok (Some (interpolate (sort l) (rank (length l) (p / 100)))).
Proof.
  intros Hl H0 H100. unfold quantile.
  assert (C0 : Qle_bool 0 (p / 100) = true)
    by (apply Qle_bool_iff; apply Qle_shift_div_l; lra).
  assert (C1 : Qle_bool (p / 100) 1 = true)
    by (apply Qle_bool_iff; apply Qle_shift_div_r; lra).
  rewrite C0, C1. destruct l; [congruence | reflexivity].
Qed.

Lemma identify_peak_threshold (df : list Reading) (p : Q) :
  df <> [] -> 0 <= p -> p <= 100 ->
  exists s,
    identify_peak_periods df p = Ok s /\
    peak_threshold s
    = Some (interpolate (sort (map power_kw df))
                        (rank (length df) (p / 100))).
Proof.
  intros Hdf H0 H100. unfold identify_peak_periods.
  rewrite quantile_in_range; [| destruct df; [congruence | discriminate] | lra | lra].
  rewrite length_map. cbn [bind].
  destruct df as [|r df]; [congruence|].
  cbn [length int_truediv bind]. eexists. split; reflexivity.
Qed.

Lemma rank_range (n : nat) (p : Q) :
  (0 < n)%nat -> 0 <= p -> p <= 100 ->
  0 <= rank n (p / 100) /\ rank n (p / 100) <= of_nat n - 1.
Proof.
  intros Hn H0 H100. pose proof (of_nat_pos _ Hn) as H1. unfold rank.
  assert (Q0 : 0 <= p / 100) by (apply Qle_shift_div_l; lra).
  assert (Q1 : p / 100 <= 1) by (apply Qle_shift_div_r; lra).
  split; nra.
Qed.

Lemma rank_mono (n : nat) (p1 p2 : Q) :
  (0 < n)%nat -> p1 <= p2 -> rank n (p1 / 100) <= rank n (p2 / 100).
Proof.
  intros Hn H12. pose proof (of_nat_pos _ Hn) as H1. unfold rank.
  assert (Q12 : p1 / 100 <= p2 / 100).
  { unfold Qdiv. apply Qmult_le_compat_r; [exact H12 | discriminate]. }
  nra.
Qed.

Lemma interpolate_at_integer (s : list Q) (r : Q) (k : nat) :
  r == of_nat k -> interpolate s r == nth k s 0.
Proof.
  intros E. unfold interpolate.
  rewrite (Qfloor_comp _ _ E), (Qceiling_comp _ _ E).
  unfold of_nat. rewrite Qfloor_Z, Qceiling_Z, Nat2Z.id.
  unfold of_nat in E. rewrite E. ring.
Qed.

(** C4. On a non-empty table the peak threshold is the linear
    interpolation between the order statistics at rank
    [percentile / 100 * (n - 1)]; it does not decrease when the
    percentile grows within [0, 100]; at percentile 0 it is the minimum
    of the power column and at percentile 100 its maximum. *)
Theorem peak_threshold_monotone (df : list Reading) :
  df <> [] ->
  (forall p, 0 <= p -> p <= 100 ->
     exists s,
       identify_peak_periods df p = Ok s /\
       peak_threshold s
       = Some (interpolate (sort (map power_kw df))
                           (p / 100 * (of_nat (length df) - 1)))) /\
  (forall p1 p2, 0 <= p1 -> p1 <= p2 -> p2 <= 100 ->
     exists s1 s2 t1 t2,
       identify_peak_periods df p1 = Ok s1 /\
       identify_peak_periods df p2 = Ok s2 /\
       peak_threshold s1 = Some t1 /\ peak_threshold s2 = Some t2 /\
       t1 <= t2) /\
  (exists s t m,
     identify_peak_periods df 0 = Ok s /\ peak_threshold s = Some t /\
     min (map power_kw df) = Some m /\ t == m) /\
  (exists s t m,
     identify_peak_periods df 100 = Ok s /\ peak_threshold s = Some t /\
     max (map power_kw df) = Some m /\ t == m).
Proof.
  intros Hdf.
  assert (Hn : (0 < length df)%nat) by (destruct df; [congruence | simpl; lia]).
  assert (Hp : map power_kw df <> []) by (destruct df; [congruence | discriminate]).
  split; [|split; [|split]].
  - intros p H0 H100. exact (identify_peak_threshold _ _ Hdf H0 H100).
  - intros p1 p2 H0 H12 H100.
    assert (A1 : p1 <= 100) by lra. assert (A2 : 0 <= p2) by lra.
    destruct (identify_peak_threshold _ _ Hdf H0 A1) as (s1 & E1 & T1).
    destruct (identify_peak_threshold _ _ Hdf A2 H100) as (s2 & E2 & T2).
    exists s1, s2. do 2 eexists.
    split; [exact E1 | split; [exact E2 | split; [exact T1 | split; [exact T2 |]]]].
    destruct (rank_range _ _ Hn H0 A1) as [R0 _].
    destruct (rank_range _ _ Hn A2 H100) as [_ R1].
    apply interpolate_mono.
    + apply sort_sorted.
    + exact R0.
    + apply rank_mono; assumption.
    + unfold len. rewrite sort_length, length_map. exact R1.
  - assert (A0 : 0 <= 0) by lra. assert (A1 : 0 <= 100) by lra.
    destruct (identify_peak_threshold _ _ Hdf A0 A1) as (s & E & T).
    destruct (min_some _ Hp) as [m Hm].
    exists s. eexists. exists m.
    split; [exact E | split; [exact T | split; [exact Hm |]]].
    rewrite (interpolate_at_integer _ _ 0%nat).
    + apply sort_first_min, Hm.
    + unfold rank, of_nat. simpl inject_Z at 2. field.
  - assert (A0 : 0 <= 100) by lra. assert (A1 : 100 <= 100) by lra.
    destruct (identify_peak_threshold _ _ Hdf A0 A1) as (s & E & T).
    destruct (max_some _ Hp) as [m Hm].
    exists s. eexists. exists m.
    split; [exact E | split; [exact T | split; [exact Hm |]]].
    rewrite (interpolate_at_integer _ _ (length df - 1)%nat).
    + rewrite <- (length_map power_kw df). apply sort_last_max, Hm.
    + unfold rank, of_nat. rewrite Nat2Z.inj_sub by lia.
      unfold Z.sub. rewrite inject_Z_plus.
      change (inject_Z (- Z.of_nat 1)) with (-1 # 1). field.
Qed.

Lemma peak_threshold_monotone_witness :
  let df := Samples.table_of_power [10; 20; 30; 40; 50; 60; 70; 80; 90; 100] in
  df <> [] /\
  exists s1 s2 t1 t2,
    identify_peak_periods df 25 = Ok s1 /\
    identify_peak_periods df 75 = Ok s2 /\
    peak_threshold s1 = Some t1 /\ peak_threshold s2 = Some t2 /\
    t1 <= t2.
Proof.
  cbv zeta.
  assert (Hne : Samples.table_of_power [10; 20; 30; 40; 50; 60; 70; 80; 90; 100]
                <> []) by (vm_compute; discriminate).
  split; [exact Hne|].
  apply (proj1 (proj2 (peak_threshold_monotone _ Hne))); lra.
Defined.

(** ** Rolling mean and spikes *)


Lemma detect_rows (df : list Reading) (w : Z) (t : Q) :
  (1 <= w)%Z ->
  detect_abnormal_spikes df w t
  = Ok (map (spike_row t (var (map snd (spike_data df (Z.to_nat w)))))
            (spike_data df (Z.to_nat w))).
Proof.
  intros Hw. unfold detect_abnormal_spikes, rolling_mean.
  destruct (w <? 1)%Z eqn:E; [apply Z.ltb_lt in E; lia|].
  cbn [bind]. rewrite length_map. f_equal.
  apply map_ext. intros [[r avg] dev]. reflexivity.
Qed.

Lemma spike_data_length (df : list Reading) (w : nat) :
  length (spike_data df w) = length df.
Proof.
  unfold spike_data. rewrite length_map, length_combine, length_map, length_seq.
  apply Nat.min_id.
Qed.

Lemma deviation_spike_rows (t : Q) (variance : option Q)
    (data : list (Reading * Q * Q)) :
  map deviation (map (spike_row t variance) data) = map snd data.
Proof. rewrite map_map. reflexivity. Qed.

Lemma in_combine_seq {A B : Type} (f : nat -> B) (l : list A) (a : nat)
    (x : A) (y : B) :
  In (x, y) (combine l (map f (seq a (length l)))) ->
  exists i, nth_error l i = Some x /\ y = f (a + i)%nat.
Proof.
  revert a. induction l as [|z l IH]; intros a; cbn [length seq map combine].
  - intros [].
  - intros [E | Hin].
    + injection E as -> <-. exists 0%nat. rewrite Nat.add_0_r. split; reflexivity.
    + destruct (IH _ Hin) as (i & Hi & Ey). exists (S i).
      rewrite Nat.add_succ_r. split; assumption.
Qed.

(** Every row of the data: its reading is row [i] of the table and its
    rolling average is taken over the window that ends at [i]. *)
Lemma in_spike_data (df : list Reading) (w : nat) (row : Reading * Q * Q) :
  In row (spike_data df w) ->
  exists i,
    nth_error df i = Some (fst (fst row)) /\
    snd (fst row) = rolling_at w (map power_kw df) i /\
    snd row = power_kw (fst (fst row)) - snd (fst row).
Proof.
  unfold spike_data. intros Hin. apply in_map_iff in Hin.
  destruct Hin as ([r avg] & <- & Hin).
  destruct (in_combine_seq _ _ _ _ _ Hin) as (i & Hi & E).
  exists i. cbn [fst snd]. repeat split; assumption.
Qed.

Lemma window_in (w : nat) (l : list Q) (i : nat) (x : Q) :
  In x (window w l i) -> In x l.
Proof.
  unfold window. intros H.
  rewrite <- (firstn_skipn (i + 1 - w) l). apply in_or_app. right.
  rewrite <- (firstn_skipn (i + 1 - (i + 1 - w)) (skipn (i + 1 - w) l)).
  apply in_or_app. left. exact H.
Qed.

Lemma window_nonempty (w : nat) (l : list Q) (i : nat) :
  (1 <= w)%nat -> (i < length l)%nat -> window w l i <> [].
Proof.
  intros Hw Hi E. apply (f_equal (@length Q)) in E.
  unfold window in E. rewrite length_firstn, length_skipn in E.
  simpl in E. lia.
Qed.

(** With a window of one row the rolling average is the row itself. *)
Lemma window_one (l : list Q) (i : nat) (x : Q) :
  nth_error l i = Some x -> window 1 l i = [x].
Proof.
  intros H. unfold window.
  replace (i + 1 - 1)%nat with i by lia.
  replace (i + 1 - i)%nat with 1%nat by lia.
  rewrite <- (firstn_skipn_middle i l H) at 1.
  assert (Hlen : length (firstn i l) = i).
  { apply firstn_length_le. apply Nat.lt_le_incl, nth_error_Some. congruence. }
  rewrite skipn_app, Hlen, Nat.sub_diag.
  rewrite (skipn_all2 (firstn i l)) by lia. reflexivity.
Qed.

(** The first row is its own rolling average, whatever the window. *)
Lemma window_first (w : nat) (x : Q) (l : list Q) :
  (1 <= w)%nat -> window w (x :: l) 0 = [x].
Proof.
  intros Hw. unfold window.
  replace (0 + 1 - w)%nat with 0%nat by lia. reflexivity.
Qed.

Lemma mean_singleton (x : Q) : sum [x] / len [x] == x.
Proof. unfold len, of_nat. cbn [sum length]. simpl inject_Z. field. Qed.

Lemma first_deviation_zero (df : list Reading) (w : nat) :
  (1 <= w)%nat ->
  match spike_data df w with
  | [] => True
  | row :: _ => snd row == 0
  end.
Proof.
  intros Hw. destruct df as [|r df]; [exact I|].
  unfold spike_data. cbn [length seq map combine fst snd].
  unfold rolling_at. rewrite window_first by exact Hw.
  rewrite mean_singleton. ring.
Qed.

(** When the variance of the deviations is zero, or undefined, no row
    is flagged. *)
Lemma no_anomaly_without_variance (df : list Reading) (w : nat) (t : Q) :
  (1 <= w)%nat ->
  let data := spike_data df w in
  (var (map snd data) = None \/
   exists v, var (map snd data) = Some v /\ v == 0) ->
  Forall (fun row => is_anomaly row = false)
         (map (spike_row t (var (map snd data))) data).
Proof.
  intros Hw data [Hnone | (v & Hv & H0)].
  - rewrite Hnone. apply Forall_forall. intros row Hin.
    apply in_map_iff in Hin. destruct Hin as (d & <- & _). reflexivity.
  - rewrite Hv.
    destruct (var_zero_constant _ _ Hv H0) as (m & Hall).
    assert (Hm : m == 0).
    { pose proof (first_deviation_zero df w Hw) as Hfirst.
      fold data in Hfirst. destruct data as [|row rest]; [discriminate|].
      cbn [map] in Hall. inversion Hall as [|? ? Hrow _]; subst.
      rewrite <- Hrow. exact Hfirst. }
    apply Forall_forall. intros row Hin.
    apply in_map_iff in Hin. destruct Hin as (d & <- & Hd).
    cbn [spike_row is_anomaly gt_scaled_std].
    apply gt_scaled_sqrt_zero; [|exact H0].
    rewrite Forall_forall in Hall. rewrite (Hall (snd d)); [exact Hm|].
    apply in_map, Hd.
Qed.

Lemma no_anomaly_zero_deviation (df : list Reading) (w : nat) (t : Q) :
  (1 <= w)%nat ->
  let data := spike_data df w in
  Forall (fun row => snd row == 0) data ->
  Forall (fun row => deviation row == 0 /\ is_anomaly row = false)
         (map (spike_row t (var (map snd data))) data).
Proof.
  intros Hw data Hzero.
  assert (Hz : Forall (fun x => x == 0) (map snd data)).
  { apply Forall_forall. intros x Hx. apply in_map_iff in Hx.
    destruct Hx as (d & <- & Hd). rewrite Forall_forall in Hzero. auto. }
  pose proof (no_anomaly_without_variance df w t Hw (var_of_zeros _ Hz)) as Hno.
  fold data in Hno.
  rewrite Forall_forall in *. intros row Hin. split; [|auto].
  apply in_map_iff in Hin. destruct Hin as (d & <- & Hd). apply Hzero, Hd.
Qed.

Lemma deviations_zero_window_one (df : list Reading) :
  Forall (fun row => snd row == 0) (spike_data df 1).
Proof.
  apply Forall_forall. intros row Hin.
  destruct (in_spike_data _ _ _ Hin) as (i & Hi & Havg & Hdev).
  rewrite Hdev, Havg. unfold rolling_at.
  rewrite (window_one _ _ (power_kw (fst (fst row)))).
  - rewrite mean_singleton. ring.
  - rewrite nth_error_map, Hi. reflexivity.
Qed.

Lemma deviations_zero_constant (df : list Reading) (w : nat) (c : Q) :
  (1 <= w)%nat ->
  Forall (fun r => power_kw r == c) df ->
  Forall (fun row => snd row == 0) (spike_data df w).
Proof.
  intros Hw Hc. apply Forall_forall. intros row Hin.
  destruct (in_spike_data _ _ _ Hin) as (i & Hi & Havg & Hdev).
  rewrite Forall_forall in Hc.
  assert (Hp : power_kw (fst (fst row)) == c)
    by (apply Hc; eapply nth_error_In; exact Hi).
  rewrite Hdev, Havg. unfold rolling_at. rewrite mean_const with (c := c).
  - lra.
  - apply window_nonempty; [exact Hw|].
    rewrite length_map. apply nth_error_Some. congruence.
  - apply Forall_forall. intros x Hx. apply window_in in Hx.
    apply in_map_iff in Hx. destruct Hx as (r & <- & Hr). apply Hc, Hr.
Qed.

(** The rolling averages of the docstring, window 3, from the third row
    on: 12.33, 15.67, 17.67, 46, 44.67, 43.33, 14. *)
Example rolling_mean_docstring :
  rolling_mean 3 [10; 12; 15; 20; 18; 100; 16; 14; 12]
  = Ok (map (fun i => rolling_at 3 [10; 12; 15; 20; 18; 100; 16; 14; 12] i)
            (seq 0 9)) /\
  map Qred (skipn 2 (map (rolling_at 3 [10; 12; 15; 20; 18; 100; 16; 14; 12])
                         (seq 0 9)))
  = [37 # 3; 47 # 3; 53 # 3; 46; 134 # 3; 130 # 3; 14].
Proof. split; vm_compute; reflexivity. Qed.

(** C6. For every window of at least one row and every threshold,
    [detect_abnormal_spikes] returns one row per reading, and no row is
    flagged when the variance of the deviations is zero (or undefined,
    below two rows); that is the case with a window of one row and on a
    constant power column, where every deviation is 0. *)
Theorem zero_variance_no_anomaly (df : list Reading) (w : Z) (t : Q) :
  (1 <= w)%Z ->
  exists rows,
    detect_abnormal_spikes df w t = Ok rows /\
    length rows = length df /\
    ((var (map deviation rows) = None \/
      exists v, var (map deviation rows) = Some v /\ v == 0) ->
     Forall (fun row => is_anomaly row = false) rows) /\
    (w = 1%Z ->
     Forall (fun row => deviation row == 0 /\ is_anomaly row = false) rows) /\
    ((exists c, Forall (fun r => power_kw r == c) df) ->
     Forall (fun row => deviation row == 0 /\ is_anomaly row = false) rows).
Proof.
  intros Hw. eexists. split; [apply detect_rows, Hw|].
  assert (Hn : (1 <= Z.to_nat w)%nat) by lia.
  split; [|split; [|split]].
  - rewrite length_map. apply spike_data_length.
  - rewrite deviation_spike_rows.
    apply (no_anomaly_without_variance df (Z.to_nat w) t Hn).
  - intros ->. apply (no_anomaly_zero_deviation df 1 t Hn).
    apply deviations_zero_window_one.
  - intros [c Hc]. apply (no_anomaly_zero_deviation df (Z.to_nat w) t Hn).
    apply (deviations_zero_constant df (Z.to_nat w) c Hn Hc).
Qed.

Lemma zero_variance_no_anomaly_witness :
  let df := Samples.table_of_power [10; 11; 12; 11; 10; 50; 11; 10; 9] in
  (1 <= 1)%Z /\
  exists rows,
    detect_abnormal_spikes df 1 2 = Ok rows /\
    Forall (fun row => deviation row == 0 /\ is_anomaly row = false) rows.
Proof.
  cbv zeta. split; [lia|].
  destruct (zero_variance_no_anomaly
              (Samples.table_of_power [10; 11; 12; 11; 10; 50; 11; 10; 9])
              1 2 ltac:(lia))
    as (rows & E & _ & _ & W & _).
  exists rows. split; [exact E | exact (W eq_refl)].
Defined.

(** C5. On the power column [10,11,12,11,10,50,11,10,9], with a window
    of 3 and a threshold of 2.0, the only row flagged is the one that
    holds 50. *)
Theorem spike_scenario (df : list Reading) :
  map power_kw df = [10; 11; 12; 11; 10; 50; 11; 10; 9] ->
  exists rows,
    detect_abnormal_spikes df 3 2 = Ok rows /\
    map is_anomaly rows
    = [false; false; false; false; false; true; false; false; false] /\
    forall i row,
      nth_error rows i = Some row ->
      (is_anomaly row = true <-> power_kw (reading row) = 50).
Proof.
  intros H.
  do 10 (destruct df as [|[? ? ? ?] df]; try discriminate H).
  cbn [map power_kw] in H.
  injection H as -> -> -> -> -> -> -> -> ->.
  eexists. split; [vm_compute; reflexivity|].
  split; [reflexivity|].
  intros i row Hi.
  do 9 (destruct i as [|i];
        [injection Hi as <-; cbn [is_anomaly reading power_kw];
         split; intros E; try reflexivity; discriminate E|]).
  destruct i; discriminate Hi.
Qed.

Lemma spike_scenario_witness :
  let df := Samples.table_of_power [10; 11; 12; 11; 10; 50; 11; 10; 9] in
  map power_kw df = [10; 11; 12; 11; 10; 50; 11; 10; 9] /\
  exists rows,
    detect_abnormal_spikes df 3 2 = Ok rows /\
    map is_anomaly rows
    = [false; false; false; false; false; true; false; false; false].
Proof.
  cbv zeta. split; [reflexivity|].
  destruct (spike_scenario
              (Samples.table_of_power [10; 11; 12; 11; 10; 50; 11; 10; 9])
              eq_refl)
    as (rows & E & F & _).
  exists rows. split; [exact E | exact F].
Defined.

(** C7. On an empty table [identify_peak_periods] raises, whatever the
    percentile, while [calculate_daily_consumption] and, for a window of
    at least one row, [detect_abnormal_spikes] return an empty table. *)
Theorem empty_table_behaviour :
  (forall percentile, raises (identify_peak_periods [] percentile)) /\
  calculate_daily_consumption [] = Ok [] /\
  (forall w t, (1 <= w)%Z -> detect_abnormal_spikes [] w t = Ok []).
Proof.
  split; [|split].
  - intros p. unfold identify_peak_periods, quantile.
    destruct (Qle_bool 0 (p / 100) && Qle_bool (p / 100) 1);
      cbn [map bind length filter int_truediv]; eexists; reflexivity.
  - reflexivity.
  - intros w t Hw. rewrite (detect_rows [] w t Hw). reflexivity.
Qed.

Lemma empty_table_behaviour_witness :
  (1 <= 5)%Z /\
  raises (identify_peak_periods [] 75) /\
  calculate_daily_consumption [] = Ok [] /\
  detect_abnormal_spikes [] 5 2 = Ok [].
Proof.
  split; [lia|].
  destruct empty_table_behaviour as (P & D & S).
  split; [apply P | split; [exact D | apply S; lia]].
Defined.

End AnalysisFacts.

Module ForecastFacts.
Import Series SeriesFacts Forecast ForecastViews Samples.
Local Open Scope Q_scope.

(** The calendar: 1970-01-01 was a Thursday, 2024 had a 29th of
    February, and the feature vector of the docstring of [train],
    [14, 2, 15, 3, 0, 1], is that of a Wednesday 15 March at 2 pm. *)
Example calendar_checks :
  Calendar.weekday 0 = 3%Z /\
  Calendar.civil_from_days 0 = (1970, 1, 1)%Z /\
  Calendar.civil_from_days (Calendar.days_from_civil 2024 2 29) = (2024, 2, 29)%Z /\
  Calendar.civil_from_days (Calendar.days_from_civil 2024 2 29 + 1) = (2024, 3, 1)%Z /\
  Calendar.civil_from_days (-1) = (1969, 12, 31)%Z /\
  to_list (extract_time_features (Calendar.datetime 2023 3 15 14 0 0))
  = [14; 2; 15; 3; 0; 1]%Z.
Proof. repeat split; vm_compute; reflexivity. Qed.

(** ** Rounding and clamping *)


Lemma rint_nonneg (y : Q) : 0 <= y -> (0 <= Text.rint y)%Z.
Proof.
  intros H. unfold Text.rint.
  assert (Hf : (0 <= Qfloor y)%Z)
    by (change 0%Z with (Qfloor 0); apply Qfloor_resp_le, H).
  destruct (y - inject_Z (Qfloor y) ?= 1 # 2); [destruct (Z.even _)| |]; lia.
Qed.


(** ** Rounding to a double *)

Lemma two_pow_pos (k : Z) : 0 < 2 ^ k.
Proof. apply Qpower_0_lt. reflexivity. Qed.

Lemma two_pow_plus (a b : Z) : 2 ^ (a + b) == 2 ^ a * 2 ^ b.
Proof. apply Qpower_plus. discriminate. Qed.

Lemma two_pow_Z (k : Z) : (0 <= k)%Z -> inject_Z (2 ^ k) == 2 ^ k.
Proof. intros H. rewrite Zpower_Qpower by exact H. reflexivity. Qed.


Lemma ilog2_lt (a : Q) : 0 < a -> a < 2 ^ (Binary64.ilog2 a + 1).
Proof.
  intros Ha. unfold Binary64.ilog2.
  set (n := Qnum a). set (d := Zpos (Qden a)).
  destruct (Qle_bool (2 ^ (Z.log2 n - Z.log2 d)) a) eqn:E.
  - assert (Hn : (0 < n)%Z)
      by (destruct a as [an ad]; unfold Qlt in Ha; cbn in *; lia).
    assert (Hd : (0 < d)%Z) by (unfold d; lia).
    destruct (Z.log2_spec n Hn) as [_ Un].
    destruct (Z.log2_spec d Hd) as [Ld _].
    pose proof (Z.log2_nonneg n) as N0. pose proof (Z.log2_nonneg d) as D0.
    replace (Z.log2 n - Z.log2 d + 1)%Z
      with (Z.succ (Z.log2 n) + - Z.log2 d)%Z by lia.
    rewrite two_pow_plus, Qpower_opp.
    rewrite <- (two_pow_Z (Z.succ (Z.log2 n))) by lia.
    rewrite <- (two_pow_Z (Z.log2 d)) by lia.
    assert (P : 0 < inject_Z (2 ^ Z.log2 d)).
    { rewrite <- (Zlt_Qlt 0). apply Z.pow_pos_nonneg; lia. }
    apply Qlt_shift_div_l; [exact P|].
    assert (A : a == inject_Z n / inject_Z d).
    { destruct a as [an ad]. unfold n, d. cbn [Qnum Qden].
      rewrite (Qmake_Qdiv an ad). reflexivity. }
    rewrite A.
    assert (Pd : 0 < inject_Z d) by (rewrite <- (Zlt_Qlt 0); exact Hd).
    assert (X : inject_Z n / inject_Z d * inject_Z (2 ^ Z.log2 d)
                == inject_Z n * (inject_Z (2 ^ Z.log2 d) / inject_Z d))
      by (field; lra).
    rewrite X.
    assert (One : inject_Z (2 ^ Z.log2 d) / inject_Z d <= 1).
    { apply Qle_shift_div_r; [exact Pd|]. rewrite Qmult_1_l.
      rewrite <- Zle_Qle. exact Ld. }
    assert (Q0 : 0 < inject_Z (2 ^ Z.log2 d) / inject_Z d)
      by (apply Qlt_shift_div_l; lra).
    assert (Nn : inject_Z n < inject_Z (2 ^ Z.succ (Z.log2 n)))
      by (rewrite <- Zlt_Qlt; exact Un).
    assert (N1 : 0 < inject_Z n) by (rewrite <- (Zlt_Qlt 0); exact Hn).
    nra.
  - replace (Z.log2 n - Z.log2 d - 1 + 1)%Z with (Z.log2 n - Z.log2 d)%Z by lia.
    apply Qnot_le_lt. intros C. apply Qle_bool_iff in C. congruence.
Qed.

Lemma fl_nonneg (x : Q) : 0 <= x -> 0 <= Binary64.fl x.
Proof.
  intros H. unfold Binary64.fl. cbv zeta.
  pose proof (two_pow_pos (Binary64.last_place x)) as P.
  assert (Hr : (0 <= Text.rint (x / 2 ^ Binary64.last_place x))%Z).
  { apply rint_nonneg. apply Qle_shift_div_l; [exact P | lra]. }
  rewrite Zle_Qle in Hr. change (inject_Z 0) with 0 in Hr.
  apply Qmult_le_0_compat; lra.
Qed.





(** [fl] on the products and quotients that the primitive floats
    compute, and [round] where an exact rounding of the decimal would
    differ: the double 2.675 is rounded to 2.68, as NumPy does, and
    0.125 to 0.12. *)
#[warnings="-inexact-float"]
Example fl_follows_binary64 :
  (option_map Qred (Binary64.value (0.1 * 0.385)%float),
   option_map Qred (Binary64.value (19.383 * 100)%float),
   option_map Qred (Binary64.value (1938 / 100)%float),
   option_map Qred (Binary64.value (0x1p-1074 * 0.385)%float),
   option_map Qred (Binary64.value 2.68%float),
   option_map Qred (Binary64.value 0.12%float))
  = (option_map (fun x => Qred (Binary64.fl (x * Binary64.fl (385 # 1000))))
                (option_map Binary64.fl (Some (1 # 10))),
     option_map (fun x => Qred (Binary64.fl (x * 100)))
                (Binary64.value 19.383%float),
     Some (Qred (Binary64.fl (1938 # 100))),
     option_map (fun x => Qred (Binary64.fl (x * Binary64.fl (385 # 1000))))
                (Binary64.value 0x1p-1074%float),
     option_map (fun x => Qred (round x 2)) (Binary64.value 2.675%float),
     option_map (fun x => Qred (round x 2)) (Binary64.value 0.125%float)).
Proof. vm_compute. reflexivity. Qed.

Lemma round2_nonneg (x : Q) : 0 <= x -> 0 <= round x 2.
Proof.
  intros H. unfold round. cbv zeta. change (Text.pow10 2) with 100%Z.
  change (inject_Z 100) with 100.
  apply fl_nonneg.
  assert (Hr : (0 <= Text.rint (Binary64.fl (x * 100)))%Z).
  { apply rint_nonneg, fl_nonneg. lra. }
  rewrite Zle_Qle in Hr. change (inject_Z 0) with 0 in Hr.
  apply Qle_shift_div_l; lra.
Qed.


Lemma py_max_nonneg (p : Q) : 0 <= py_max 0 p.
Proof.
  unfold py_max. destruct (Qltb 0 p) eqn:E; [apply Qltb_lt in E|]; lra.
Qed.

Lemma np_maximum_nonneg (p : Q) : 0 <= np_maximum p 0.
Proof.
  unfold np_maximum. destruct (Qle_bool 0 p) eqn:E;
    [apply Qle_bool_iff in E|]; lra.
Qed.


(** ** The calls on a trained predictor *)


Lemma predict_fitted (self : EnergyConsumptionPredictor)
    (lm : LinearRegression) (t : Z) :
  is_trained self = true -> model self = Some lm ->
  predict self t
  = Ok {| timestamp := t;
          predicted_energy_kwh := round (py_max 0 (raw lm t)) 2;
          features := extract_time_features t;
          confidence := "Model trained and ready for predictions" |}.
Proof.
  intros Ht Hm. unfold predict. rewrite Ht, Hm. reflexivity.
Qed.

Lemma combine_map_self {A B : Type} (f : A -> B) (l : list A) :
  combine l (map f l) = map (fun x => (x, f x)) l.
Proof.
  induction l as [|x l IH]; cbn [map combine]; [reflexivity | now rewrite IH].
Qed.

Lemma predict_range_fitted (self : EnergyConsumptionPredictor)
    (lm : LinearRegression) (s e : Z) (freq : frequency) (ts : list Z) :
  is_trained self = true -> model self = Some lm ->
  date_range s e freq = Ok ts -> ts <> [] ->
  predict_range self s e freq
  = Ok (map (fun t => (t, np_maximum (raw lm t) 0)) ts).
Proof.
  intros Ht Hm Hd Hne. unfold predict_range. rewrite Ht, Hd, Hm.
  cbn [negb bind model_predict].
  destruct (map extract_time_features ts) eqn:E.
  - destruct ts; [congruence | discriminate E].
  - rewrite <- E. cbn [bind]. rewrite !map_map. f_equal.
    exact (combine_map_self (fun t => np_maximum (raw lm t) 0) ts).
Qed.

Lemma predict_range_empty (self : EnergyConsumptionPredictor)
    (s e : Z) (freq : frequency) :
  is_trained self = true -> date_range s e freq = Ok [] ->
  raises (predict_range self s e freq).
Proof.
  intros Ht Hd. unfold predict_range. rewrite Ht, Hd.
  cbn [negb bind map model_predict].
  destruct (model self); eexists; reflexivity.
Qed.

(** ** The timestamps of a range *)


Lemma date_range_steps (s e : Z) (freq : frequency) :
  stride freq <> 0%Z ->
  date_range s e freq
  = Ok (map (fun i => (s + Z.of_nat i * stride freq)%Z)
            (seq 0 (Z.to_nat (steps s e (stride freq))))).
Proof.
  intros H. unfold date_range.
  destruct (stride freq =? 0)%Z eqn:E; [apply Z.eqb_eq in E; congruence|].
  reflexivity.
Qed.

Lemma steps_forward (s e stride : Z) :
  (0 < stride)%Z -> (s <= e)%Z -> (1 <= steps s e stride)%Z.
Proof.
  intros Hs Hse. unfold steps.
  assert (0 <= (e - s) / stride)%Z by (apply Z.div_pos; lia). lia.
Qed.

Lemma steps_backward (s e stride : Z) :
  (stride < 0)%Z -> (e <= s)%Z -> (1 <= steps s e stride)%Z.
Proof.
  intros Hs Hse. unfold steps.
  rewrite <- (Z.div_opp_opp (e - s) stride) by lia.
  assert (0 <= - (e - s) / - stride)%Z by (apply Z.div_pos; lia). lia.
Qed.

Lemma steps_none_forward (s e stride : Z) :
  (0 < stride)%Z -> (e < s)%Z -> (steps s e stride <= 0)%Z.
Proof.
  intros Hs Hse. unfold steps.
  assert ((e - s) / stride < 0)%Z by (apply Z.div_lt_upper_bound; lia). lia.
Qed.

Lemma steps_none_backward (s e stride : Z) :
  (stride < 0)%Z -> (s < e)%Z -> (steps s e stride <= 0)%Z.
Proof.
  intros Hs Hse. unfold steps.
  rewrite <- (Z.div_opp_opp (e - s) stride) by lia.
  assert (- (e - s) / - stride < 0)%Z by (apply Z.div_lt_upper_bound; lia). lia.
Qed.

Lemma date_range_nonempty (s e : Z) (freq : frequency) :
  stride freq <> 0%Z -> (1 <= steps s e (stride freq))%Z ->
  exists ts, date_range s e freq = Ok (s :: ts).
Proof.
  intros H0 Hk. rewrite date_range_steps by exact H0.
  destruct (Z.to_nat (steps s e (stride freq))) as [|n] eqn:E; [lia|].
  cbn [seq map]. change (Z.of_nat 0) with 0%Z.
  rewrite Z.mul_0_l, Z.add_0_r. eexists. reflexivity.
Qed.

Lemma date_range_empty (s e : Z) (freq : frequency) :
  stride freq <> 0%Z -> (steps s e (stride freq) <= 0)%Z ->
  date_range s e freq = Ok [].
Proof.
  intros H0 Hk. rewrite date_range_steps by exact H0.
  replace (Z.to_nat (steps s e (stride freq))) with 0%nat by lia. reflexivity.
Qed.



(** ** Untrained predictor (C2) *)

(** C2, as the code has it.  On a predictor that is not trained,
    [predict] and [predict_range] raise the "must be trained" runtime
    error, and [explain_model] returns the text "Model not trained yet.
    Call train() first." as its normal result. *)
Theorem untrained_calls (self : EnergyConsumptionPredictor) :
  is_trained self = false ->
  (forall t,
     predict self t
     = Raise (RuntimeError
         "Model must be trained before making predictions. Call train() with historical data first.")) /\
  (forall s e freq,
     predict_range self s e freq
     = Raise (RuntimeError "Model must be trained before making predictions.")) /\
  (forall now,
     explain_model self now = Ok "Model not trained yet. Call train() first."%string).
Proof.
  intros H. unfold predict, predict_range, explain_model. rewrite H.
  repeat split; reflexivity.
Qed.

Lemma untrained_calls_witness :
  is_trained init = false /\
  predict init 0
  = Raise (RuntimeError
      "Model must be trained before making predictions. Call train() with historical data first.") /\
  predict_range init 0 86400 hourly
  = Raise (RuntimeError "Model must be trained before making predictions.") /\
  explain_model init 0 = Ok "Model not trained yet. Call train() first."%string.
Proof.
  split; [reflexivity|].
  destruct (untrained_calls init eq_refl) as (P & R & E).
  split; [apply P | split; [apply R | apply E]].
Defined.

(** C2, as the specification has it, fails: [explain_model] on a new,
    untrained predictor does not raise. *)
Lemma explain_model_untrained_does_not_raise :
  is_trained init = false /\ ~ raises (explain_model init 0).
Proof.
  split; [reflexivity|]. intros [e H]. discriminate H.
Qed.

(** ** Trained predictor (C3, C8, C10) *)

Lemma train_fits (fit : list (Features Z) -> list Q -> LinearRegression)
    (self : EnergyConsumptionPredictor) (data_df : list (Z * Q)) :
  data_df <> [] ->
  train fit self data_df
  = Ok {| model := Some (fit (fst (prepare_data data_df))
                             (snd (prepare_data data_df)));
          is_trained := true |}.
Proof.
  intros H. destruct data_df as [|row rest]; [congruence | reflexivity].
Qed.

Lemma predict_range_nonneg (self : EnergyConsumptionPredictor)
    (s e : Z) (freq : frequency) (rows : list (Z * Q)) :
  predict_range self s e freq = Ok rows ->
  Forall (fun row => 0 <= snd row) rows.
Proof.
  unfold predict_range.
  destruct (negb (is_trained self)); [discriminate|].
  destruct (date_range s e freq) as [ts|]; [|discriminate]. cbn [bind].
  destruct (model_predict (model self) (map extract_time_features ts))
    as [ps|]; [|discriminate].
  cbn [bind]. intros [= <-]. apply Forall_forall. intros [t v] Hin.
  apply in_combine_r in Hin. apply in_map_iff in Hin.
  destruct Hin as (p & <- & _). apply np_maximum_nonneg.
Qed.

(** C3. Training on a non-empty history succeeds and leaves a trained
    predictor; on it [predict] returns, for every timestamp, a value
    that is not negative, every value that [predict_range] returns is
    not negative, and [predict_range] does return at least one row
    whenever the step is positive and the end is not before the start. *)
Theorem trained_predictions_not_negative
    (fit : list (Features Z) -> list Q -> LinearRegression)
    (self : EnergyConsumptionPredictor) (data_df : list (Z * Q)) :
  data_df <> [] ->
  exists trained,
    train fit self data_df = Ok trained /\
    is_trained trained = true /\
    (forall t, exists p,
       predict trained t = Ok p /\ 0 <= predicted_energy_kwh p) /\
    (forall s e freq rows,
       predict_range trained s e freq = Ok rows ->
       Forall (fun row => 0 <= snd row) rows) /\
    (forall s e freq,
       (0 < stride freq)%Z -> (s <= e)%Z ->
       exists rows,
         predict_range trained s e freq = Ok rows /\ rows <> [] /\
         Forall (fun row => 0 <= snd row) rows).
Proof.
  intros Hdata. eexists. split; [apply train_fits, Hdata|].
  set (lm := fit _ _).
  set (trained := {| model := Some lm; is_trained := true |}).
  split; [reflexivity|]. split; [|split].
  - intros t. eexists. split; [apply (predict_fitted trained lm t); reflexivity|].
    cbn [predicted_energy_kwh]. apply round2_nonneg, py_max_nonneg.
  - intros s e freq rows. apply predict_range_nonneg.
  - intros s e freq Hs Hse.
    destruct (date_range_nonempty s e freq) as [ts Hts];
      [lia | apply steps_forward; assumption |].
    eexists. split; [|split].
    + apply (predict_range_fitted trained lm s e freq (s :: ts));
        [reflexivity | reflexivity | exact Hts | discriminate].
    + discriminate.
    + apply Forall_forall. intros row Hin. apply in_map_iff in Hin.
      destruct Hin as (t & <- & _). apply np_maximum_nonneg.
Qed.

Lemma trained_predictions_not_negative_witness :
  let history := [(Calendar.datetime 2026 1 1 8 0 0, 100)] in
  history <> [] /\
  exists trained,
    train flat_fit init history = Ok trained /\
    is_trained trained = true /\
    (forall t, exists p,
       predict trained t = Ok p /\ 0 <= predicted_energy_kwh p) /\
    (forall s e freq rows,
       predict_range trained s e freq = Ok rows ->
       Forall (fun row => 0 <= snd row) rows) /\
    (forall s e freq,
       (0 < stride freq)%Z -> (s <= e)%Z ->
       exists rows,
         predict_range trained s e freq = Ok rows /\ rows <> [] /\
         Forall (fun row => 0 <= snd row) rows).
Proof.
  cbv zeta. split; [discriminate|].
  apply (trained_predictions_not_negative flat_fit init). discriminate.
Defined.

(** On any object whose flag says trained, what [predict] returns is
    not negative. *)
Lemma predict_nonneg (self : EnergyConsumptionPredictor) (t : Z)
    (p : Prediction) :
  predict self t = Ok p -> 0 <= predicted_energy_kwh p.
Proof.
  unfold predict. destruct (negb (is_trained self)); [discriminate|].
  destruct (model self) as [lm|]; [|discriminate].
  cbn [model_predict map bind]. intros [= <-].
  cbn [predicted_energy_kwh]. apply round2_nonneg, py_max_nonneg.
Qed.

(** C8, as the specification has it, fails: with a step of minus one
    hour the range from 1970-01-02 back to 1970-01-01 is forecast. *)
Lemma predict_range_backwards_returns :
  is_trained sample_predictor = true /\
  (0 < 86400)%Z /\
  (stride {| multiple := -1; unit := Hour |} <= 0)%Z /\
  ~ raises (predict_range sample_predictor 86400 0
                          {| multiple := -1; unit := Hour |}).
Proof.
  split; [reflexivity|]. split; [lia|]. split; [vm_compute; discriminate|].
  intros [e H]. vm_compute in H. discriminate H.
Qed.

(** C8, as the code has it.  On a trained predictor [predict_range]
    raises whenever the range holds no timestamp, which is when the
    end is before the start and the step is positive, or the end is
    after the start and the step is negative, and whenever the step is
    zero; with a negative step and an end that is not after the start it
    returns the forecast of the descending range, on a fitted model. *)
Theorem predict_range_failures (self : EnergyConsumptionPredictor)
    (s e : Z) (freq : frequency) :
  is_trained self = true ->
  (((0 < stride freq)%Z /\ (e < s)%Z) \/
   ((stride freq < 0)%Z /\ (s < e)%Z) \/
   stride freq = 0%Z ->
   raises (predict_range self s e freq)) /\
  (forall lm,
     model self = Some lm -> (stride freq < 0)%Z -> (e <= s)%Z ->
     exists rows, predict_range self s e freq = Ok rows /\ rows <> []).
Proof.
  intros Ht. split.
  - intros [[Hs Hes] | [[Hs Hse] | H0]].
    + apply predict_range_empty; [exact Ht|].
      apply date_range_empty; [lia | apply steps_none_forward; assumption].
    + apply predict_range_empty; [exact Ht|].
      apply date_range_empty; [lia | apply steps_none_backward; assumption].
    + unfold predict_range, date_range. rewrite Ht, H0.
      eexists. reflexivity.
  - intros lm Hm Hs Hes.
    destruct (date_range_nonempty s e freq) as [ts Hts];
      [lia | apply steps_backward; assumption |].
    eexists. split.
    + apply (predict_range_fitted self lm s e freq (s :: ts));
        [exact Ht | exact Hm | exact Hts | discriminate].
    + discriminate.
Qed.

Lemma predict_range_failures_witness :
  is_trained sample_predictor = true /\
  ((0 < stride hourly)%Z /\ (0 < 86400)%Z) /\
  raises (predict_range sample_predictor 86400 0 hourly) /\
  model sample_predictor = Some sample_model /\
  (stride {| multiple := -1; unit := Hour |} < 0)%Z /\ (0 <= 86400)%Z /\
  exists rows,
    predict_range sample_predictor 86400 0 {| multiple := -1; unit := Hour |}
    = Ok rows /\ rows <> [].
Proof.
  split; [reflexivity|]. split; [split; vm_compute; reflexivity|].
  split.
  - apply (proj1 (predict_range_failures sample_predictor 86400 0 hourly eq_refl)).
    left. split; vm_compute; reflexivity.
  - split; [reflexivity|]. split; [vm_compute; reflexivity|]. split; [lia|].
    apply (proj2 (predict_range_failures sample_predictor 86400 0
                    {| multiple := -1; unit := Hour |} eq_refl) sample_model);
      [reflexivity | vm_compute; reflexivity | lia].
Defined.



End ForecastFacts.

Module CarbonFacts.
Import Series SeriesFacts Carbon.
Local Open Scope Q_scope.

Lemma daily_rows_co2 (gs : list Analysis.DailyAggregate) (f : Q) :
  Forall (fun row => co2_kg row
                     = calculate_daily_co2_emissions (total_energy_kwh row) f)
         (map (fun g => {| date := Analysis.date g;
                           total_energy_kwh := Analysis.total_energy_kwh g;
                           co2_kg := Analysis.total_energy_kwh g * f |}) gs).
Proof.
  apply Forall_forall. intros row Hin. apply in_map_iff in Hin.
  destruct Hin as (g & <- & _). reflexivity.
Qed.

(** ** Doubling in binary64 *)

Local Open Scope Z_scope.

Lemma Zdigits2_nonneg (z : Z) : 0 <= Zdigits2 z.
Proof. destruct z; cbn; lia. Qed.

Lemma shr_exponent (mrs : shr_record) (e n : Z) :
  shr mrs (e + 1) n = (fst (shr mrs e n), snd (shr mrs e n) + 1).
Proof. unfold shr. destruct n; cbn [fst snd]; f_equal; lia. Qed.

Lemma shr_exponent_le (mrs : shr_record) (e n : Z) : e <= snd (shr mrs e n).
Proof. unfold shr. destruct n; cbn [snd]; lia. Qed.

Lemma shr_fexp_normal (m e : Z) (l : location) :
  - 1021 <= e -> 0 <= m ->
  shr_fexp prec emax m (e + 1) l
  = (fst (shr_fexp prec emax m e l), snd (shr_fexp prec emax m e l) + 1).
Proof.
  intros He Hm. unfold shr_fexp.
  pose proof (Zdigits2_nonneg m) as Hd.
  replace (fexp prec emax (Zdigits2 m + (e + 1)) - (e + 1))
    with (fexp prec emax (Zdigits2 m + e) - e).
  - apply shr_exponent.
  - unfold fexp, emin, prec, emax. lia.
Qed.

Lemma shr_fexp_exponent_le (m e : Z) (l : location) :
  e <= snd (shr_fexp prec emax m e l).
Proof. unfold shr_fexp. apply shr_exponent_le. Qed.

Lemma round_aux_exponent (s : bool) (m : Z) (e : Z) (l : location)
    (s' : bool) (m' : positive) (e' : Z) :
  binary_round_aux prec emax s m e l = S754_finite s' m' e' -> e <= e'.
Proof.
  unfold binary_round_aux.
  pose proof (shr_fexp_exponent_le m e l) as H1.
  destruct (shr_fexp prec emax m e l) as [mrs1 e1]. cbn [snd] in H1.
  pose proof (shr_fexp_exponent_le
                (round_nearest_even (shr_m mrs1) (loc_of_shr_record mrs1))
                e1 loc_Exact) as H2.
  destruct (shr_fexp prec emax _ e1 loc_Exact) as [mrs2 e2]. cbn [snd] in H2.
  destruct (shr_m mrs2); try discriminate.
  destruct (e2 <=? emax - prec); [|discriminate].
  intros H. injection H as _ _ <-. lia.
Qed.

Lemma shr_1_nonneg (mrs : shr_record) :
  0 <= shr_m mrs -> 0 <= shr_m (shr_1 mrs).
Proof.
  destruct mrs as [m r s]. cbn [shr_m]. intros H.
  destruct m as [|p|p]; [cbn; lia | | lia].
  destruct p; cbn; lia.
Qed.

Lemma iter_pos_nonneg (p : positive) (mrs : shr_record) :
  0 <= shr_m mrs -> 0 <= shr_m (iter_pos shr_1 p mrs).
Proof.
  revert mrs. induction p as [p IH | p IH |]; intros mrs H; cbn [iter_pos].
  - apply IH, IH, shr_1_nonneg, H.
  - apply IH, IH, H.
  - apply shr_1_nonneg, H.
Qed.

Lemma shr_fexp_nonneg (m e : Z) :
  0 <= m -> 0 <= shr_m (fst (shr_fexp prec emax m e loc_Exact)).
Proof.
  intros H. unfold shr_fexp, shr.
  destruct (fexp prec emax (Zdigits2 m + e) - e);
    cbn [fst shr_record_of_loc shr_m]; try exact H.
  apply iter_pos_nonneg. exact H.
Qed.

Lemma round_nearest_even_nonneg (m : Z) (l : location) :
  0 <= m -> 0 <= round_nearest_even m l.
Proof.
  intros H. destruct l as [|[]]; cbn [round_nearest_even]; try lia.
  destruct (Z.even m); lia.
Qed.

(** Rounding the same integer one binade up gives the same digits. *)
Lemma round_aux_double (s : bool) (m : positive) (e : Z) :
  - 1021 <= e ->
  binary_round_aux prec emax s (Zpos m) (e + 1) loc_Exact
  = Binary64.double (binary_round_aux prec emax s (Zpos m) e loc_Exact).
Proof.
  intros He. unfold binary_round_aux.
  rewrite (shr_fexp_normal (Zpos m) e loc_Exact He) by lia.
  pose proof (shr_fexp_exponent_le (Zpos m) e loc_Exact) as H1.
  pose proof (shr_fexp_nonneg (Zpos m) e ltac:(lia)) as N1.
  destruct (shr_fexp prec emax (Zpos m) e loc_Exact) as [mrs1 e1].
  cbn [fst snd] in *.
  set (m1 := round_nearest_even (shr_m mrs1) (loc_of_shr_record mrs1)).
  assert (Hm1 : 0 <= m1) by (apply round_nearest_even_nonneg, N1).
  rewrite (shr_fexp_normal m1 e1 loc_Exact) by lia.
  destruct (shr_fexp prec emax m1 e1 loc_Exact) as [mrs2 e2].
  cbn [fst snd].
  destruct (shr_m mrs2) as [|p|p]; cbn [Binary64.double]; try reflexivity.
  destruct (Z.leb_spec e2 (emax - prec)) as [H2 | H2].
  - cbn [Binary64.double]. reflexivity.
  - cbn [Binary64.double].
    destruct (Z.leb_spec (e2 + 1) (emax - prec)); [lia | reflexivity].
Qed.

Lemma Prim2SF_two : Prim2SF 2 = Binary64.two.
Proof. vm_compute. reflexivity. Qed.

Lemma normal_digits (m : positive) (e : Z) :
  bounded prec emax m e = true -> - 1074 < e ->
  Zpos (digits2_pos m) = 53 /\ e <= 971.
Proof.
  unfold bounded, canonical_mantissa, fexp, emin, prec, emax. intros H He.
  apply andb_true_iff in H. destruct H as [H1 H2].
  apply Z.eqb_eq in H1. apply Z.leb_le in H2. lia.
Qed.

(** Twice a normal number: the same digits, one binade up. *)
Lemma mul_two_normal (s : bool) (m : positive) (e : Z) :
  bounded prec emax m e = true -> - 1074 < e ->
  SF64mul Binary64.two (S754_finite s m e)
  = Binary64.double (S754_finite s m e).
Proof.
  intros Hv He. destruct (normal_digits m e Hv He) as [Hd Hle].
  unfold SF64mul, SFmul, Binary64.two. cbn [xorb].
  unfold binary_round_aux, shr_fexp.
  cbn [Pos.mul Zdigits2 digits2_pos shr_record_of_loc].
  match goal with
  | |- context [shr ?r ?x ?n] =>
      replace n with 52 by (unfold fexp, emin, prec, emax; lia)
  end.
  cbn [shr iter_pos shr_1 orb shr_m loc_of_shr_record round_nearest_even
       Zdigits2].
  match goal with
  | |- context [shr ?r ?x ?n] =>
      replace n with 0 by (unfold fexp, emin, prec, emax; lia)
  end.
  cbn [shr shr_m Binary64.double].
  replace (- 51 + e + 52) with (e + 1) by lia. reflexivity.
Qed.

Lemma Prim2SF_zero : Prim2SF 0 = S754_zero false.
Proof. vm_compute. reflexivity. Qed.

Lemma Prim2SF_lowest :
  Prim2SF Binary64.lowest = S754_finite false 4503599627370496 (- 452).
Proof. vm_compute. reflexivity. Qed.

Lemma Prim2SF_highest :
  Prim2SF Binary64.highest = S754_finite false 4503599627370496 948.
Proof. vm_compute. reflexivity. Qed.

(** A double in range is a zero, or a normal number whose exponent
    leaves room on both sides. *)
Lemma in_range_cases (x : float) :
  Binary64.in_range x = true ->
  (exists s, Prim2SF x = S754_zero s) \/
  (exists s m e, Prim2SF x = S754_finite s m e /\ - 452 <= e <= 948).
Proof.
  unfold Binary64.in_range.
  rewrite FloatAxioms.eqb_spec, !leb_spec, abs_spec.
  rewrite Prim2SF_zero, Prim2SF_lowest, Prim2SF_highest.
  destruct (Prim2SF x) as [s | s | | s m e].
  - intros _. left. exists s. reflexivity.
  - cbn [SFabs SFleb SFeqb SFcompare orb andb]. destruct s; discriminate.
  - cbn [SFabs SFleb SFeqb SFcompare orb andb]. discriminate.
  - cbn [SFabs SFleb SFeqb SFcompare orb andb].
    intros H. right. exists s, m, e. split; [reflexivity|].
    assert (H' : (match (if s then Lt else Gt) with Eq => true | _ => false end)
                 = false) by (destruct s; reflexivity).
    rewrite H' in H. cbn [orb] in H.
    apply andb_true_iff in H. destruct H as [A B].
    destruct (Z.compare_spec (- 452) e), (Z.compare_spec e 948);
      try discriminate; lia.
Qed.

Lemma mul_two_rounded (s : bool) (m : positive) (e : Z) :
  - 1021 <= e ->
  valid_binary (binary_round_aux prec emax s (Zpos m) e loc_Exact) = true ->
  SF64mul Binary64.two (binary_round_aux prec emax s (Zpos m) e loc_Exact)
  = Binary64.double (binary_round_aux prec emax s (Zpos m) e loc_Exact).
Proof.
  intros He Hv.
  destruct (binary_round_aux prec emax s (Zpos m) e loc_Exact)
    as [s' | s' | | s' m' e'] eqn:E; try reflexivity.
  pose proof (round_aux_exponent _ _ _ _ _ _ _ E).
  apply mul_two_normal; [exact Hv | lia].
Qed.

(** Doubling commutes with a product of doubles in range. *)
Lemma doubling (e f : float) :
  Binary64.in_range e = true -> Binary64.in_range f = true ->
  ((2 * e) * f = 2 * (e * f))%float.
Proof.
  intros He Hf. apply Prim2SF_inj.
  pose proof (Prim2SF_valid e) as Ve.
  pose proof (Prim2SF_valid (e * f)) as Vef.
  rewrite !mul_spec in *. rewrite Prim2SF_two.
  destruct (in_range_cases e He) as [[se Ee] | (se & me & ee & Ee & Be)];
    destruct (in_range_cases f Hf) as [[sf Ef] | (sf & mf & ef & Ef & Bf)];
    rewrite Ee, Ef in *.
  - reflexivity.
  - reflexivity.
  - rewrite mul_two_normal by (exact Ve || lia).
    cbn [Binary64.double].
    destruct (Z.leb_spec (ee + 1) (emax - prec)) as [_ | H];
      [reflexivity | unfold emax, prec in H; lia].
  - rewrite mul_two_normal by (exact Ve || lia).
    cbn [Binary64.double].
    destruct (Z.leb_spec (ee + 1) (emax - prec)) as [_ | H];
      [| unfold emax, prec in H; lia].
    change (SF64mul (S754_finite se me (ee + 1)) (S754_finite sf mf ef))
      with (binary_round_aux prec emax (xorb se sf) (Zpos (me * mf))
              (ee + 1 + ef) loc_Exact).
    change (SF64mul (S754_finite se me ee) (S754_finite sf mf ef))
      with (binary_round_aux prec emax (xorb se sf) (Zpos (me * mf))
              (ee + ef) loc_Exact) in *.
    replace (ee + 1 + ef) with (ee + ef + 1) by lia.
    rewrite round_aux_double by lia.
    symmetry. apply mul_two_rounded; [lia | exact Vef].
Qed.

Local Close Scope Z_scope.

(** ** The daily rows of a table *)

Lemma dataframe_rows (df : list Analysis.Reading) (factor : Q) :
  exists daily,
    Analysis.calculate_daily_consumption df = Ok daily /\
    let rows := fst (calculate_monthly_co2_from_dataframe df factor) in
    map date rows = map Analysis.date daily /\
    map total_energy_kwh rows = map Analysis.total_energy_kwh daily /\
    map co2_kg rows
    = map (fun g => calculate_daily_co2_emissions
                      (Analysis.total_energy_kwh g) factor) daily.
Proof.
  eexists. split; [reflexivity|]. cbv zeta.
  unfold calculate_monthly_co2_from_dataframe. cbn [fst].
  rewrite !map_map. cbn [date total_energy_kwh co2_kg].
  repeat split.
Qed.

(** C9, as the specification has it, fails in the arithmetic of the
    program: twice [2^1023] kWh is the infinity, and so is its CO2,
    while twice the CO2 of [2^1023] kWh is a finite number. *)
Lemma co2_doubling_overflows :
  let energy := 0x1p1023%float in
  calculate_daily_co2_emissions_f64 (2 * energy) DEFAULT_EMISSION_FACTOR_f64
  = infinity /\
  PrimFloat.is_infinity
    (2 * calculate_daily_co2_emissions_f64 energy DEFAULT_EMISSION_FACTOR_f64)
  = false /\
  calculate_daily_co2_emissions_f64 (2 * energy) DEFAULT_EMISSION_FACTOR_f64
  <> (2 * calculate_daily_co2_emissions_f64 energy
            DEFAULT_EMISSION_FACTOR_f64)%float.
Proof.
  cbv zeta. split; [vm_compute; reflexivity|]. split; [vm_compute; reflexivity|].
  intros H. apply (f_equal PrimFloat.is_infinity) in H.
  vm_compute in H. discriminate H.
Qed.

(** C9. The conversion is the product of the energy and the emission
    factor as binary64 computes it.  It doubles when the energy doubles
    as long as energy and factor are zero or of a magnitude from
    [2^-400] to [2^1000]; 500 kWh at 0.385 give 192.5 kg, exactly.  The
    daily breakdown of a table has the dates and the energies of the
    daily consumption, each row with the conversion of its energy, and
    at least one row when the table is not empty. *)
Theorem co2_conversion_linear :
  (forall energy factor,
     calculate_daily_co2_emissions_f64 energy factor
     = (energy * factor)%float) /\
  (forall energy factor,
     Binary64.in_range energy = true -> Binary64.in_range factor = true ->
     calculate_daily_co2_emissions_f64 (2 * energy) factor
     = (2 * calculate_daily_co2_emissions_f64 energy factor)%float) /\
  calculate_daily_co2_emissions_f64 500 DEFAULT_EMISSION_FACTOR_f64
  = 192.5%float /\
  (forall df factor,
     exists daily,
       Analysis.calculate_daily_consumption df = Ok daily /\
       let rows := fst (calculate_monthly_co2_from_dataframe df factor) in
       map date rows = map Analysis.date daily /\
       map total_energy_kwh rows = map Analysis.total_energy_kwh daily /\
       Forall (fun row => co2_kg row
                          == calculate_daily_co2_emissions
                               (total_energy_kwh row) factor) rows /\
       (df <> [] -> rows <> [])).
Proof.
  split; [|split; [|split]].
  - intros e f. reflexivity.
  - intros e f He Hf. unfold calculate_daily_co2_emissions_f64.
    apply doubling; assumption.
  - reflexivity.
  - intros df f. destruct (dataframe_rows df f) as (daily & E & D & T & _).
    cbv zeta in *. exists daily. split; [exact E|].
    split; [exact D|]. split; [exact T|]. split.
    + unfold calculate_monthly_co2_from_dataframe. cbn [fst].
      eapply Forall_impl; [|apply daily_rows_co2].
      intros row R. cbv beta in R. rewrite R. reflexivity.
    + intros Hdf Hrows. rewrite Hrows in D. cbn [map] in D.
      destruct (AnalysisFacts.daily_groups df) as (daily' & E' & _ & Din & _).
      rewrite E in E'. injection E' as <-. cbv zeta in Din.
      rewrite <- D in Din. destruct df as [|r df]; [congruence|].
      apply (proj2 (Din (Calendar.date (Analysis.timestamp r)))).
      left. reflexivity.
Qed.

Lemma co2_conversion_linear_witness :
  Binary64.in_range 500 = true /\
  Binary64.in_range DEFAULT_EMISSION_FACTOR_f64 = true /\
  [Samples.reading_at 0 10 5] <> [] /\
  calculate_daily_co2_emissions_f64 (2 * 500) DEFAULT_EMISSION_FACTOR_f64
  = (2 * calculate_daily_co2_emissions_f64 500 DEFAULT_EMISSION_FACTOR_f64)%float /\
  fst (calculate_monthly_co2_from_dataframe [Samples.reading_at 0 10 5]
         DEFAULT_EMISSION_FACTOR) <> [].
Proof.
  split; [reflexivity|]. split; [reflexivity|].
  assert (N : [Samples.reading_at 0 10 5] <> []) by discriminate.
  split; [exact N|]. split.
  - apply (proj1 (proj2 co2_conversion_linear)); reflexivity.
  - destruct (proj2 (proj2 (proj2 co2_conversion_linear))
                [Samples.reading_at 0 10 5] DEFAULT_EMISSION_FACTOR)
      as (daily & _ & _ & _ & _ & R).
    apply R, N.
Defined.

End CarbonFacts.

Module SqrtFacts.
Import Series SeriesFacts.

Local Open Scope R_scope.

Lemma sq_lt_lt (a b : R) : 0 <= a -> 0 <= b -> (a * a < b * b <-> a < b).
Proof.
  intros Ha Hb. split; intros H.
  - destruct (Rlt_le_dec a b) as [|Hge]; [assumption|]. exfalso.
    assert (b * b <= a * a) by (apply Rmult_le_compat; lra). lra.
  - assert (a * a <= a * b) by (apply Rmult_le_compat_l; lra).
    assert (a * b < b * b) by (apply Rmult_lt_compat_r; lra). lra.
Qed.

(** [gt_scaled_sqrt] decides the comparison with the real square root. *)
Lemma gt_scaled_sqrt_spec (d t v : Q) :
  (0 <= v)%Q ->
  gt_scaled_sqrt d t v = true <-> Q2R t * R_sqrt.sqrt (Q2R v) < Q2R d.
Proof.
  intros Hv. apply Qle_Rle in Hv. rewrite RMicromega.Q2R_0 in Hv.
  pose proof (sqrt_pos (Q2R v)) as Hs.
  pose proof (sqrt_sqrt (Q2R v) Hv) as Hss.
  set (s := R_sqrt.sqrt (Q2R v)) in *.
  assert (Lt : forall x y : Q, Qltb x y = true <-> Q2R x < Q2R y).
  { intros x y. rewrite Qltb_lt. split; [apply Qlt_Rlt | apply Rlt_Qlt]. }
  assert (Esq : forall x : Q, Q2R (sq x) = Q2R x * Q2R x)
    by (intros x; unfold sq; apply Q2R_mult).
  assert (Ea : Q2R t * Q2R t * Q2R v = (Q2R t * s) * (Q2R t * s))
    by (rewrite <- Hss; ring).
  unfold gt_scaled_sqrt.
  destruct (Qle_bool 0 t) eqn:Et.
  - apply Qle_bool_iff, Qle_Rle in Et. rewrite RMicromega.Q2R_0 in Et.
    rewrite andb_true_iff, !Lt, Q2R_mult, !Esq, RMicromega.Q2R_0, Ea.
    assert (Ha : 0 <= Q2R t * s) by (apply Rmult_le_pos; assumption).
    split.
    + intros [Hd Hsq]. apply sq_lt_lt; [exact Ha | lra | exact Hsq].
    + intros H. split; [lra|]. apply sq_lt_lt; [exact Ha | lra | exact H].
  - assert (Ht : Q2R t < 0).
    { rewrite <- RMicromega.Q2R_0. apply Qlt_Rlt, Qnot_le_lt.
      intros C. apply Qle_bool_iff in C. congruence. }
    rewrite orb_true_iff, !Lt, Q2R_mult, !Esq, RMicromega.Q2R_0, Ea.
    assert (Ha : 0 <= - (Q2R t * s)).
    { replace (- (Q2R t * s)) with ((- Q2R t) * s) by ring.
      apply Rmult_le_pos; lra. }
    replace ((Q2R t * s) * (Q2R t * s))
      with ((- (Q2R t * s)) * (- (Q2R t * s))) by ring.
    replace (Q2R d * Q2R d) with ((- Q2R d) * (- Q2R d)) by ring.
    split.
    + intros [Hd | Hsq]; [lra|].
      destruct (Rlt_le_dec 0 (Q2R d)) as [|Hle]; [lra|].
      assert (- Q2R d < - (Q2R t * s))
        by (apply (sq_lt_lt (- Q2R d) (- (Q2R t * s))); [lra | lra | exact Hsq]).
      lra.
    + intros H. destruct (Rlt_le_dec 0 (Q2R d)) as [|Hle]; [now left|].
      right. apply sq_lt_lt; lra.
Qed.

End SqrtFacts.

(* ------------------------------------------------------------------ *)
(** * Further properties of the analysis functions *)

Module ColumnFacts.
Import Series SeriesFacts.
Local Open Scope Q_scope.

Lemma len_pos (l : list Q) : l <> [] -> 1 <= len l.
Proof.
  intros H. apply of_nat_pos. destruct l; [congruence | simpl; lia].
Qed.

Lemma len_cons (x : Q) (l : list Q) : len (x :: l) == len l + 1.
Proof. unfold len. cbn [length]. apply of_nat_S. Qed.

Lemma len_nonneg (l : list Q) : 0 <= len l.
Proof. unfold len, of_nat. rewrite <- (Zle_Qle 0). lia. Qed.

Lemma sum_lower (a : Q) (l : list Q) :
  Forall (fun x => a <= x) l -> a * len l <= sum l.
Proof.
  induction 1 as [|x r Hx _ IH]; cbn [sum].
  - unfold len. cbn [length]. change (of_nat 0) with 0. lra.
  - rewrite len_cons. lra.
Qed.

Lemma sum_upper (b : Q) (l : list Q) :
  Forall (fun x => x <= b) l -> sum l <= b * len l.
Proof.
  induction 1 as [|x r Hx _ IH]; cbn [sum].
  - unfold len. cbn [length]. change (of_nat 0) with 0. lra.
  - rewrite len_cons. lra.
Qed.

(** The mean of a non-empty column lies between two bounds of it. *)
Lemma mean_between (a b : Q) (l : list Q) :
  l <> [] ->
  Forall (fun x => a <= x) l -> Forall (fun x => x <= b) l ->
  a <= sum l / len l /\ sum l / len l <= b.
Proof.
  intros Hl Ha Hb. pose proof (len_pos l Hl) as Hn.
  pose proof (sum_lower a l Ha). pose proof (sum_upper b l Hb).
  split.
  - apply Qle_shift_div_l; lra.
  - apply Qle_shift_div_r; lra.
Qed.

Lemma mean_some (l : list Q) : l <> [] -> mean l = Some (sum l / len l).
Proof. destruct l; [congruence | reflexivity]. Qed.

(** Minimum, mean and maximum of a non-empty column are in order. *)
Lemma min_mean_max (l : list Q) :
  l <> [] ->
  exists mn av mx,
    min l = Some mn /\ mean l = Some av /\ max l = Some mx /\
    mn <= av /\ av <= mx.
Proof.
  intros Hl.
  destruct (min_some l Hl) as [mn Hmn]. destruct (max_some l Hl) as [mx Hmx].
  destruct (min_spec l mn Hmn) as [_ Hlo].
  destruct (max_spec l mx Hmx) as [_ Hhi].
  exists mn, (sum l / len l), mx.
  split; [exact Hmn|]. split; [apply mean_some, Hl|]. split; [exact Hmx|].
  apply mean_between; assumption.
Qed.

End ColumnFacts.

Module DailyFacts.
Import Series SeriesFacts Analysis AnalysisViews AnalysisFacts ColumnFacts.
Import TableViews.
Local Open Scope Q_scope.

Lemma daily_consumption_sum (df : list Reading) :
  exists daily,
    calculate_daily_consumption df = Ok daily /\
    sum (map total_energy_kwh daily) == sum (map energy_consumed_kwh df).
Proof.
  eexists. split; [reflexivity|].
  unfold groupby_sum. rewrite (fold_group_add_total _ []).
  rewrite map_map. cbn [fst snd totals map sum].
  rewrite Qplus_0_l. reflexivity.
Qed.

Lemma sorted_unique (l1 l2 : list Z) :
  StronglySorted Z.lt l1 -> StronglySorted Z.lt l2 ->
  (forall x, In x l1 <-> In x l2) -> l1 = l2.
Proof.
  intros H1. revert l2. induction H1 as [|a l1 Hs1 IH Ha]; intros l2 H2 Hin.
  - destruct l2 as [|b l2]; [reflexivity|].
    exfalso. apply (proj2 (Hin b)). now left.
  - destruct H2 as [|b l2 Hs2 Hb].
    + exfalso. apply (proj1 (Hin a)). now left.
    + rewrite Forall_forall in Ha, Hb.
      assert (E : a = b).
      { destruct (proj1 (Hin a) (or_introl eq_refl)) as [Eb | Hb'];
          [congruence|].
        destruct (proj2 (Hin b) (or_introl eq_refl)) as [Ea | Ha'];
          [congruence|].
        pose proof (Ha _ Ha'). pose proof (Hb _ Hb'). lia. }
      subst b. f_equal. apply IH; [exact Hs2|].
      intros x. split; intros Hx.
      * destruct (proj1 (Hin x) (or_intror Hx)) as [E | Hx']; [|exact Hx'].
        pose proof (Ha _ Hx). lia.
      * destruct (proj2 (Hin x) (or_intror Hx)) as [E | Hx']; [|exact Hx'].
        pose proof (Hb _ Hx). lia.
Qed.

Lemma totals_agree (gs1 gs2 : list DailyAggregate) (f : Z -> Q) :
  map date gs1 = map date gs2 ->
  (forall g, In g gs1 -> total_energy_kwh g == f (date g)) ->
  (forall g, In g gs2 -> total_energy_kwh g == f (date g)) ->
  Forall2 (fun a b => date a = date b /\ total_energy_kwh a == total_energy_kwh b)
          gs1 gs2.
Proof.
  revert gs2. induction gs1 as [|a gs1 IH]; intros [|b gs2] E H1 H2;
    try discriminate E; constructor.
  - injection E as Ed _. split; [exact Ed|].
    rewrite (H1 a (or_introl eq_refl)), (H2 b (or_introl eq_refl)), Ed.
    reflexivity.
  - injection E as _ Et. apply IH; [exact Et | |]; intros g Hg.
    + apply H1. now right.
    + apply H2. now right.
Qed.

(** X2. Reordering the readings changes no date of the daily table:
    two tables that are permutations of each other give the same dates,
    in the same order.  When the reordering also keeps the readings of
    each date in their order, the totals are the same too. *)
Theorem daily_consumption_order_free (df df' : list Reading) :
  Permutation df df' ->
  exists daily daily',
    calculate_daily_consumption df = Ok daily /\
    calculate_daily_consumption df' = Ok daily' /\
    map date daily = map date daily' /\
    ((forall d, energies_on d df = energies_on d df') ->
     Forall2 (fun a b => date a = date b /\
                         total_energy_kwh a == total_energy_kwh b)
             daily daily').
Proof.
  intros Hp.
  destruct (daily_groups df) as (daily & E & S & D & T).
  destruct (daily_groups df') as (daily' & E' & S' & D' & T').
  exists daily, daily'. split; [exact E|]. split; [exact E'|].
  fold (dated_energy df) in D, T. fold (dated_energy df') in D', T'.
  assert (Hrows : Permutation (dated_energy df) (dated_energy df'))
    by (apply Permutation_map, Hp).
  assert (Hd : map date daily = map date daily').
  { apply sorted_unique; [exact S | exact S'|].
    intros x. rewrite D, D'. split; intros Hx.
    - apply (Permutation_in _ (Permutation_map fst Hrows)), Hx.
    - apply (Permutation_in _ (Permutation_sym (Permutation_map fst Hrows))), Hx. }
  split; [exact Hd|]. intros Hsame.
  apply (totals_agree daily daily' (fun d => energy_on d (dated_energy df))).
  - exact Hd.
  - exact T.
  - intros g Hg. rewrite (T' g Hg). unfold energy_on.
    fold (energies_on (date g) df'). fold (energies_on (date g) df).
    rewrite Hsame. reflexivity.
Qed.

Lemma daily_consumption_order_free_witness :
  Permutation
    [Samples.reading_at 0 10 5; Samples.reading_at 90000 20 7;
     Samples.reading_at 3600 10 6]
    [Samples.reading_at 90000 20 7; Samples.reading_at 0 10 5;
     Samples.reading_at 3600 10 6] /\
  exists daily daily',
    calculate_daily_consumption
      [Samples.reading_at 0 10 5; Samples.reading_at 90000 20 7;
       Samples.reading_at 3600 10 6] = Ok daily /\
    calculate_daily_consumption
      [Samples.reading_at 90000 20 7; Samples.reading_at 0 10 5;
       Samples.reading_at 3600 10 6] = Ok daily' /\
    Forall2 (fun a b => date a = date b /\
                        total_energy_kwh a == total_energy_kwh b)
            daily daily'.
Proof.
  assert (P : Permutation
                [Samples.reading_at 0 10 5; Samples.reading_at 90000 20 7;
                 Samples.reading_at 3600 10 6]
                [Samples.reading_at 90000 20 7; Samples.reading_at 0 10 5;
                 Samples.reading_at 3600 10 6]) by apply perm_swap.
  split; [exact P|].
  destruct (daily_consumption_order_free _ _ P)
    as (daily & daily' & E & E' & _ & F).
  exists daily, daily'. split; [exact E|]. split; [exact E'|].
  apply F. intros d. unfold energies_on.
  change (dated_energy [Samples.reading_at 0 10 5; Samples.reading_at 90000 20 7;
                        Samples.reading_at 3600 10 6])
    with [(0%Z, 5); (1%Z, 7); (0%Z, 6)].
  change (dated_energy [Samples.reading_at 90000 20 7; Samples.reading_at 0 10 5;
                        Samples.reading_at 3600 10 6])
    with [(1%Z, 7); (0%Z, 5); (0%Z, 6)].
  destruct (Z.eqb_spec 0 d) as [<- | N0]; [reflexivity|].
  cbn [filter fst]. destruct (0 =? d)%Z eqn:E0; [apply Z.eqb_eq in E0; lia|].
  destruct (1 =? d)%Z; reflexivity.
Defined.

Lemma group_add_length (d : Z) (e : Q) (acc : list DailyAggregate) :
  (length acc <= length (group_add d e acc) <= S (length acc))%nat /\
  (1 <= length (group_add d e acc))%nat.
Proof.
  induction acc as [|g rest IH]; cbn [group_add length]; [lia|].
  destruct (d <? date g)%Z; [cbn [length]; lia|].
  destruct (d =? date g)%Z; cbn [length]; lia.
Qed.

Lemma groupby_sum_length (rows : list (Z * Q)) (acc : list DailyAggregate) :
  let gs := fold_left (fun a r => group_add (fst r) (snd r) a) rows acc in
  (length acc <= length gs <= length acc + length rows)%nat /\
  (rows <> [] -> 1 <= length gs)%nat.
Proof.
  revert acc. induction rows as [|r rows IH]; intros acc; cbn [fold_left length].
  - split; [lia | congruence].
  - destruct (IH (group_add (fst r) (snd r) acc)) as [B _].
    pose proof (group_add_length (fst r) (snd r) acc). split; [lia|].
    intros _. lia.
Qed.

Lemma daily_row_count (df : list Reading) :
  exists daily,
    calculate_daily_consumption df = Ok daily /\
    (length daily <= length df)%nat /\
    (df <> [] -> 1 <= length daily)%nat /\
    NoDup (map date daily).
Proof.
  destruct (daily_groups df) as (daily & E & S & _ & _).
  exists daily. split; [exact E|].
  unfold calculate_daily_consumption in E. injection E as <-.
  destruct (groupby_sum_length (dated_energy df) []) as [B N].
  fold (groupby_sum (dated_energy df)) in B, N.
  unfold dated_energy in B, N at 1. rewrite length_map in B. cbn [length] in B.
  split; [exact (proj2 B)|]. split.
  - intros Hdf. apply N. destruct df; [congruence | discriminate].
  - clear B N. induction S as [|a l Hs IH Ha]; constructor; [|exact IH].
    intros Hin. rewrite Forall_forall in Ha. pose proof (Ha _ Hin). lia.
Qed.

(** X3. The daily table has at most one row per reading and, for a
    table that is not empty, at least one row; its dates are strictly
    ascending, so no date appears twice. *)
Theorem daily_consumption_row_count (df : list Reading) :
  exists daily,
    calculate_daily_consumption df = Ok daily /\
    (length daily <= length df)%nat /\
    (df <> [] -> 1 <= length daily)%nat /\
    NoDup (map date daily).
Proof.
  apply daily_row_count; assumption.
Qed.

Lemma daily_consumption_row_count_witness :
  [Samples.reading_at 0 10 5; Samples.reading_at 90000 20 7] <> [] /\
  exists daily,
    calculate_daily_consumption
      [Samples.reading_at 0 10 5; Samples.reading_at 90000 20 7] = Ok daily /\
    (1 <= length daily <= 2)%nat.
Proof.
  split; [discriminate|].
  destruct (daily_consumption_row_count
              [Samples.reading_at 0 10 5; Samples.reading_at 90000 20 7])
    as (daily & E & U & L & _).
  exists daily. split; [exact E|]. split; [apply L; discriminate | exact U].
Defined.

(** X1. The rows of [calculate_daily_consumption] come in strictly
    ascending date order, so no date appears twice; a date has a row
    exactly when some reading of the input falls on it; and the total of
    a row is the energy of the readings of its date. *)
Theorem daily_consumption_groups (df : list Reading) :
  exists daily,
    calculate_daily_consumption df = Ok daily /\
    StronglySorted Z.lt (map date daily) /\
    (forall d, In d (map date daily)
               <-> exists r, In r df /\ Calendar.date (timestamp r) = d) /\
    (forall g, In g daily ->
               total_energy_kwh g == energy_on (date g) (dated_energy df)).
Proof.
  destruct (daily_groups df) as (daily & E & S & D & T). cbv zeta in D, T.
  exists daily. split; [exact E|]. split; [exact S|]. split; [|exact T].
  intros d. rewrite D, map_map, in_map_iff. cbn [fst].
  split; intros (r & A & B); exists r; auto.
Qed.

End DailyFacts.

Module PeakFacts.
Import Series SeriesFacts Analysis AnalysisViews AnalysisFacts ColumnFacts.
Import TableViews.
Local Open Scope Q_scope.

(** X4. A percentile above 100, or below 0 by at least [1e-300], is
    refused with a ValueError, whatever the table, also an empty one.
    (A negative percentile next to 0 is another matter in binary64:
    divided by 100 it can underflow to a zero, which is accepted.) *)
Theorem peak_percentile_out_of_range (df : list Reading) (percentile : Q) :
  percentile <= - (1 # 10 ^ 300) \/ 100 < percentile ->
  identify_peak_periods df percentile
  = Raise (ValueError "percentiles should all be in the interval [0, 1]").
Proof.
  intros H. unfold identify_peak_periods, quantile.
  assert (C : Qle_bool 0 (percentile / 100) && Qle_bool (percentile / 100) 1
              = false).
  { apply andb_false_iff. destruct H as [H | H]; [left | right];
      apply not_true_is_false; intros C; apply Qle_bool_iff in C.
    - assert (N : - (1 # 10 ^ 300) < 0) by reflexivity.
      assert (percentile / 100 < 0) by (apply Qlt_shift_div_r; lra). lra.
    - assert (1 < percentile / 100) by (apply Qlt_shift_div_l; lra). lra. }
  rewrite C. reflexivity.
Qed.

Lemma peak_percentile_out_of_range_witness :
  (101 <= - (1 # 10 ^ 300) \/ 100 < 101) /\
  identify_peak_periods (Samples.table_of_power [10; 20; 30]) 101
  = Raise (ValueError "percentiles should all be in the interval [0, 1]").
Proof.
  assert (H : 101 <= - (1 # 10 ^ 300) \/ 100 < 101) by (right; reflexivity).
  split; [exact H|]. apply peak_percentile_out_of_range, H.
Defined.

Lemma identify_peak_explicit (df : list Reading) (p : Q) :
  df <> [] -> 0 <= p -> p <= 100 ->
  let th := threshold_of df p in
  let peak := at_or_above th df in
  identify_peak_periods df p
  = Ok {| peak_threshold := Some th;
          peak_count := length peak;
          peak_percentage := of_nat (length peak) / of_nat (length df) * 100;
          average_peak_power := mean (map power_kw peak);
          min_peak_power := min (map power_kw peak);
          max_peak_power := max (map power_kw peak) |}.
Proof.
  intros Hdf H0 H100 th peak. unfold identify_peak_periods.
  rewrite quantile_in_range;
    [| destruct df; [congruence | discriminate] | exact H0 | exact H100].
  rewrite length_map. cbn [bind ge_nan].
  fold (threshold_of df p). fold th. fold (at_or_above th df). fold peak.
  destruct df as [|r df]; [congruence|]. reflexivity.
Qed.

(** The threshold is not above the largest power of the table. *)
Lemma threshold_le_max (df : list Reading) (p mx : Q) :
  df <> [] -> 0 <= p -> p <= 100 ->
  max (map power_kw df) = Some mx -> threshold_of df p <= mx.
Proof.
  intros Hdf H0 H100 Hmx. unfold threshold_of.
  assert (Hn : (0 < length df)%nat) by (destruct df; [congruence | simpl; lia]).
  destruct (rank_range (length df) p Hn H0 H100) as [R0 R1].
  set (s := sort (map power_kw df)).
  assert (Hlen : length s = length df)
    by (unfold s; rewrite sort_length; apply length_map).
  assert (R1' : rank (length df) (p / 100) <= len s - 1)
    by (unfold len; rewrite Hlen; exact R1).
  destruct (interpolate_between s _ (sort_sorted _) R0 R1') as [_ U].
  destruct (rank_bounds _ _ R0 R1) as (F0 & Fc & Cn).
  eapply Qle_trans; [exact U|].
  destruct (max_spec _ _ Hmx) as [_ Hall]. rewrite Forall_forall in Hall.
  apply Hall. apply (Permutation_in _ (sort_perm _)). fold s.
  apply nth_In. lia.
Qed.

Lemma max_in_table (df : list Reading) (mx : Q) :
  max (map power_kw df) = Some mx ->
  exists r, In r df /\ power_kw r = mx /\
            Forall (fun r' => power_kw r' <= mx) df.
Proof.
  intros Hmx. destruct (max_spec _ _ Hmx) as [Hin Hall].
  apply in_map_iff in Hin. destruct Hin as (r & E & Hr).
  exists r. split; [exact Hr|]. split; [exact E|].
  apply Forall_forall. intros r' Hr'. rewrite Forall_forall in Hall.
  apply Hall, in_map, Hr'.
Qed.

Lemma at_or_above_spec (th : Q) (df : list Reading) (r : Reading) :
  In r (at_or_above th df) <-> In r df /\ th <= power_kw r.
Proof.
  unfold at_or_above. rewrite filter_In, Qle_bool_iff. reflexivity.
Qed.

(** X5. On a table that is not empty and a percentile in [0, 100], at
    least one reading and at most all of them are at or above the
    threshold, and the percentage is that share of the table, above 0
    and at most 100. *)
Theorem peak_count_bounds (df : list Reading) (p : Q) :
  df <> [] -> 0 <= p -> p <= 100 ->
  exists s,
    identify_peak_periods df p = Ok s /\
    (1 <= peak_count s <= length df)%nat /\
    peak_percentage s == of_nat (peak_count s) / of_nat (length df) * 100 /\
    0 < peak_percentage s /\ peak_percentage s <= 100.
Proof.
  intros Hdf H0 H100. eexists.
  split; [apply identify_peak_explicit; assumption|].
  cbn [peak_count peak_percentage].
  set (th := threshold_of df p). set (peak := at_or_above th df).
  assert (Hp : map power_kw df <> [])
    by (destruct df; [congruence | discriminate]).
  destruct (max_some _ Hp) as [mx Hmx].
  destruct (max_in_table df mx Hmx) as (r & Hr & Er & _).
  assert (Hin : In r peak).
  { apply at_or_above_spec. split; [exact Hr|]. rewrite Er.
    apply threshold_le_max; assumption. }
  assert (H1 : (1 <= length peak)%nat)
    by (destruct peak; [destruct Hin | simpl; lia]).
  assert (H2 : (length peak <= length df)%nat) by apply filter_length_le.
  assert (Q1 : 1 <= of_nat (length peak)) by (apply of_nat_pos; lia).
  assert (Q2 : of_nat (length peak) <= of_nat (length df))
    by (unfold of_nat; rewrite <- Zle_Qle; lia).
  split; [lia|]. split; [reflexivity|].
  assert (R0 : 0 < of_nat (length peak) / of_nat (length df))
    by (apply Qlt_shift_div_l; lra).
  assert (R1 : of_nat (length peak) / of_nat (length df) <= 1)
    by (apply Qle_shift_div_r; lra).
  split; lra.
Qed.

(** X6. There the statistics of the peak readings are numbers, and the
    threshold is at most their minimum, that at most their maximum,
    which is the maximum of the whole table. *)
Theorem peak_statistics_ordered (df : list Reading) (p : Q) :
  df <> [] -> 0 <= p -> p <= 100 ->
  exists s th mn av mx,
    identify_peak_periods df p = Ok s /\
    peak_threshold s = Some th /\ min_peak_power s = Some mn /\
    average_peak_power s = Some av /\ max_peak_power s = Some mx /\
    th <= mn /\ mn <= mx /\
    exists top, max (map power_kw df) = Some top /\ mx == top.
Proof.
  intros Hdf H0 H100.
  set (th := threshold_of df p). set (peak := at_or_above th df).
  assert (Hp : map power_kw df <> [])
    by (destruct df; [congruence | discriminate]).
  destruct (max_some _ Hp) as [top Htop].
  destruct (max_in_table df top Htop) as (r & Hr & Er & Hall).
  assert (Hin : In r peak).
  { apply at_or_above_spec. split; [exact Hr|]. rewrite Er.
    apply threshold_le_max; assumption. }
  assert (Hpeak : map power_kw peak <> [])
    by (destruct peak; [destruct Hin | discriminate]).
  destruct (min_mean_max _ Hpeak) as (mn & av & mx & Hmn & Hav & Hmx & L & U).
  eexists. exists th, mn, av, mx.
  split; [apply identify_peak_explicit; assumption|].
  cbn [peak_threshold min_peak_power average_peak_power max_peak_power].
  fold th. fold peak.
  split; [reflexivity|]. split; [exact Hmn|]. split; [exact Hav|].
  split; [exact Hmx|].
  split; [|split; [lra|]].
  - destruct (min_spec _ _ Hmn) as [Hm _]. apply in_map_iff in Hm.
    destruct Hm as (r' & <- & Hr'). apply at_or_above_spec in Hr'. tauto.
  - exists top. split; [exact Htop|].
    destruct (max_spec _ _ Hmx) as [Hm Hle]. apply Qle_antisym.
    + apply in_map_iff in Hm. destruct Hm as (r' & <- & Hr').
      apply at_or_above_spec in Hr'. rewrite Forall_forall in Hall.
      apply Hall. tauto.
    + rewrite Forall_forall in Hle. rewrite <- Er.
      apply Hle, in_map, Hin.
Qed.

Lemma peak_count_bounds_witness :
  Samples.table_of_power [10; 20; 30; 40] <> [] /\ 0 <= 75 /\ 75 <= 100 /\
  exists s,
    identify_peak_periods (Samples.table_of_power [10; 20; 30; 40]) 75 = Ok s /\
    (1 <= peak_count s <= 4)%nat.
Proof.
  assert (Hne : Samples.table_of_power [10; 20; 30; 40] <> [])
    by (vm_compute; discriminate).
  split; [exact Hne|]. split; [discriminate|]. split; [discriminate|].
  destruct (peak_count_bounds (Samples.table_of_power [10; 20; 30; 40]) 75
              Hne ltac:(discriminate) ltac:(discriminate))
    as (s & E & B & _).
  exists s. split; [exact E | exact B].
Defined.

Lemma peak_statistics_ordered_witness :
  Samples.table_of_power [10; 20; 30; 40] <> [] /\ 0 <= 75 /\ 75 <= 100 /\
  exists s th mn mx,
    identify_peak_periods (Samples.table_of_power [10; 20; 30; 40]) 75 = Ok s /\
    peak_threshold s = Some th /\ min_peak_power s = Some mn /\
    max_peak_power s = Some mx /\
    th <= mn /\ mn <= mx.
Proof.
  assert (Hne : Samples.table_of_power [10; 20; 30; 40] <> [])
    by (vm_compute; discriminate).
  split; [exact Hne|]. split; [discriminate|]. split; [discriminate|].
  destruct (peak_statistics_ordered (Samples.table_of_power [10; 20; 30; 40]) 75
              Hne ltac:(discriminate) ltac:(discriminate))
    as (s & th & mn & av & mx & E & T & M & A & X & H1 & H2 & _).
  exists s, th, mn, mx. repeat (split; [assumption|]). assumption.
Defined.

End PeakFacts.

Module SpikeFacts.
Import Series SeriesFacts Analysis AnalysisViews AnalysisFacts ColumnFacts.
Import TableViews.
Local Open Scope Q_scope.

(** X7. A window below one row is refused with a ValueError, whatever
    the table and the threshold. *)
Theorem spikes_window_below_one (df : list Reading) (w : Z) (t : Q) :
  (w < 1)%Z ->
  detect_abnormal_spikes df w t
  = Raise (ValueError "min_periods 1 must be <= window").
Proof.
  intros H. unfold detect_abnormal_spikes, rolling_mean.
  apply Z.ltb_lt in H. rewrite H. reflexivity.
Qed.

Lemma spikes_window_below_one_witness :
  (0 < 1)%Z /\
  detect_abnormal_spikes (Samples.table_of_power [10; 50; 10]) 0 2
  = Raise (ValueError "min_periods 1 must be <= window").
Proof.
  split; [lia|]. apply spikes_window_below_one. lia.
Defined.

Lemma nth_error_combine_seq {A B : Type} (f : nat -> B) (l : list A)
    (a i : nat) :
  nth_error (combine l (map f (seq a (length l)))) i
  = option_map (fun x => (x, f (a + i)%nat)) (nth_error l i).
Proof.
  revert a i. induction l as [|x l IH]; intros a i; cbn [length seq map combine].
  - destruct i; reflexivity.
  - destruct i as [|i]; cbn [nth_error option_map].
    + rewrite Nat.add_0_r. reflexivity.
    + rewrite IH, Nat.add_succ_r. reflexivity.
Qed.

(** Row [i] of the data holds reading [i], the mean of the window that
    ends at [i], and the difference of the two. *)
Lemma spike_data_nth (df : list Reading) (w i : nat) :
  nth_error (spike_data df w) i
  = option_map (fun r => (r, rolling_at w (map power_kw df) i,
                          power_kw r - rolling_at w (map power_kw df) i))
               (nth_error df i).
Proof.
  unfold spike_data. rewrite nth_error_map, nth_error_combine_seq.
  destruct (nth_error df i); reflexivity.
Qed.

Lemma map_reading_spike_rows (t : Q) (v : option Q) (df : list Reading)
    (w : nat) :
  map reading (map (spike_row t v) (spike_data df w)) = df.
Proof.
  apply nth_error_ext. intros i.
  rewrite !nth_error_map, spike_data_nth.
  destruct (nth_error df i); reflexivity.
Qed.

Lemma spike_rows (df : list Reading) (w : Z) (t : Q) :
  (1 <= w)%Z ->
  exists rows,
    detect_abnormal_spikes df w t = Ok rows /\
    map reading rows = df /\
    forall i row,
      nth_error rows i = Some row ->
      let win := firstn (Nat.min (Z.to_nat w) (i + 1))
                        (skipn (i + 1 - Z.to_nat w) (map power_kw df)) in
      win <> [] /\
      rolling_avg row = sum win / len win /\
      deviation row = power_kw (reading row) - rolling_avg row.
Proof.
  intros Hw. eexists. split; [apply detect_rows, Hw|].
  split; [apply map_reading_spike_rows|].
  intros i row Hi. rewrite nth_error_map, spike_data_nth in Hi.
  destruct (nth_error df i) as [r|] eqn:Er; [|discriminate Hi].
  cbn [option_map] in Hi. injection Hi as <-.
  cbn [spike_row rolling_avg deviation reading fst snd].
  assert (Hlt : (i < length (map power_kw df))%nat).
  { rewrite length_map. apply nth_error_Some. congruence. }
  assert (Ewin : firstn (Nat.min (Z.to_nat w) (i + 1))
                        (skipn (i + 1 - Z.to_nat w) (map power_kw df))
                 = window (Z.to_nat w) (map power_kw df) i).
  { unfold window. f_equal. lia. }
  cbv zeta. rewrite Ewin.
  split; [apply window_nonempty; [lia | exact Hlt]|].
  split; reflexivity.
Qed.

(** X8. For a window of at least one row the result has the readings
    of the table, in their order; row [i] carries the mean of the rows
    [max(0, i - w + 1) .. i] of the power column as its rolling average
    (so never a row after [i]), and its power less that mean as its
    deviation. *)
Theorem spike_rows_structure (df : list Reading) (w : Z) (t : Q) :
  (1 <= w)%Z ->
  exists rows,
    detect_abnormal_spikes df w t = Ok rows /\
    map reading rows = df /\
    forall i row,
      nth_error rows i = Some row ->
      let win := firstn (Nat.min (Z.to_nat w) (i + 1))
                        (skipn (i + 1 - Z.to_nat w) (map power_kw df)) in
      win <> [] /\
      rolling_avg row = sum win / len win /\
      deviation row = power_kw (reading row) - rolling_avg row.
Proof.
  apply spike_rows; assumption.
Qed.

Lemma spike_rows_structure_witness :
  (1 <= 3)%Z /\
  exists rows,
    detect_abnormal_spikes (Samples.table_of_power [10; 50; 10]) 3 2 = Ok rows /\
    map reading rows = Samples.table_of_power [10; 50; 10].
Proof.
  split; [lia|].
  destruct (spike_rows_structure (Samples.table_of_power [10; 50; 10]) 3 2
              ltac:(lia)) as (rows & E & R & _).
  exists rows. split; [exact E | exact R].
Defined.

Lemma gt_scaled_sqrt_positive (d t v : Q) :
  0 <= t -> gt_scaled_sqrt d t v = true -> 0 < d.
Proof.
  intros Ht. unfold gt_scaled_sqrt.
  apply Qle_bool_iff in Ht. rewrite Ht.
  intros H. apply andb_true_iff in H. apply Qltb_lt, H.
Qed.

(** X9. With a threshold that is not negative only rows above their
    rolling average are flagged, never a dip; and the first row, which
    is its own rolling average, is never flagged. *)
Theorem spikes_only_above_trend (df : list Reading) (w : Z) (t : Q) :
  (1 <= w)%Z -> 0 <= t ->
  exists rows,
    detect_abnormal_spikes df w t = Ok rows /\
    Forall (fun row => is_anomaly row = true ->
                       rolling_avg row < power_kw (reading row)) rows /\
    (forall row, nth_error rows 0 = Some row -> is_anomaly row = false).
Proof.
  intros Hw Ht. eexists. split; [apply detect_rows, Hw|].
  assert (Hflag : forall d : Reading * Q * Q, gt_scaled_std (snd d) t
                     (var (map snd (spike_data df (Z.to_nat w)))) = true ->
                   0 < snd d).
  { intros d. destruct (var _) as [v|]; cbn [gt_scaled_std]; [|discriminate].
    apply gt_scaled_sqrt_positive, Ht. }
  split.
  - apply Forall_forall. intros row Hin. apply in_map_iff in Hin.
    destruct Hin as (d & <- & Hd).
    cbn [spike_row is_anomaly rolling_avg reading]. intros Ha.
    apply Hflag in Ha.
    destruct (in_spike_data _ _ _ Hd) as (_ & _ & _ & Edev).
    rewrite Edev in Ha. lra.
  - intros row H0. rewrite nth_error_map in H0.
    pose proof (first_deviation_zero df (Z.to_nat w) ltac:(lia)) as Hz.
    destruct (spike_data df (Z.to_nat w)) as [|d rest] eqn:E;
      [discriminate H0|].
    cbn [nth_error option_map] in H0. injection H0 as <-.
    cbn [spike_row is_anomaly].
    apply not_true_is_false. intros Ha.
    apply Hflag in Ha. cbn iota in Hz. lra.
Qed.

Lemma spikes_only_above_trend_witness :
  (1 <= 3)%Z /\ 0 <= 2 /\
  exists rows,
    detect_abnormal_spikes (Samples.table_of_power [10; 50; 10]) 3 2 = Ok rows /\
    Forall (fun row => is_anomaly row = true ->
                       rolling_avg row < power_kw (reading row)) rows.
Proof.
  split; [lia|]. split; [discriminate|].
  destruct (spikes_only_above_trend (Samples.table_of_power [10; 50; 10]) 3 2
              ltac:(lia) ltac:(discriminate)) as (rows & E & F & _).
  exists rows. split; [exact E | exact F].
Defined.



End SpikeFacts.

Module ReportFacts.
Import Series SeriesFacts Analysis AnalysisViews AnalysisFacts ColumnFacts.
Import TableViews.
Import DailyFacts PeakFacts SpikeFacts AnalysisReport.
Local Open Scope Q_scope.

(** X13. The combined report fails on an empty table: the peak analysis
    divides by the number of rows, although the two other analyses
    would return empty tables. *)
Theorem report_empty_table_raises (machine : option string) (now : Z) :
  generate_analysis_report [] machine now = Raise ZeroDivisionError.
Proof. reflexivity. Qed.

(** X14. On a table that is not empty the report is produced.  It
    counts every reading; the anomalies counted are those listed, at
    most the readings, as a percentage between 0 and 100; there is at
    least one day and at most one per reading, and the average daily
    energy is a number. *)
Theorem report_invariants (df : list Reading) (machine : option string)
    (now : Z) :
  df <> [] ->
  exists r pct avg,
    generate_analysis_report df machine now = Ok r /\
    data_points r = length df /\
    (anomaly_count (anomalies r) <= data_points r)%nat /\
    length (anomalous_readings (anomalies r)) = anomaly_count (anomalies r) /\
    anomaly_percentage (anomalies r) = Some pct /\ 0 <= pct /\ pct <= 100 /\
    (1 <= total_days (daily_consumption r) <= data_points r)%nat /\
    length (daily_data (daily_consumption r))
    = total_days (daily_consumption r) /\
    average_daily_kwh (daily_consumption r) = Some avg.
Proof.
  intros Hdf.
  destruct (daily_row_count df) as (daily & Ed & Hle & Hge & _).
  destruct (identify_peak_threshold df 75 Hdf ltac:(discriminate)
              ltac:(discriminate)) as (peaks & Ep & _).
  destruct (spike_rows df 5 2 ltac:(lia)) as (rows & Er & Hrows & _).
  assert (Hlen : length rows = length df)
    by (rewrite <- (length_map reading rows), Hrows; reflexivity).
  assert (Hn : (0 < length df)%nat) by (destruct df; [congruence | simpl; lia]).
  specialize (Hge Hdf).
  assert (Hd : map Analysis.total_energy_kwh daily <> [])
    by (destruct daily; [simpl in Hge; lia | discriminate]).
  unfold generate_analysis_report. rewrite Ed, Ep, Er. cbn [bind].
  set (count := length (filter is_anomaly rows)).
  assert (Hc : (count <= length rows)%nat) by apply filter_length_le.
  rewrite Hlen in *.
  destruct (length df) as [|n] eqn:En; [lia|].
  eexists. exists (of_nat count / of_nat (S n) * 100).
  exists (sum (map Analysis.total_energy_kwh daily)
          / len (map Analysis.total_energy_kwh daily)).
  split; [reflexivity|].
  cbn [data_points anomalies anomaly_count anomalous_readings
       anomaly_percentage daily_consumption total_days average_daily_kwh
       daily_data np_truediv scale_nan].
  assert (Q1 : 1 <= of_nat (S n)) by (apply of_nat_pos; lia).
  assert (Q0 : 0 <= of_nat count) by (unfold of_nat; rewrite <- (Zle_Qle 0); lia).
  assert (Q2 : of_nat count <= of_nat (S n))
    by (unfold of_nat; rewrite <- Zle_Qle; lia).
  split; [reflexivity|]. split; [exact Hc|]. split.
  - fold count. destruct (0 <? count)%nat eqn:C.
    + rewrite length_map. reflexivity.
    + apply Nat.ltb_ge in C. cbn [length]. lia.
  - split; [reflexivity|].
    assert (R0 : 0 <= of_nat count / of_nat (S n))
      by (apply Qle_shift_div_l; lra).
    assert (R1 : of_nat count / of_nat (S n) <= 1)
      by (apply Qle_shift_div_r; lra).
    split; [lra|]. split; [lra|]. split; [lia|].
    split; [reflexivity | apply mean_some, Hd].
Qed.

Lemma report_invariants_witness :
  Samples.table_of_power [10; 50; 10] <> [] /\
  exists r,
    generate_analysis_report (Samples.table_of_power [10; 50; 10]) None 0 = Ok r /\
    data_points r = 3%nat /\
    (anomaly_count (anomalies r) <= data_points r)%nat.
Proof.
  assert (Hne : Samples.table_of_power [10; 50; 10] <> [])
    by (vm_compute; discriminate).
  split; [exact Hne|].
  destruct (report_invariants (Samples.table_of_power [10; 50; 10]) None 0 Hne)
    as (r & pct & avg & E & D & C & _).
  exists r. split; [exact E|]. split; [exact D | exact C].
Defined.

End ReportFacts.

Module CarbonReportFacts.
Import Series SeriesFacts ColumnFacts Carbon CarbonReport CarbonViews.
Import TableViews.
Local Open Scope Q_scope.

Lemma sum_map_scale (f : Q) (l : list Q) :
  sum (map (fun e => e * f) l) == f * sum l.
Proof.
  induction l as [|x l IH]; cbn [map sum]; [ring|]. rewrite IH. ring.
Qed.

Lemma dataframe_total_energy (df : list Analysis.Reading) (f : Q) :
  sum (map Carbon.total_energy_kwh (fst (calculate_monthly_co2_from_dataframe df f)))
  == sum (energy_column df).
Proof.
  unfold calculate_monthly_co2_from_dataframe. cbn [fst].
  rewrite map_map. cbn [Carbon.total_energy_kwh].
  destruct (DailyFacts.daily_consumption_sum df) as (daily & E & S).
  unfold Analysis.calculate_daily_consumption in E. injection E as <-.
  exact S.
Qed.

Lemma dataframe_monthly (df : list Analysis.Reading) (f : Q) :
  snd (calculate_monthly_co2_from_dataframe df f) == f * sum (energy_column df).
Proof.
  rewrite <- (dataframe_total_energy df f).
  unfold calculate_monthly_co2_from_dataframe. cbn [fst snd].
  rewrite !map_map. cbn [Carbon.co2_kg Carbon.total_energy_kwh].
  rewrite <- (sum_map_scale f (map Analysis.total_energy_kwh _)), map_map.
  reflexivity.
Qed.

Lemma breakdown_fields (df : list Analysis.Reading) (f : Q) (region : string)
    (now : Z) :
  let daily := fst (calculate_monthly_co2_from_dataframe df f) in
  let monthly := snd (calculate_monthly_co2_from_dataframe df f) in
  calculate_co2_with_breakdown df f region now
  = {| summary :=
         {| CarbonReport.region := region;
            emission_factor_kg_per_kwh := f;
            analysis_date := now;
            total_days_analyzed := length daily;
            CarbonReport.total_energy_kwh := sum (map Carbon.total_energy_kwh daily);
            monthly_co2_kg := monthly;
            monthly_co2_tonnes := monthly / 1000;
            daily_average_co2_kg := mean (map Carbon.co2_kg daily);
            daily_min_co2_kg := min (map Carbon.co2_kg daily);
            daily_max_co2_kg := max (map Carbon.co2_kg daily) |};
       daily_breakdown := daily;
       equivalencies :=
         {| car_miles_equivalent := (monthly / 0.41) * 0.621371;
            trees_needed_per_year := (monthly * 12) / 20;
            car_months_equivalent := (monthly / 1000) / (4.6 / 12) |};
       formulas_used :=
         [ ("daily_co2_kg", "Energy (kWh) × Emission Factor (kg CO2/kWh)");
           ("monthly_co2_kg", "Sum of all daily CO2 emissions");
           ("monthly_co2_tonnes", "Monthly CO2 / 1000") ]%string;
       insights := generate_insights monthly (mean (map Carbon.co2_kg daily)) |}.
Proof. reflexivity. Qed.

Lemma breakdown_total_fields (df : list Analysis.Reading) (factor : Q)
    (region : string) (now : Z) :
  let r := calculate_co2_with_breakdown df factor region now in
  let energy := sum (energy_column df) in
  CarbonReport.total_energy_kwh (summary r) == energy /\
  monthly_co2_kg (summary r) == factor * energy /\
  monthly_co2_tonnes (summary r) * 1000 == factor * energy /\
  car_miles_equivalent (equivalencies r) * 0.41 == factor * energy * 0.621371 /\
  trees_needed_per_year (equivalencies r) * 20 == factor * energy * 12 /\
  car_months_equivalent (equivalencies r) * 4.6 * 1000 == factor * energy * 12.
Proof.
  cbv zeta. rewrite breakdown_fields. cbv zeta.
  cbn [summary equivalencies CarbonReport.total_energy_kwh monthly_co2_kg
       monthly_co2_tonnes car_miles_equivalent trees_needed_per_year
       car_months_equivalent].
  pose proof (dataframe_monthly df factor) as M.
  pose proof (dataframe_total_energy df factor) as T.
  split; [exact T|]. rewrite M.
  split; [reflexivity|]. repeat split; field.
Qed.

Lemma daily_rows_of (df : list Analysis.Reading) (f : Q) :
  fst (calculate_monthly_co2_from_dataframe df f)
  = map (fun g => {| date := Analysis.date g;
                     Carbon.total_energy_kwh := Analysis.total_energy_kwh g;
                     Carbon.co2_kg := Analysis.total_energy_kwh g * f |})
        (Analysis.groupby_sum (TableViews.dated_energy df)).
Proof. reflexivity. Qed.



(** X18. With energies and an emission factor that are not negative,
    no CO2 figure of the report is negative: not a daily row, not the
    monthly total, not an equivalency. *)
Theorem breakdown_not_negative (df : list Analysis.Reading) (factor : Q)
    (region : string) (now : Z) :
  0 <= factor ->
  Forall (fun r => 0 <= Analysis.energy_consumed_kwh r) df ->
  let r := calculate_co2_with_breakdown df factor region now in
  Forall (fun row => 0 <= Carbon.co2_kg row) (daily_breakdown r) /\
  0 <= monthly_co2_kg (summary r) /\
  0 <= monthly_co2_tonnes (summary r) /\
  0 <= car_miles_equivalent (equivalencies r) /\
  0 <= trees_needed_per_year (equivalencies r) /\
  0 <= car_months_equivalent (equivalencies r).
Proof.
  intros Hf Hdf. cbv zeta.
  assert (He : 0 <= sum (energy_column df)).
  { unfold energy_column. induction Hdf as [|r l Hr _ IH]; cbn [map sum]; lra. }
  assert (Hm : 0 <= factor * sum (energy_column df))
    by (apply Qmult_le_0_compat; assumption).
  destruct (breakdown_total_fields df factor region now)
    as (_ & M & T & C & R & K).
  cbv zeta in M, T, C, R, K.
  split; [|repeat split; lra].
  rewrite breakdown_fields. cbv zeta. cbn [daily_breakdown].
  rewrite daily_rows_of. apply Forall_forall. intros row Hin.
  apply in_map_iff in Hin. destruct Hin as (g & <- & Hg). cbn [Carbon.co2_kg].
  apply Qmult_le_0_compat; [|exact Hf].
  destruct (AnalysisFacts.daily_groups df) as (daily & E & _ & _ & Tot).
  unfold Analysis.calculate_daily_consumption in E. injection E as <-.
  rewrite (Tot g Hg). unfold AnalysisViews.energy_on.
  set (sel := filter _ _).
  assert (Hsel : Forall (fun x => 0 <= x) (map snd sel)).
  { apply Forall_forall. intros x Hx. apply in_map_iff in Hx.
    destruct Hx as (p & <- & Hp). unfold sel in Hp.
    apply filter_In in Hp. destruct Hp as [Hp _].
    apply in_map_iff in Hp. destruct Hp as (rd & <- & Hrd). cbn [snd].
    rewrite Forall_forall in Hdf. apply Hdf, Hrd. }
  clearbody sel. induction Hsel as [|x l Hx _ IH]; cbn [sum]; lra.
Qed.

Lemma breakdown_not_negative_witness :
  0 <= DEFAULT_EMISSION_FACTOR /\
  Forall (fun r => 0 <= Analysis.energy_consumed_kwh r)
         (Samples.table_of_power [10; 50; 10]) /\
  0 <= monthly_co2_kg
         (summary (calculate_co2_with_breakdown
                     (Samples.table_of_power [10; 50; 10])
                     DEFAULT_EMISSION_FACTOR "US_Average" 0)).
Proof.
  assert (Hf : 0 <= DEFAULT_EMISSION_FACTOR) by discriminate.
  assert (Hd : Forall (fun r => 0 <= Analysis.energy_consumed_kwh r)
                      (Samples.table_of_power [10; 50; 10]))
    by (repeat constructor; discriminate).
  split; [exact Hf|]. split; [exact Hd|].
  exact (proj1 (proj2 (breakdown_not_negative
                         (Samples.table_of_power [10; 50; 10])
                         DEFAULT_EMISSION_FACTOR "US_Average" 0 Hf Hd))).
Defined.

(** X19. An empty table is not an error for the carbon report: it
    reports no day, no energy and no CO2, averages that are NaN, emissions
    labelled low, and the one standing recommendation. *)
Theorem breakdown_empty_table (factor : Q) (region : string) (now : Z) :
  let r := calculate_co2_with_breakdown [] factor region now in
  total_days_analyzed (summary r) = 0%nat /\
  daily_breakdown r = [] /\
  monthly_co2_kg (summary r) == 0 /\
  daily_average_co2_kg (summary r) = None /\
  daily_min_co2_kg (summary r) = None /\
  daily_max_co2_kg (summary r) = None /\
  observations (insights r)
  = [ "Low monthly emissions: 0.0 tonnes CO2";
      "Average daily emissions: nan kg CO2" ]%string /\
  recommendations (insights r)
  = [ "Monitor consumption trends to identify anomalies" ]%string.
Proof. cbv zeta. repeat split. Qed.

(** ** Insights *)

(** X20. The insights always hold two observations and between one and
    four recommendations, the last of which is the monitoring one; the
    demand-management recommendation is there exactly above 30000 kg a
    month, and the two efficiency ones exactly above 500 kg a day. *)
Theorem insights_recommendations (monthly : Q) (daily_average : option Q) :
  let i := generate_insights monthly daily_average in
  length (observations i) = 2%nat /\
  (1 <= length (recommendations i) <= 4)%nat /\
  last (recommendations i) ""%string = monitoring /\
  (In demand_management (recommendations i) <-> 30000 < monthly) /\
  (In efficiency (recommendations i) <->
   exists av, daily_average = Some av /\ 500 < av) /\
  (In renewables (recommendations i) <->
   exists av, daily_average = Some av /\ 500 < av).
Proof.
  cbv zeta. unfold generate_insights.
  cbn [observations recommendations].
  assert (G : gt_nan daily_average 500 = true <->
              exists av, daily_average = Some av /\ 500 < av).
  { destruct daily_average as [av|]; cbn [gt_nan].
    - rewrite Qltb_lt. split.
      + intros H. exists av. split; [reflexivity | exact H].
      + intros (av' & [= <-] & H). exact H.
    - split; [discriminate | intros (av' & E & _); discriminate E]. }
  pose proof (Qltb_lt 30000 monthly) as M.
  destruct (gt_nan daily_average 500); destruct (Qltb 30000 monthly);
    cbn [app length last In];
    (split; [reflexivity|]); (split; [lia|]); (split; [reflexivity|]);
    unfold demand_management, efficiency, renewables;
    repeat split; intros H;
    try (apply G; reflexivity); try (apply M; reflexivity);
    try tauto;
    try (apply M in H; discriminate H);
    try (apply G in H; discriminate H);
    repeat (destruct H as [H | H]; try discriminate H); try contradiction.
Qed.

Lemma prefix_app (p s : string) : String.prefix p (p ++ s) = true.
Proof.
  induction p as [|a p IH]; cbn [String.append String.prefix].
  - destruct s; reflexivity.
  - destruct (ascii_dec a a); [exact IH | congruence].
Qed.

(** X21. The first observation names the level of the month: high
    above 50000 kg, moderate above 10000 kg and up to 50000 kg, low up
    to 10000 kg. *)
Theorem insights_level (monthly : Q) (daily_average : option Q) :
  let first := hd ""%string (observations (generate_insights monthly daily_average)) in
  (String.prefix "High monthly emissions: " first = true <-> 50000 < monthly) /\
  (String.prefix "Moderate monthly emissions: " first = true <->
   10000 < monthly /\ monthly <= 50000) /\
  (String.prefix "Low monthly emissions: " first = true <-> monthly <= 10000).
Proof.
  cbv zeta. unfold generate_insights. cbn [observations app hd].
  pose proof (Qltb_lt 50000 monthly) as H50.
  pose proof (Qltb_ge 50000 monthly) as L50.
  pose proof (Qltb_lt 10000 monthly) as H10.
  pose proof (Qltb_ge 10000 monthly) as L10.
  set (tail := (Text.format_fixed false 1 (monthly / 1000) ++ " tonnes CO2")%string).
  destruct (Qltb 50000 monthly); [|destruct (Qltb 10000 monthly)].
  - assert (50000 < monthly) by (apply H50; reflexivity).
    split; [|split]; (split; [intros P | intros Hm]).
    + assumption.
    + apply prefix_app.
    + simpl in P. discriminate P.
    + lra.
    + simpl in P. discriminate P.
    + lra.
  - assert (10000 < monthly) by (apply H10; reflexivity).
    assert (monthly <= 50000) by (apply L50; reflexivity).
    split; [|split]; (split; [intros P | intros Hm]).
    + simpl in P. discriminate P.
    + lra.
    + split; assumption.
    + apply prefix_app.
    + simpl in P. discriminate P.
    + lra.
  - assert (monthly <= 10000) by (apply L10; reflexivity).
    split; [|split]; (split; [intros P | intros Hm]).
    + simpl in P. discriminate P.
    + lra.
    + simpl in P. discriminate P.
    + lra.
    + assumption.
    + apply prefix_app.
Qed.

(** ** Regions *)

Lemma lookup_map {A B : Type} (f : A -> B) (key : string)
    (d : list (string * A)) :
  lookup key (map (fun item => (fst item, f (snd item))) d)
  = option_map f (lookup key d).
Proof.
  induction d as [|[k v] d IH]; cbn [map lookup fst snd]; [reflexivity|].
  destruct (String.eqb k key); [reflexivity | exact IH].
Qed.

(** X22. The regional comparison has one entry for each of the eight
    regions of the table and for no other name; the entry of a region
    carries the energy times the factor of that region; that of
    US_Average is the default conversion, at 100 per cent; and for an
    energy that is not negative every entry lies between that of France
    and that of Coal_Heavy. *)
Theorem compare_regions (energy : Q) :
  map fst (compare_emission_factors energy)
  = [ "US_Average"; "Coal_Heavy"; "Natural_Gas"; "Renewable_Heavy"; "UK";
      "France"; "Germany"; "India" ]%string /\
  (forall region,
     lookup region (compare_emission_factors energy)
     = option_map (region_entry energy)
                  (lookup region EMISSION_FACTORS_BY_REGION)) /\
  (exists us,
     lookup "US_Average" (compare_emission_factors energy) = Some us /\
     co2_kg us = calculate_daily_co2_emissions energy DEFAULT_EMISSION_FACTOR /\
     percentage_of_us_average us == 100) /\
  (0 <= energy ->
   exists fr coal,
     lookup "France" (compare_emission_factors energy) = Some fr /\
     lookup "Coal_Heavy" (compare_emission_factors energy) = Some coal /\
     Forall (fun item => co2_kg fr <= co2_kg (snd item) /\
                         co2_kg (snd item) <= co2_kg coal)
            (compare_emission_factors energy)).
Proof.
  assert (E : compare_emission_factors energy
              = map (fun item => (fst item, region_entry energy (snd item)))
                    EMISSION_FACTORS_BY_REGION).
  { unfold compare_emission_factors. apply map_ext. intros [r f]. reflexivity. }
  split; [reflexivity|]. split; [|split].
  - intros region. rewrite E. apply lookup_map.
  - eexists. split; [reflexivity|]. split; reflexivity.
  - intros He. do 2 eexists. split; [reflexivity|]. split; [reflexivity|].
    cbn [compare_emission_factors EMISSION_FACTORS_BY_REGION map co2_kg snd].
    repeat constructor; cbn [co2_kg snd]; lra.
Qed.

Lemma compare_regions_witness :
  0 <= 1000 /\
  exists fr coal,
    lookup "France" (compare_emission_factors 1000) = Some fr /\
    lookup "Coal_Heavy" (compare_emission_factors 1000) = Some coal /\
    Forall (fun item => co2_kg fr <= co2_kg (snd item) /\
                        co2_kg (snd item) <= co2_kg coal)
           (compare_emission_factors 1000).
Proof.
  split; [discriminate|].
  apply (proj2 (proj2 (proj2 (compare_regions 1000)))). discriminate.
Defined.

End CarbonReportFacts.

Module CalendarFacts.
Import CalendarViews.
Local Open Scope Z_scope.

Lemma all_from_spec (n : nat) (z : Z) (p : Z -> bool) :
  all_from n z p = true ->
  forall x, z <= x < z + Z.of_nat n -> p x = true.
Proof.
  revert z. induction n as [|k IH]; intros z H x Hx; [lia|].
  cbn [all_from] in H. apply andb_true_iff in H. destruct H as [Hz Hrest].
  destruct (Z.eq_dec x z) as [-> | Hne]; [exact Hz|].
  apply (IH (z + 1)); [exact Hrest | lia].
Qed.

Lemma era_days_in_range : all_from era_days 0 month_day_in_range = true.
Proof. vm_compute. reflexivity. Qed.

Lemma era_day_in_range (doe : Z) :
  0 <= doe < 146097 -> month_day_in_range doe = true.
Proof.
  intros H. apply (all_from_spec _ _ _ era_days_in_range).
  unfold era_days. rewrite Z2Nat.id; lia.
Qed.

Lemma civil_month_day (z : Z) :
  let '(y, m, d) := Calendar.civil_from_days z in
  (m, d) = month_day_of_era_day ((z + 719468) mod 146097).
Proof.
  unfold Calendar.civil_from_days, month_day_of_era_day. cbv zeta.
  replace (z + 719468 - (z + 719468) / 146097 * 146097)
    with ((z + 719468) mod 146097)
    by (rewrite Z.mod_eq by lia; lia).
  reflexivity.
Qed.

(** Every day number falls on a month from 1 to 12 and a day from 1 to
    31. *)
Lemma civil_from_days_range (z : Z) :
  let '(y, m, d) := Calendar.civil_from_days z in
  1 <= m <= 12 /\ 1 <= d <= 31.
Proof.
  pose proof (civil_month_day z) as E.
  destruct (Calendar.civil_from_days z) as [[y m] d].
  pose proof (era_day_in_range _
                (Z.mod_pos_bound (z + 719468) 146097 ltac:(lia))) as C.
  unfold month_day_in_range in C. rewrite <- E in C.
  rewrite !andb_true_iff, !Z.leb_le in C. lia.
Qed.

Lemma hour_range (t : Z) : 0 <= Calendar.hour t <= 23.
Proof.
  unfold Calendar.hour, Calendar.seconds_per_day.
  pose proof (Z.mod_pos_bound t 86400 ltac:(lia)).
  split; [apply Z.div_pos; lia|].
  assert ((t mod 86400) / 3600 < 24) by (apply Z.div_lt_upper_bound; lia).
  lia.
Qed.

Lemma weekday_range (t : Z) : 0 <= Calendar.weekday t <= 6.
Proof.
  unfold Calendar.weekday.
  pose proof (Z.mod_pos_bound (Calendar.date t + 3) 7 ltac:(lia)). lia.
Qed.

(** Two timestamps of one clock hour have the same date and hour. *)
Lemma same_hour (t t' : Z) :
  t / 3600 = t' / 3600 ->
  Calendar.date t = Calendar.date t' /\ Calendar.hour t = Calendar.hour t'.
Proof.
  intros H. unfold Calendar.date, Calendar.hour, Calendar.seconds_per_day.
  assert (D : forall x, x / 86400 = (x / 3600) / 24)
    by (intros x; rewrite Z.div_div by lia; reflexivity).
  assert (M : forall x, (x mod 86400) / 3600 = (x / 3600) mod 24).
  { intros x. rewrite (Z.mod_eq x 86400), (Z.mod_eq (x / 3600) 24) by lia.
    rewrite (D x).
    replace (x - 86400 * (x / 3600 / 24))
      with (x + (- (24 * (x / 3600 / 24))) * 3600) by lia.
    rewrite Z.div_add by lia. lia. }
  rewrite !D, !M, H. split; reflexivity.
Qed.

End CalendarFacts.

Module FeatureFacts.
Import Series SeriesFacts Forecast ForecastViews ForecastFacts CalendarFacts.
Local Open Scope Q_scope.

Lemma feature_bounds (t : Z) :
  let f := extract_time_features t in
  (0 <= hour f <= 23)%Z /\ (0 <= day_of_week f <= 6)%Z /\
  (1 <= day_of_month f <= 31)%Z /\ (1 <= month f <= 12)%Z /\
  (is_weekend f = 1%Z /\ (5 <= day_of_week f)%Z \/
   is_weekend f = 0%Z /\ (day_of_week f < 5)%Z) /\
  (is_business_hour f = 1%Z /\ (9 <= hour f < 17)%Z \/
   is_business_hour f = 0%Z /\ ~ (9 <= hour f < 17)%Z).
Proof.
  cbv zeta. unfold extract_time_features.
  cbn [hour day_of_week day_of_month month is_weekend is_business_hour].
  pose proof (hour_range t) as Hh. pose proof (weekday_range t) as Hw.
  pose proof (civil_from_days_range (Calendar.date t)) as Hc.
  unfold Calendar.day, Calendar.month.
  destruct (Calendar.civil_from_days (Calendar.date t)) as [[y m] d].
  cbn [fst snd].
  split; [exact Hh|]. split; [exact Hw|]. split; [lia|]. split; [lia|].
  split.
  - destruct (5 <=? Calendar.weekday t)%Z eqn:E;
      [apply Z.leb_le in E | apply Z.leb_gt in E]; [left | right];
      split; [reflexivity | lia | reflexivity | lia].
  - destruct (9 <=? Calendar.hour t)%Z eqn:E1;
      destruct (Calendar.hour t <? 17)%Z eqn:E2; cbn [andb];
      try apply Z.leb_le in E1; try apply Z.leb_gt in E1;
      try apply Z.ltb_lt in E2; try apply Z.ltb_ge in E2;
      [left | right | right | right]; split; try reflexivity; lia.
Qed.

(** X23. Whatever the timestamp, the six features are in their ranges:
    hour 0 to 23, day of week 0 to 6, day of month 1 to 31, month 1 to
    12; [is_weekend] is 1 on days 5 and 6 of the week and 0 otherwise;
    [is_business_hour] is 1 from 9 to 16 o'clock and 0 otherwise. *)
Theorem features_in_range (t : Z) :
  let f := extract_time_features t in
  (0 <= hour f <= 23)%Z /\ (0 <= day_of_week f <= 6)%Z /\
  (1 <= day_of_month f <= 31)%Z /\ (1 <= month f <= 12)%Z /\
  (is_weekend f = 1%Z /\ (5 <= day_of_week f)%Z \/
   is_weekend f = 0%Z /\ (day_of_week f < 5)%Z) /\
  (is_business_hour f = 1%Z /\ (9 <= hour f < 17)%Z \/
   is_business_hour f = 0%Z /\ ~ (9 <= hour f < 17)%Z).
Proof.
  apply feature_bounds; assumption.
Qed.

(** X24. The features, and so the prediction, depend on the clock hour
    only: two timestamps within one hour are predicted alike. *)
Theorem predict_ignores_minutes (self : EnergyConsumptionPredictor) (t t' : Z) :
  (t / 3600 = t' / 3600)%Z ->
  extract_time_features t = extract_time_features t' /\
  match predict self t, predict self t' with
  | Ok p, Ok p' => predicted_energy_kwh p = predicted_energy_kwh p' /\
                   features p = features p'
  | Raise e, Raise e' => e = e'
  | _, _ => False
  end.
Proof.
  intros H. destruct (same_hour t t' H) as [Hd Hh].
  assert (E : extract_time_features t = extract_time_features t').
  { unfold extract_time_features, Calendar.weekday, Calendar.day,
      Calendar.month. rewrite Hd, Hh. reflexivity. }
  split; [exact E|]. unfold predict.
  destruct (negb (is_trained self)); [reflexivity|].
  rewrite E. destruct (model self) as [lm|]; cbn [model_predict map bind].
  - cbn [predicted_energy_kwh features]. split; reflexivity.
  - reflexivity.
Qed.

Lemma predict_ignores_minutes_witness :
  (0 / 3600 = 3599 / 3600)%Z /\
  extract_time_features 0 = extract_time_features 3599.
Proof.
  split; [reflexivity|].
  exact (proj1 (predict_ignores_minutes Samples.sample_predictor 0 3599 eq_refl)).
Defined.

(** ** The rows of a forecast *)

Lemma date_range_forward (s e : Z) (freq : frequency) :
  (0 < stride freq)%Z -> (s <= e)%Z ->
  let n := Z.to_nat ((e - s) / stride freq + 1) in
  date_range s e freq
  = Ok (map (fun i => (s + Z.of_nat i * stride freq)%Z) (seq 0 n)) /\
  (1 <= n)%nat /\
  (forall i, (i < n)%nat ->
             (s <= s + Z.of_nat i * stride freq <= e)%Z) /\
  (e - stride freq < s + Z.of_nat (n - 1) * stride freq)%Z.
Proof.
  intros Hs Hse n.
  assert (Hq : (0 <= (e - s) / stride freq)%Z) by (apply Z.div_pos; lia).
  pose proof (Z.mul_div_le (e - s) (stride freq) Hs) as Hlo.
  pose proof (Z.mul_succ_div_gt (e - s) (stride freq) Hs) as Hhi.
  split; [apply date_range_steps; lia|]. split; [unfold n; lia|]. split.
  - intros i Hi. unfold n in Hi.
    assert (Hi' : (Z.of_nat i <= (e - s) / stride freq)%Z) by lia.
    assert (Z.of_nat i * stride freq <= (e - s) / stride freq * stride freq)%Z
      by (apply Z.mul_le_mono_nonneg_r; lia).
    nia.
  - replace (Z.of_nat (n - 1)) with ((e - s) / stride freq)%Z by (unfold n; lia).
    nia.
Qed.

(** X26. With a positive step and an end not before the start, the
    forecast of a trained, fitted predictor has
    [(end - start) // step + 1] rows; row [i] is for the timestamp
    [start + i * step], which is not after the end, and carries the
    clamped model output there; the last row is less than one step
    before the end.  So an hourly forecast over whole days has
    24 rows a day and one more. *)
Theorem forecast_rows (self : EnergyConsumptionPredictor)
    (lm : LinearRegression) (s e : Z) (freq : frequency) :
  is_trained self = true -> model self = Some lm ->
  (0 < stride freq)%Z -> (s <= e)%Z ->
  exists rows,
    predict_range self s e freq = Ok rows /\
    length rows = Z.to_nat ((e - s) / stride freq + 1) /\
    (forall i row,
       nth_error rows i = Some row ->
       fst row = (s + Z.of_nat i * stride freq)%Z /\
       (s <= fst row <= e)%Z /\
       snd row = np_maximum (raw lm (fst row)) 0) /\
    (forall row, nth_error rows (length rows - 1) = Some row ->
                 (e - stride freq < fst row)%Z) /\
    (forall days, (0 <= days)%Z -> e = (s + days * 86400)%Z -> freq = hourly ->
                  length rows = Z.to_nat (24 * days + 1)).
Proof.
  intros Ht Hm Hs Hse.
  destruct (date_range_forward s e freq Hs Hse) as (Ed & Hn & Hin & Hlast).
  cbv zeta in *. set (n := Z.to_nat ((e - s) / stride freq + 1)) in *.
  eexists. split.
  - apply (predict_range_fitted self lm s e freq _ Ht Hm Ed).
    destruct n; [lia | discriminate].
  - rewrite !length_map, length_seq.
    assert (Hrow : forall i row,
              nth_error (map (fun t => (t, np_maximum (raw lm t) 0))
                           (map (fun i => (s + Z.of_nat i * stride freq)%Z)
                                (seq 0 n))) i = Some row ->
              (i < n)%nat /\ fst row = (s + Z.of_nat i * stride freq)%Z /\
              snd row = np_maximum (raw lm (fst row)) 0).
    { intros i row Hi. rewrite !nth_error_map, nth_error_seq in Hi.
      destruct (i <? n)%nat eqn:Ei; [|discriminate Hi].
      apply Nat.ltb_lt in Ei. cbn [option_map] in Hi. injection Hi as <-.
      cbn [fst snd]. rewrite ?Nat.add_0_l. split; [exact Ei|]. split; reflexivity. }
    split; [reflexivity|]. split; [|split].
    + intros i row Hi. destruct (Hrow i row Hi) as (Hlt & Ef & Ev).
      split; [exact Ef|]. split; [rewrite Ef; apply Hin, Hlt | exact Ev].
    + intros row Hi. destruct (Hrow _ row Hi) as (_ & Ef & _).
      rewrite Ef. exact Hlast.
    + intros days Hd -> ->. unfold n. f_equal.
      change (stride hourly) with 3600%Z.
      replace (s + days * 86400 - s)%Z with (24 * days * 3600)%Z by lia.
      rewrite Z.div_mul by lia. reflexivity.
Qed.

Lemma forecast_rows_witness :
  is_trained Samples.sample_predictor = true /\
  model Samples.sample_predictor = Some Samples.sample_model /\
  (0 < stride hourly)%Z /\ (0 <= 7 * 86400)%Z /\
  exists rows,
    predict_range Samples.sample_predictor 0 (7 * 86400) hourly = Ok rows /\
    length rows = 169%nat.
Proof.
  split; [reflexivity|]. split; [reflexivity|].
  split; [reflexivity|]. split; [discriminate|].
  destruct (forecast_rows Samples.sample_predictor Samples.sample_model
              0 (7 * 86400) hourly eq_refl eq_refl eq_refl ltac:(discriminate))
    as (rows & E & L & _).
  exists rows. split; [exact E | exact L].
Defined.

(** ** Training and explaining *)

Lemma explain_model_fitted (self : EnergyConsumptionPredictor)
    (lm : LinearRegression) (now : Z) :
  is_trained self = true -> model self = Some lm ->
  exists text, explain_model self now = Ok text.
Proof.
  intros Ht Hm. unfold explain_model. rewrite Ht, Hm. cbn [negb].
  rewrite (predict_fitted self lm _ Ht Hm). cbn [bind]. eexists. reflexivity.
Qed.

(** X27. Training on an empty history raises the ValueError of the
    fit.  When training returns, the history was not empty, the
    predictor is trained with a fitted model, and [explain_model] on it
    returns a text whatever the clock reads. *)
Theorem train_empty_or_trained
    (fit : list (Features Z) -> list Q -> LinearRegression)
    (self : EnergyConsumptionPredictor) (data_df : list (Z * Q)) :
  (data_df = [] ->
   train fit self data_df
   = Raise (ValueError "Expected 2D array, got 1D array instead")) /\
  (forall trained,
     train fit self data_df = Ok trained ->
     data_df <> [] /\ is_trained trained = true /\
     (exists lm, model trained = Some lm) /\
     forall now, exists text, explain_model trained now = Ok text).
Proof.
  destruct data_df as [|row rest].
  - split; [reflexivity|]. intros trained H. discriminate H.
  - assert (Hne : row :: rest <> []) by discriminate.
    pose proof (train_fits fit self (row :: rest) Hne) as E.
    split; [discriminate|].
    intros trained H. rewrite E in H. injection H as <-.
    split; [exact Hne|]. split; [reflexivity|].
    split; [eexists; reflexivity|].
    intros now. eapply explain_model_fitted; reflexivity.
Qed.

Lemma train_empty_or_trained_witness :
  exists trained text,
    train Samples.flat_fit Samples.sample_predictor [(0%Z, 5)] = Ok trained /\
    is_trained trained = true /\
    explain_model trained 0 = Ok text.
Proof.
  destruct (train_empty_or_trained Samples.flat_fit Samples.sample_predictor
              [(0%Z, 5)]) as (_ & H).
  destruct (H _ eq_refl) as (_ & Ht & _ & Hx).
  destruct (Hx 0%Z) as (text & Et).
  eexists. exists text. split; [reflexivity|]. split; [exact Ht | exact Et].
Defined.

(** X28. Once the predictor is trained and fitted, [explain_model]
    returns a text for every reading of the clock and never raises;
    with the flag set on a model that was never fitted it raises an
    AttributeError. *)
Theorem explain_model_trained (self : EnergyConsumptionPredictor) (now : Z) :
  is_trained self = true ->
  (forall lm, model self = Some lm ->
              exists text, explain_model self now = Ok text) /\
  (model self = None ->
   explain_model self now = Raise (AttributeError "coef_")).
Proof.
  intros Ht. split.
  - intros lm Hm. exact (explain_model_fitted self lm now Ht Hm).
  - intros Hm. unfold explain_model. rewrite Ht, Hm. reflexivity.
Qed.

Lemma explain_model_trained_witness :
  is_trained Samples.sample_predictor = true /\
  model Samples.sample_predictor = Some Samples.sample_model /\
  exists text, explain_model Samples.sample_predictor 0 = Ok text.
Proof.
  split; [reflexivity|]. split; [reflexivity|].
  apply (proj1 (explain_model_trained Samples.sample_predictor 0 eq_refl)
           Samples.sample_model eq_refl).
Defined.

End FeatureFacts.

Module ApiFacts.
Import Forecast ForecastFacts Http.

Lemma train_ok_fitted
    (fit : list (Features Z) -> list Q -> LinearRegression)
    (self trained : EnergyConsumptionPredictor) (data_df : list (Z * Q)) :
  train fit self data_df = Ok trained ->
  is_trained trained = true /\ exists lm, model trained = Some lm.
Proof.
  unfold train. destruct (prepare_data data_df) as [X y].
  destruct (model_fit fit X y) as [fitted | e]; cbn [bind]; [|discriminate].
  intros [= <-]. split; [reflexivity | eexists; reflexivity].
Qed.



(** X30. As long as a stored predictor that is flagged trained has a
    fitted model, which the training endpoint keeps true, the explain
    endpoint of [prediction_api.py] lets no exception out: it answers
    400 when nothing is stored or the stored predictor is untrained,
    which is when the status endpoint reports an untrained model, and
    otherwise returns the text of [explain_model] with the six
    coefficients under their feature names and the intercept. *)
Theorem explain_endpoint_total
    (fit : list (Features Z) -> list Q -> LinearRegression)
    (pm : option EnergyConsumptionPredictor) (now : Z) :
  PredictionApi.consistent pm ->
  (forall energy_readings now',
     PredictionApi.consistent
       (snd (PredictionApi.train_prediction_model fit pm energy_readings now'))) /\
  ((pm = None \/ exists p, pm = Some p /\ is_trained p = false) ->
   PredictionApi.status_is_trained (PredictionApi.get_model_status pm) = false /\
   PredictionApi.explain_model pm now = HTTPException 400) /\
  (forall p,
     pm = Some p -> is_trained p = true ->
     exists lm body,
       model p = Some lm /\
       PredictionApi.status_is_trained (PredictionApi.get_model_status pm) = true /\
       PredictionApi.explain_model pm now = Returned body /\
       Forecast.explain_model p now = Ok (PredictionApi.explanation body) /\
       PredictionApi.coefficients body
       = combine (to_list feature_names) (to_list (coef_ lm)) /\
       PredictionApi.intercept body = intercept_ lm).
Proof.
  intros C. split; [|split].
  - intros rows now'. unfold PredictionApi.train_prediction_model.
    destruct (length rows <? 100)%nat; cbn [snd]; [exact C|].
    cbv zeta.
    destruct (train fit init (data_list rows)) as [trained | e] eqn:E;
      cbn [snd]; intros p [= <-] Ht.
    + destruct (train_ok_fitted fit init _ _ E) as (_ & lm & Hm).
      rewrite Hm. discriminate.
    + discriminate Ht.
  - intros [-> | (p & -> & Ht)].
    + split; reflexivity.
    + unfold PredictionApi.explain_model, PredictionApi.get_model_status.
      rewrite Ht. split; reflexivity.
  - intros p -> Ht.
    destruct (model p) as [lm|] eqn:Hm; [|exfalso; apply (C p eq_refl Ht), Hm].
    assert (Hx : exists text, Forecast.explain_model p now = Ok text).
    { unfold Forecast.explain_model. rewrite Ht, Hm. cbn [negb].
      rewrite (predict_fitted p lm _ Ht Hm). cbn [bind]. eexists. reflexivity. }
    destruct Hx as (text & Hx).
    exists lm. eexists. split; [reflexivity|].
    unfold PredictionApi.explain_model, PredictionApi.get_model_status.
    rewrite Ht, Hx, Hm. cbn [negb PredictionApi.status_is_trained].
    split; [reflexivity|]. split; [reflexivity|].
    cbn [PredictionApi.explanation PredictionApi.coefficients
         PredictionApi.intercept].
    repeat split.
Qed.

Lemma explain_endpoint_total_witness :
  PredictionApi.consistent (Some Samples.sample_predictor) /\
  exists body,
    PredictionApi.explain_model (Some Samples.sample_predictor) 0
    = Returned body.
Proof.
  assert (C : PredictionApi.consistent (Some Samples.sample_predictor)).
  { intros p [= <-] _. discriminate. }
  split; [exact C|].
  destruct (proj2 (proj2 (explain_endpoint_total Samples.flat_fit
                            (Some Samples.sample_predictor) 0 C))
              Samples.sample_predictor eq_refl eq_refl)
    as (lm & body & _ & _ & E & _).
  exists body. exact E.
Defined.

End ApiFacts.
